(** * Agent-run monitoring and log extraction (backend/api_routes.py,
    backend/codegen_client.py)

  A shallow embedding of the log extractors, the polling monitor, the
  agent client and the subscription broadcaster, with the properties of
  the design document proved about them.

  Text is modelled as [string] whose characters are the code points
  below 256; on that range [str.lower], [str.strip] and the regular
  expression classes used by the source are written out in full. *)

From Stdlib Require Import String Ascii List Bool Arith Lia.
Import ListNotations.
Local Open Scope string_scope.
Local Open Scope list_scope.
Local Open Scope nat_scope.

(** ** Python string operations used by the source *)

Module PyStr.

Definition code (c : ascii) : nat := nat_of_ascii c.

(** [str.lower] on one character: A-Z and the upper-case letters of the
    Latin-1 block (U+00C0-U+00DE except the multiplication sign). *)
Definition lower_char (c : ascii) : ascii :=
  let n := code c in
  if ((65 <=? n) && (n <=? 90))
     || ((192 <=? n) && (n <=? 222) && negb (n =? 215))
  then ascii_of_nat (n + 32)
  else c.

Fixpoint lower (s : string) : string :=
  match s with
  | EmptyString => EmptyString
  | String c s' => String (lower_char c) (lower s')
  end.

(** [str.isspace] on one character. *)
Definition is_space (c : ascii) : bool :=
  let n := code c in
  ((9 <=? n) && (n <=? 13)) || ((28 <=? n) && (n <=? 32))
  || (n =? 133) || (n =? 160).

Fixpoint lstrip (s : string) : string :=
  match s with
  | EmptyString => EmptyString
  | String c s' => if is_space c then lstrip s' else s
  end.

Fixpoint rstrip (s : string) : string :=
  match s with
  | EmptyString => EmptyString
  | String c s' =>
      match rstrip s' with
      | EmptyString => if is_space c then EmptyString else String c EmptyString
      | r => String c r
      end
  end.

Definition strip (s : string) : string := rstrip (lstrip s).

(** Truth value of a string in a condition: non-empty. *)
Definition truthy (s : string) : bool :=
  match s with EmptyString => false | String _ _ => true end.

(** [s.startswith(p)]. *)
Fixpoint startswith (p s : string) : bool :=
  match p, s with
  | EmptyString, _ => true
  | String a p', String b s' => Ascii.eqb a b && startswith p' s'
  | String _ _, EmptyString => false
  end.

(** [p in s] for strings: [p] occurs as a substring of [s]. *)
Fixpoint contains (p s : string) : bool :=
  startswith p s
  || match s with
     | EmptyString => false
     | String _ s' => contains p s'
     end.

Definition newline : string := String (ascii_of_nat 10) EmptyString.

(** [sep.join(parts)]. *)
Definition join (sep : string) (parts : list string) : string :=
  String.concat sep parts.

End PyStr.

(** ** Log extractors (api_routes.py) *)

Module Extract.
Import PyStr.

(** The fallback returned by [extract_plan_from_logs]. *)
Definition default_plan : string :=
"# Implementation Plan

## Phase 1: Analysis and Setup
- Analyze current codebase structure
- Identify required dependencies
- Set up development environment

## Phase 2: Core Implementation
- Implement main functionality
- Add error handling
- Write unit tests

## Phase 3: Integration and Testing
- Integrate with existing systems
- Perform integration testing
- Optimize performance

## Phase 4: Documentation and Deployment
- Update documentation
- Prepare deployment scripts
- Deploy to staging environment".

(** ["implementation plan" in log_entry.lower()] *)
Definition has_plan_marker (log_entry : string) : bool :=
  contains "implementation plan" (lower log_entry).

(** The [for] loop of [extract_plan_from_logs], with its two local
    variables threaded through; the result is [plan_content] when the
    loop ends or breaks. *)
Fixpoint plan_loop (logs : list string) (in_plan_section : bool)
         (plan_content : list string) : list string :=
  match logs with
  | [] => plan_content
  | log_entry :: rest =>
      if has_plan_marker log_entry then
        plan_loop rest true plan_content
      else if in_plan_section && truthy (strip log_entry) then
        plan_loop rest in_plan_section (plan_content ++ [log_entry])
      else if in_plan_section && negb (truthy (strip log_entry)) then
        plan_content
      else
        plan_loop rest in_plan_section plan_content
  end.

Definition extract_plan_from_logs (logs : list string) : string :=
  let plan_content := plan_loop logs false [] in
  match plan_content with
  | _ :: _ => join newline plan_content
  | [] => default_plan
  end.

(** *** [extract_pr_url_from_logs] *)

(** [\d] on code points below 256: the ten ASCII digits. *)
Definition is_digit (c : ascii) : bool :=
  let n := code c in (48 <=? n) && (n <=? 57).

(** [[^/]]: every character but the slash (a newline included). *)
Definition not_slash (c : ascii) : bool := negb (Ascii.eqb c "/").

(** A literal piece of the pattern, consumed at the head of [s]. *)
Fixpoint literal (lit s : string) : option string :=
  match lit, s with
  | EmptyString, _ => Some s
  | String a lit', String b s' =>
      if Ascii.eqb a b then literal lit' s' else None
  | String _ _, EmptyString => None
  end.

(** The longest run of characters of a class at the head of [s], and
    what follows it. *)
Fixpoint span (cls : ascii -> bool) (s : string) : string * string :=
  match s with
  | EmptyString => (EmptyString, EmptyString)
  | String c s' =>
      if cls c then
        let (run, rest) := span cls s' in (String c run, rest)
      else (EmptyString, s)
  end.

(** [cls+], greedy.  In the pattern below every [cls+] is followed by a
    character outside [cls] (or is last), so giving back characters can
    never make a failed match succeed: the longest run is the only
    candidate the backtracking matcher can accept. *)
Definition one_or_more (cls : ascii -> bool) (s : string)
  : option (string * string) :=
  match span cls s with
  | (EmptyString, _) => None
  | (run, rest) => Some (run, rest)
  end.

Notation "x <- e ;; k" :=
  (match e with Some x => k | None => None end)
    (at level 61, e at next level, right associativity, only parsing).
Notation "' p <- e ;; k" :=
  (match e with Some p => k | None => None end)
    (at level 61, p pattern, e at next level, right associativity,
     only parsing).

(** [re.match(r'https://github\.com/[^/]+/[^/]+/pull/\d+', s)]: the
    text matched at the head of [s]. *)
Definition match_pr_url (s : string) : option string :=
  s1 <- literal "https://github.com/" s ;;
  '(owner, s2) <- one_or_more not_slash s1 ;;
  s3 <- literal "/" s2 ;;
  '(repo, s4) <- one_or_more not_slash s3 ;;
  s5 <- literal "/pull/" s4 ;;
  '(digits, _) <- one_or_more is_digit s5 ;;
  Some ("https://github.com/" ++ owner ++ "/" ++ repo ++ "/pull/" ++ digits)%string.

(** [re.search(pattern, s).group(0)]: the match at the leftmost position
    that has one. *)
Fixpoint search_pr_url (s : string) : option string :=
  match match_pr_url s with
  | Some url => Some url
  | None =>
      match s with
      | EmptyString => None
      | String _ s' => search_pr_url s'
      end
  end.

Fixpoint extract_pr_url_from_logs (logs : list string) : option string :=
  match logs with
  | [] => None
  | log_entry :: rest =>
      if contains "pull request" (lower log_entry)
         && contains "https://github.com" log_entry
      then
        match search_pr_url log_entry with
        | Some url => Some url
        | None => extract_pr_url_from_logs rest
        end
      else extract_pr_url_from_logs rest
  end.

End Extract.

(** ** Agent client (codegen_client.py) *)

Module Codegen.
Import PyStr.

(** Outcome of a call that may raise. *)
Inductive Result (A : Type) : Type :=
| Raised (e : string)
| Returned (a : A).
Arguments Raised {A} e.
Arguments Returned {A} a.

(** What [requests.get]/[requests.post] meets on the wire: no response
    at all, or a response with a status code and a body that is JSON of
    the expected shape or not JSON. *)
Inductive Http (A : Type) : Type :=
| ConnectionFailed (e : string)
| Response (status_code : nat) (json : option A).
Arguments ConnectionFailed {A} e.
Arguments Response {A} status_code json.

(** [response.raise_for_status()] raises on 4xx and 5xx. *)
Definition is_http_error (status_code : nat) : bool :=
  (400 <=? status_code) && (status_code <? 600).

Definition _make_request {A : Type} (method : string) (wire : Http A)
  : Result A :=
  if ((lower method =? "get") || (lower method =? "post"))%string then
    match wire with
    | ConnectionFailed e => Raised e
    | Response status_code json =>
        if is_http_error status_code then Raised "HTTPError"
        else
          match json with
          | Some body => Returned body
          | None => Raised "JSONDecodeError"
          end
    end
  else Raised ("Unsupported method: " ++ method)%string.

(** The agent-run document; the monitor reads [agent_run.get("status")],
    which is [None] when the key is absent. *)
Record AgentRun : Type := { run_status : option string }.

(** The logs document; the monitor reads [logs.get("logs", [])]. *)
Record AgentRunLogs : Type := { logs_lines : option (list string) }.

Definition get_agent_run (wire : Http AgentRun) : Result AgentRun :=
  _make_request "get" wire.

Definition get_agent_run_logs (wire : Http AgentRunLogs)
  : Result AgentRunLogs :=
  _make_request "get" wire.

(** The run status vocabulary of the design document. *)
Inductive RunStatus : Type :=
| pending | running | completed | failed | unknown.

(** The status of a fetched run in that vocabulary: the four known
    strings, and [unknown] for any other or absent one. *)
Definition status_of (run : AgentRun) : RunStatus :=
  match run_status run with
  | Some s =>
      if (s =? "pending")%string then pending
      else if (s =? "running")%string then running
      else if (s =? "completed")%string then completed
      else if (s =? "failed")%string then failed
      else unknown
  | None => unknown
  end.

End Codegen.

(** ** Client construction (codegen_client.py, [CodegenClient.__init__];
    api_routes.py, [get_codegen_client]) *)

Module Client.
Import Codegen.

(** The two environment variables the constructor reads. *)
Record Env : Type := {
  CODEGEN_ORG_ID : option string;
  CODEGEN_TOKEN : option string
}.

Record CodegenClient : Type := {
  org_id : string;
  token : string;
  base_url : string;
  headers : list (string * string)
}.

(** [a or b] on optional strings: [a] when it is a non-empty string. *)
Definition py_or (a b : option string) : option string :=
  match a with
  | Some (String _ _) => a
  | _ => b
  end.

Definition default_base_url : string := "https://api.codegen.com/v1".

(** [CodegenClient(org_id, token, base_url)]; [Raised] is the
    [ValueError] of the constructor. *)
Definition init (org_id token : option string) (base_url : string)
           (env : Env) : Result CodegenClient :=
  let self_org_id := py_or org_id (CODEGEN_ORG_ID env) in
  let self_token := py_or token (CODEGEN_TOKEN env) in
  match self_org_id with
  | Some (String _ _ as o) =>
      match self_token with
      | Some (String _ _ as t) =>
          Returned {| org_id := o;
                      token := t;
                      base_url := base_url;
                      headers := [("authorization", "Bearer " ++ t);
                                  ("Content-Type", "application/json")]%string |}
      | _ =>
          Raised "API token is required. Set CODEGEN_TOKEN environment variable or pass token parameter."
      end
  | _ =>
      Raised "Organization ID is required. Set CODEGEN_ORG_ID environment variable or pass org_id parameter."
  end.

(** [get_codegen_client()]: the process-wide client, made on first use.
    The second component is the global variable afterwards. *)
Definition get_codegen_client (codegen_client : option CodegenClient)
           (env : Env) : Result CodegenClient * option CodegenClient :=
  match codegen_client with
  | Some c => (Returned c, Some c)
  | None =>
      match init None None default_base_url env with
      | Returned c => (Returned c, Some c)
      | Raised e => (Raised e, None)
      end
  end.

(** An optional string that counts as given: present and non-empty. *)
Definition has_value (a : option string) : Prop :=
  match a with
  | Some (String _ _) => True
  | _ => False
  end.

End Client.

(** ** Run monitor (api_routes.py, [monitor_agent_run_for_pr]) *)

Module Monitor.
Import PyStr Extract Codegen Client.

(** The [event_data] dictionaries handed to the broadcaster. *)
Record EventData : Type := {
  ev_status : string;
  ev_prUrl : option string;
  ev_error : option string;
  ev_createdAt : string
}.

(** What one monitor task does, in order.  [Broadcast] is the call
    [manager.broadcast_pr_event(project_id, requirement_id, event_data)].
    The broadcaster catches what its sends raise (see [Registry]), but
    not what the iteration over the subscriptions raises when the
    registry changes while a send is awaited: the call can raise. *)
Inductive Action : Type :=
| GetAgentRun (agent_run_id : string)
| GetAgentRunLogs (agent_run_id : string)
| Broadcast (project_id requirement_id : string) (event_data : EventData)
| LogInfo (msg : string)
| LogError (msg : string)
| Sleep (seconds : nat).

(** The surroundings of one monitor task: what the service answers to
    the call made in loop iteration [attempt], the clock reading
    ([datetime.now().isoformat()]) at that iteration, and what the
    broadcast awaited in that iteration raises, if it raises
    ([broadcast_raises w max_attempts] is for the broadcast after the
    loop). *)
Record World : Type := {
  run_wire : nat -> Http AgentRun;
  logs_wire : nat -> Http AgentRunLogs;
  now : nat -> string;
  broadcast_raises : nat -> option string
}.

Inductive Flow : Type := Break | Continue.

(** How the task ends: it returns, or an exception leaves it. *)
Inductive TaskEnd : Type := Returns | Raises (e : string).

Definition max_attempts : nat := 60.

Definition str_eq (v : option string) (lit : string) : bool :=
  match v with
  | Some s => (s =? lit)%string
  | None => false
  end.

Section Task.
Variable w : World.
Variables agent_run_id project_id requirement_id : string.

Definition log_monitor_error (e : string) : Action :=
  LogError ("Error monitoring agent run " ++ agent_run_id ++ ": " ++ e)%string.

(** [await manager.broadcast_pr_event(...)] inside the [try] of the
    loop, after the actions [before]: when the call returns, the rest
    of the branch ([after]) runs and the loop is left by [break]; when
    it raises, the [except] clause logs the error, waits and the loop
    goes on. *)
Definition broadcast_then (attempt : nat) (before : list Action)
           (event_data : EventData) (after : list Action)
  : list Action * Flow :=
  match broadcast_raises w attempt with
  | None =>
      (before ++ Broadcast project_id requirement_id event_data :: after,
       Break)
  | Some e =>
      (before ++ [Broadcast project_id requirement_id event_data;
                  log_monitor_error e; Sleep 10], Continue)
  end.

(** The body of the [while] loop at a given value of [attempt]: the
    actions performed, and whether the loop is left by [break] or
    goes on with [attempt + 1]. *)
Definition loop_body (attempt : nat) : list Action * Flow :=
  match get_agent_run (run_wire w attempt) with
  | Raised e =>
      ([GetAgentRun agent_run_id; log_monitor_error e; Sleep 10], Continue)
  | Returned agent_run =>
      if str_eq (run_status agent_run) "completed" then
        match get_agent_run_logs (logs_wire w attempt) with
        | Raised e =>
            ([GetAgentRun agent_run_id; GetAgentRunLogs agent_run_id;
              log_monitor_error e; Sleep 10], Continue)
        | Returned logs =>
            let lines :=
              match logs_lines logs with Some l => l | None => [] end in
            match extract_pr_url_from_logs lines with
            | Some (String c u as pr_url) =>
                broadcast_then attempt
                  [GetAgentRun agent_run_id; GetAgentRunLogs agent_run_id]
                  {| ev_status := "created";
                     ev_prUrl := Some pr_url;
                     ev_error := None;
                     ev_createdAt := now w attempt |}
                  [LogInfo ("PR created for requirement " ++ requirement_id
                            ++ ": " ++ pr_url)%string]
            | _ =>
                broadcast_then attempt
                  [GetAgentRun agent_run_id; GetAgentRunLogs agent_run_id]
                  {| ev_status := "failed";
                     ev_prUrl := None;
                     ev_error :=
                       Some "Implementation completed but no PR was created";
                     ev_createdAt := now w attempt |}
                  []
            end
        end
      else if str_eq (run_status agent_run) "failed" then
        broadcast_then attempt
          [GetAgentRun agent_run_id]
          {| ev_status := "failed";
             ev_prUrl := None;
             ev_error := Some "Implementation failed";
             ev_createdAt := now w attempt |}
          []
      else
        ([GetAgentRun agent_run_id; Sleep 10], Continue)
  end.

(** [while attempt < max_attempts: ...].  [fuel] bounds the number of
    iterations unfolded; [None] means it ran out. *)
Fixpoint while_loop (fuel attempt : nat) : option (list Action * nat) :=
  if attempt <? max_attempts then
    match fuel with
    | 0 => None
    | S fuel' =>
        match loop_body attempt with
        | (acts, Break) => Some (acts, attempt)
        | (acts, Continue) =>
            match while_loop fuel' (attempt + 1) with
            | Some (acts', attempt') => Some (acts ++ acts', attempt')
            | None => None
            end
        end
    end
  else Some ([], attempt).

Definition timeout_event (attempt : nat) : EventData :=
  {| ev_status := "failed";
     ev_prUrl := None;
     ev_error := Some "Monitoring timeout - PR status unknown";
     ev_createdAt := now w attempt |}.

(** The whole task: the client is fetched (an exception there leaves
    the task before it does anything), then the loop runs from
    [attempt = 0], then comes the test [attempt >= max_attempts] with
    its broadcast, which is outside any [try].  The last component is
    the global client variable afterwards. *)
Definition monitor_agent_run_for_pr (codegen_client : option CodegenClient)
           (env : Env) (fuel : nat)
  : option (list Action * TaskEnd * option CodegenClient) :=
  match get_codegen_client codegen_client env with
  | (Raised e, g) => Some ([], Raises e, g)
  | (Returned _, g) =>
      match while_loop fuel 0 with
      | Some (acts, attempt) =>
          if max_attempts <=? attempt then
            Some (acts ++ [Broadcast project_id requirement_id
                             (timeout_event attempt)],
                  match broadcast_raises w attempt with
                  | Some e => Raises e
                  | None => Returns
                  end,
                  g)
          else Some (acts, Returns, g)
      | None => None
      end
  end.

End Task.

(** The events a task emitted and the polls it made. *)
Definition events (acts : list Action) : list EventData :=
  flat_map (fun a => match a with
                     | Broadcast _ _ e => [e]
                     | _ => []
                     end) acts.

Definition is_poll (a : Action) : bool :=
  match a with GetAgentRun _ => true | _ => false end.

Definition is_broadcast (a : Action) : bool :=
  match a with Broadcast _ _ _ => true | _ => false end.

Definition is_sleep (a : Action) : bool :=
  match a with Sleep _ => true | _ => false end.

Definition polls (acts : list Action) : nat :=
  List.length (filter is_poll acts).

(** The waits of a task, in order. *)
Definition sleeps (acts : list Action) : list nat :=
  flat_map (fun a => match a with
                     | Sleep seconds => [seconds]
                     | _ => []
                     end) acts.

End Monitor.

(** ** Subscription registry and broadcaster (api_routes.py,
     [ConnectionManager]) *)

Module Registry.
Import Monitor.

(** A connection object; [ws_id] is [id(websocket)].  The source keys
    subscriptions by [str(id(websocket))] and reads the key back with
    [int(connection_id)]; the model keeps the integer. *)
Record WebSocket : Type := { ws_id : nat }.

Record Subscription : Type := {
  sub_project_id : string;
  sub_requirement_id : string;
  sub_agent_run_id : string
}.

(** [pr_subscriptions] is a dictionary: an association list in
    insertion order, one entry per key. *)
Record ConnectionManager : Type := {
  active_connections : list WebSocket;
  pr_subscriptions : list (nat * Subscription)
}.

Definition empty_manager : ConnectionManager :=
  {| active_connections := []; pr_subscriptions := [] |}.

(** [d[k] = v]: the value is replaced in place when the key is there,
    and appended otherwise. *)
Fixpoint dict_set {V : Type} (d : list (nat * V)) (k : nat) (v : V)
  : list (nat * V) :=
  match d with
  | [] => [(k, v)]
  | (k', v') :: d' =>
      if k' =? k then (k, v) :: d' else (k', v') :: dict_set d' k v
  end.

(** [del d[k]], guarded by [k in d]. *)
Fixpoint dict_del {V : Type} (d : list (nat * V)) (k : nat)
  : list (nat * V) :=
  match d with
  | [] => []
  | (k', v') :: d' => if k' =? k then d' else (k', v') :: dict_del d' k
  end.

(** [lst.remove(x)], guarded by [x in lst]: the first occurrence goes. *)
Fixpoint list_remove (l : list WebSocket) (x : WebSocket) : list WebSocket :=
  match l with
  | [] => []
  | y :: l' => if ws_id y =? ws_id x then l' else y :: list_remove l' x
  end.

Definition connect (m : ConnectionManager) (websocket : WebSocket)
  : ConnectionManager :=
  {| active_connections := active_connections m ++ [websocket];
     pr_subscriptions := pr_subscriptions m |}.

Definition disconnect (m : ConnectionManager) (websocket : WebSocket)
           (connection_id : nat) : ConnectionManager :=
  {| active_connections := list_remove (active_connections m) websocket;
     pr_subscriptions := dict_del (pr_subscriptions m) connection_id |}.

(** The subscription made by [websocket_endpoint] on a
    [subscribe_pr_events] message. *)
Definition subscribe (m : ConnectionManager) (connection_id : nat)
           (s : Subscription) : ConnectionManager :=
  {| active_connections := active_connections m;
     pr_subscriptions := dict_set (pr_subscriptions m) connection_id s |}.

(** The message built by [broadcast_pr_event] before serialisation. *)
Record Message : Type := {
  msg_type : string;
  msg_projectId : string;
  msg_requirementId : string;
  msg_event : EventData
}.

(** What the broadcaster does on the observers' channels. *)
Inductive Delivery : Type :=
| Sent (connection_id : nat) (message : Message)
| SendFailedLogged (connection_id : nat) (message : Message).

Definition attempted (d : Delivery) : nat * Message :=
  match d with
  | Sent c msg => (c, msg)
  | SendFailedLogged c msg => (c, msg)
  end.

Section Broadcast.
(** Whether [websocket.send_text] goes through on a connection
    ([false]: it raises, the peer being gone). *)
Variable send_text_ok : nat -> bool.

Definition find_connection (m : ConnectionManager) (connection_id : nat)
  : option WebSocket :=
  find (fun conn => ws_id conn =? connection_id) (active_connections m).

(** One call of the broadcaster over a registry that stays as it is
    while the call runs.  A registry that changes while a send is
    awaited makes the iteration over the subscriptions raise; for the
    monitor that outcome is [Monitor.broadcast_raises]. *)
Definition broadcast_pr_event (m : ConnectionManager)
           (project_id requirement_id : string) (event_data : EventData)
  : list Delivery :=
  let message :=
    {| msg_type := "pr_status_update";
       msg_projectId := project_id;
       msg_requirementId := requirement_id;
       msg_event := event_data |} in
  flat_map
    (fun entry : nat * Subscription =>
       let (connection_id, subscription) := entry in
       if ((sub_project_id subscription =? project_id)
           && (sub_requirement_id subscription =? requirement_id))%string
       then
         match find_connection m connection_id with
         | Some websocket =>
             if send_text_ok (ws_id websocket)
             then [Sent (ws_id websocket) message]
             else [SendFailedLogged (ws_id websocket) message]
         | None => []
         end
       else [])
    (pr_subscriptions m).
End Broadcast.

(** The states the registry can be in: connections are accepted with
    the identity of a live object (fresh among the active ones),
    subscriptions are made by the endpoint of an active connection, and
    a disconnect removes the connection together with its key. *)
Inductive reachable : ConnectionManager -> Prop :=
| reach_init : reachable empty_manager
| reach_connect m websocket :
    reachable m ->
    ~ In (ws_id websocket) (map ws_id (active_connections m)) ->
    reachable (connect m websocket)
| reach_subscribe m websocket s :
    reachable m ->
    In websocket (active_connections m) ->
    reachable (subscribe m (ws_id websocket) s)
| reach_disconnect m websocket :
    reachable m ->
    reachable (disconnect m websocket (ws_id websocket)).

End Registry.

(** ** Vocabulary of the properties *)

Import PyStr Extract Codegen Client Monitor Registry.

(** A phrase occurs in a line up to letter case. *)
Definition mentions (phrase line : string) : Prop :=
  exists a m b, line = (a ++ m ++ b)%string /\ lower m = phrase.

(** Every character of a string is in a class. *)
Fixpoint all_chars (cls : ascii -> bool) (s : string) : Prop :=
  match s with
  | EmptyString => True
  | String c s' => cls c = true /\ all_chars cls s'
  end.

Definition no_marker (l : string) : Prop := has_plan_marker l = false.

Definition non_blank (l : string) : Prop := truthy (strip l) = true.

Definition blank (l : string) : Prop := truthy (strip l) = false.

(** The lines of a plan section that are kept: those that do not
    repeat the marker. *)
Definition kept (body : list string) : list string :=
  filter (fun l => negb (has_plan_marker l)) body.

(** The language of the pattern
    [https://github\.com/[^/]+/[^/]+/pull/\d+]. *)
Definition is_pr_url (u : string) : Prop :=
  exists owner repo digits,
    u = ("https://github.com/" ++ owner ++ "/" ++ repo ++ "/pull/" ++ digits)%string
    /\ owner <> ""%string /\ all_chars not_slash owner
    /\ repo <> ""%string /\ all_chars not_slash repo
    /\ digits <> ""%string /\ all_chars is_digit digits.

(** [u] is what [re.search] reports on [line]: an occurrence of the
    pattern, at the leftmost position that has one, and the longest one
    at that position. *)
Definition leftmost_match (u line : string) : Prop :=
  exists a b,
    line = (a ++ u ++ b)%string
    /\ is_pr_url u
    /\ forall a' u' b',
        line = (a' ++ u' ++ b')%string -> is_pr_url u' ->
        String.length a <= String.length a'
        /\ (String.length a' = String.length a ->
            exists x, u = (u' ++ x)%string).

(** A line on which [extract_pr_url_from_logs] returns: it mentions
    "pull request" in some letter case and holds a pull-request URL. *)
Definition qualifies (line : string) : Prop :=
  mentions "pull request" line
  /\ exists a u b, line = (a ++ u ++ b)%string /\ is_pr_url u.

(** The head of a string is outside a class (or there is no head). *)
Definition stops (cls : ascii -> bool) (s : string) : Prop :=
  match s with
  | EmptyString => True
  | String c _ => cls c = false
  end.

(** The two conditions under which the loop body returns, as a
    decidable test. *)
Definition qualifiesb (line : string) : bool :=
  contains "pull request" (lower line)
  && match search_pr_url line with Some _ => true | None => false end.

Definition is_timeout_event (e : EventData) : Prop :=
  ev_status e = "failed"%string
  /\ ev_error e = Some "Monitoring timeout - PR status unknown"%string.

(** The events of a terminal run status: completed with a URL,
    completed without one, failed. *)
Definition is_status_event (e : EventData) : Prop :=
  (ev_status e = "created"%string /\ exists u, ev_prUrl e = Some u)
  \/ (ev_status e = "failed"%string
      /\ ev_error e = Some "Implementation completed but no PR was created"%string)
  \/ (ev_status e = "failed"%string
      /\ ev_error e = Some "Implementation failed"%string).

Definition no_broadcast (acts : list Action) : Prop :=
  Forall (fun a => is_broadcast a = false) acts.

(** Neither a poll, nor a wait, nor an event. *)
Definition quiet (acts : list Action) : Prop :=
  Forall (fun a => is_poll a = false /\ is_sleep a = false
                   /\ is_broadcast a = false) acts.

(** The poll of iteration [k] fails with error [e]: the status fetch
    raises, or the run is completed and the log fetch raises. *)
Definition fetch_fails (w : World) (k : nat) (e : string) : Prop :=
  get_agent_run (run_wire w k) = Raised e
  \/ exists run,
      get_agent_run (run_wire w k) = Returned run
      /\ status_of run = completed
      /\ get_agent_run_logs (logs_wire w k) = Raised e.

(** No broadcast awaited in the loop of the task raises. *)
Definition broadcasts_return (w : World) : Prop :=
  forall k, k < 60 -> broadcast_raises w k = None.

(** The dictionary has one entry per key, and every subscribed
    connection is an active one. *)
Definition registry_ok (m : ConnectionManager) : Prop :=
  NoDup (map fst (pr_subscriptions m))
  /\ forall cid, In cid (map fst (pr_subscriptions m)) ->
                 In cid (map ws_id (active_connections m)).

(** ** Sample runs *)

Module Samples.

Definition run_with (status : string) : AgentRun :=
  {| run_status := Some status |}.

(** The service answers "running" to every poll. *)
Definition always_running : World :=
  {| run_wire := fun _ => Response 200 (Some (run_with "running"));
     logs_wire := fun _ => Response 200 (Some {| logs_lines := Some [] |});
     now := fun _ => "2024-01-01T00:00:00";
     broadcast_raises := fun _ => None |}.

(** Two polls show "running", the third "completed", and the logs hold
    the URL of the pull request. *)
Definition completes_third : World :=
  {| run_wire := fun k =>
       Response 200 (Some (run_with (if k <? 2 then "running" else "completed")));
     logs_wire := fun _ =>
       Response 200
         (Some {| logs_lines :=
                    Some ["cloning";
                          "Opened pull request https://github.com/acme/app/pull/42"] |});
     now := fun _ => "2024-01-01T00:00:00";
     broadcast_raises := fun _ => None |}.

(** The service cannot be reached at all. *)
Definition unreachable : World :=
  {| run_wire := fun _ => ConnectionFailed "connection refused";
     logs_wire := fun _ => ConnectionFailed "connection refused";
     now := fun _ => "2024-01-01T00:00:00";
     broadcast_raises := fun _ => None |}.

Definition sub_k : Subscription :=
  {| sub_project_id := "p1"; sub_requirement_id := "r1";
     sub_agent_run_id := "run-1" |}.

Definition sub_k2 : Subscription :=
  {| sub_project_id := "p1"; sub_requirement_id := "r2";
     sub_agent_run_id := "run-2" |}.

(** Two observers on the key (p1, r1) and one on (p1, r2). *)
Definition three_observers : ConnectionManager :=
  subscribe
    (subscribe
       (subscribe
          (connect (connect (connect empty_manager {| ws_id := 1 |})
                      {| ws_id := 2 |})
             {| ws_id := 3 |})
          1 sub_k)
       2 sub_k)
    3 sub_k2.

(** The channel of observer 1 is broken. *)
Definition first_channel_down (connection_id : nat) : bool :=
  negb (connection_id =? 1).

Definition sample_event : EventData :=
  {| ev_status := "failed"; ev_prUrl := None;
     ev_error := Some "Implementation failed";
     ev_createdAt := "2024-01-01T00:00:00" |}.

End Samples.

(** ** Plan extraction as a pipeline *)

Module PlanSection.

(** The lines that follow the first marker line, if there is one. *)
Fixpoint after_first_marker (logs : list string) : option (list string) :=
  match logs with
  | [] => None
  | l :: rest =>
      if has_plan_marker l then Some rest else after_first_marker rest
  end.

(** The lines up to the first blank one. *)
Fixpoint until_blank (lines : list string) : list string :=
  match lines with
  | [] => []
  | l :: rest => if truthy (strip l) then l :: until_blank rest else []
  end.

(** The section of the logs that holds the plan: after the first marker
    line, up to the first blank line, without the lines that repeat the
    marker. *)
Definition plan_section (logs : list string) : list string :=
  match after_first_marker logs with
  | Some lines => kept (until_blank lines)
  | None => []
  end.

End PlanSection.

(** ** Lookup in the subscription dictionary, and the route of a task's
    events *)

Module Routing.

(** [d.get(k)]. *)
Fixpoint dict_get {V : Type} (d : list (nat * V)) (k : nat) : option V :=
  match d with
  | [] => None
  | (k', v) :: d' => if k' =? k then Some v else dict_get d' k
  end.

(** [subscription.get("project_id") == project_id and
     subscription.get("requirement_id") == requirement_id]. *)
Definition key_matches (project_id requirement_id : string)
           (entry : nat * Subscription) : bool :=
  ((sub_project_id (snd entry) =? project_id)
   && (sub_requirement_id (snd entry) =? requirement_id))%string.

Definition pr_message (project_id requirement_id : string)
           (event_data : EventData) : Message :=
  {| msg_type := "pr_status_update";
     msg_projectId := project_id;
     msg_requirementId := requirement_id;
     msg_event := event_data |}.

(** What one send does on the channel of a connection. *)
Definition send_to (send_text_ok : nat -> bool) (message : Message)
           (connection_id : nat) : Delivery :=
  if send_text_ok connection_id
  then Sent connection_id message
  else SendFailedLogged connection_id message.

(** What the broadcasts of a monitor task put on the observers'
    channels, the registry being [m] when they are made. *)
Definition deliveries (send_text_ok : nat -> bool) (m : ConnectionManager)
           (acts : list Action) : list Delivery :=
  flat_map (fun a => match a with
                     | Broadcast project_id requirement_id event_data =>
                         broadcast_pr_event send_text_ok m
                           project_id requirement_id event_data
                     | _ => []
                     end) acts.

(** The number of log fetches of a task. *)
Definition log_fetches (acts : list Action) : nat :=
  List.length
    (filter (fun a => match a with GetAgentRunLogs _ => true | _ => false end)
       acts).

(** The events a monitor task can emit: a pull request was created,
    with its URL, or one of the three failures. *)
Definition is_known_event (e : EventData) : Prop :=
  (ev_status e = "created"%string /\ ev_error e = None
   /\ exists u, ev_prUrl e = Some u /\ is_pr_url u)
  \/ (ev_status e = "failed"%string /\ ev_prUrl e = None
      /\ (ev_error e = Some "Implementation completed but no PR was created"%string
          \/ ev_error e = Some "Implementation failed"%string
          \/ ev_error e = Some "Monitoring timeout - PR status unknown"%string)).

(** The poll of iteration [k] is not decisive: the fetch fails, or the
    run shows a status other than completed and failed. *)
Definition poll_goes_on (w : Monitor.World) (k : nat) : Prop :=
  (exists e, fetch_fails w k e)
  \/ (exists run,
         get_agent_run (run_wire w k) = Returned run
         /\ status_of run <> completed /\ status_of run <> failed).

(** The poll of iteration [k] is decisive: the run shows failed, or it
    shows completed and its logs are fetched. *)
Definition poll_decides (w : Monitor.World) (k : nat) : Prop :=
  exists run,
    get_agent_run (run_wire w k) = Returned run
    /\ (status_of run = failed
        \/ (status_of run = completed
            /\ exists logs, get_agent_run_logs (logs_wire w k) = Returned logs)).

(** The loop goes on after iteration [k]: the poll is not decisive, or
    the broadcast awaited in that iteration raises. *)
Definition pass_goes_on (w : Monitor.World) (k : nat) : Prop :=
  poll_goes_on w k \/ exists e, broadcast_raises w k = Some e.

End Routing.

(** ** One-shot plan creation (api_routes.py, [create_plan]) *)

Module Plan.
Import Client.

(** The exceptions that can reach the handler's [except] clause. *)
Inductive Exn : Type :=
| ClientError (e : string)
| KeyError (key : string)
| HTTPException (status_code : nat) (detail : string).

(** The document returned by [create_agent_run]; the handler reads
    [agent_run["id"]]. *)
Record CreatedRun : Type := { created_id : option string }.

Record PlanDoc : Type := {
  plan_id : string;
  plan_content : string;
  plan_status : string;
  plan_createdAt : string;
  plan_agentRunId : string
}.

(** What the request ends with: the plan, or
    [HTTPException(status_code=500, detail=str(e))] for the exception
    [e] caught by the handler. *)
Inductive Outcome : Type :=
| PlanCreated (plan : PlanDoc)
| Http500 (e : Exn).

Inductive Step : Type :=
| CreateAgentRun (prompt : string)
| PollRun (agent_run_id : string)
| FetchLogs (agent_run_id : string)
| Wait (seconds : nat)
| LogCreated (msg : string)
| LogFailed (e : Exn).

(** What the service answers: to the creation, to the poll made when
    [waited = 5 * k], to the log fetch; and the clock reading. *)
Record World : Type := {
  create_wire : Http CreatedRun;
  poll_wire : nat -> Http AgentRun;
  plan_logs_wire : Http AgentRunLogs;
  plan_now : string
}.

Definition max_wait : nat := 120.

Definition plan_prompt (project_id : string) : string :=
  join newline
    [ "";
      "        Create a detailed implementation plan for the following requirement:";
      "        ";
      ("        Project: " ++ project_id)%string;
      "        Requirement: [requirement text would be here]";
      "        ";
      "        Please provide a comprehensive plan including:";
      "        1. Analysis of current codebase";
      "        2. Required changes and new files";
      "        3. Step-by-step implementation approach";
      "        4. Testing strategy";
      "        5. Deployment considerations";
      "        " ].

(** How the [while] loop is left: by an exception, or normally with
    the last value of [run_status]. *)
Inductive LoopEnd : Type :=
| LoopRaised (e : Exn)
| LoopDone (run_status : AgentRun).

Section Handler.
Variable w : World.
Variable agent_run : CreatedRun.

(** [while waited < max_wait: ...].  [fuel] bounds the iterations
    unfolded ([None]: it ran out); [last] is [run_status] so far (the
    caller starts it as a document without status, standing for the
    variable not yet bound: the first iteration always runs and
    assigns it). *)
Fixpoint wait_loop (fuel waited : nat) (last : AgentRun)
  : option (list Step * LoopEnd) :=
  if waited <? max_wait then
    match fuel with
    | 0 => None
    | S fuel' =>
        match created_id agent_run with
        | None => Some ([], LoopRaised (KeyError "id"))
        | Some id =>
            match get_agent_run (poll_wire w (waited / 5)) with
            | Raised e => Some ([PollRun id], LoopRaised (ClientError e))
            | Returned run_status =>
                match Codegen.run_status run_status with
                | None => Some ([PollRun id], LoopRaised (KeyError "status"))
                | Some s =>
                    if ((s =? "completed") || (s =? "failed"))%string then
                      Some ([PollRun id], LoopDone run_status)
                    else
                      match wait_loop fuel' (waited + 5) run_status with
                      | Some (steps, e) => Some (PollRun id :: Wait 5 :: steps, e)
                      | None => None
                      end
                end
            end
        end
    end
  else Some ([], LoopDone last).

(** The part of the handler after the loop. *)
Definition after_loop (requirement_id : string) (run_status : AgentRun)
  : list Step * Outcome + list Step * Exn :=
  match Codegen.run_status run_status with
  | None => inr ([], KeyError "status")
  | Some s =>
      if (s =? "completed")%string then
        match created_id agent_run with
        | None => inr ([], KeyError "id")
        | Some id =>
            match get_agent_run_logs (plan_logs_wire w) with
            | Raised e => inr ([FetchLogs id], ClientError e)
            | Returned logs =>
                let lines :=
                  match logs_lines logs with Some l => l | None => [] end in
                inl ([FetchLogs id;
                      LogCreated ("Created plan for requirement "
                                    ++ requirement_id)%string],
                     PlanCreated
                       {| plan_id := id;
                          plan_content := extract_plan_from_logs lines;
                          plan_status := "created";
                          plan_createdAt := plan_now w;
                          plan_agentRunId := id |})
            end
        end
      else inr ([], HTTPException 500 "Failed to generate plan")
  end.

End Handler.

(** The [except Exception as e] clause of the handler. *)
Definition handler_fails (steps : list Step) (e : Exn)
  : list Step * Outcome :=
  (steps ++ [LogFailed e], Http500 e).

(** [create_plan(project_id, requirement_id)], with the global client
    variable and the environment it starts from; the last component is
    the global variable afterwards. *)
Definition create_plan (codegen_client : option CodegenClient) (env : Env)
           (w : World) (project_id requirement_id : string) (fuel : nat)
  : option (list Step * Outcome * option CodegenClient) :=
  match get_codegen_client codegen_client env with
  | (Raised e, g) => Some (handler_fails [] (ClientError e), g)
  | (Returned _, g) =>
      match _make_request "post" (create_wire w) with
      | Raised e =>
          Some (handler_fails [CreateAgentRun (plan_prompt project_id)]
                  (ClientError e), g)
      | Returned agent_run =>
          match wait_loop w agent_run fuel 0 {| run_status := None |} with
          | None => None
          | Some (steps, LoopRaised e) =>
              Some (handler_fails
                      (CreateAgentRun (plan_prompt project_id) :: steps) e, g)
          | Some (steps, LoopDone run_status) =>
              match after_loop w agent_run requirement_id run_status with
              | inl (steps', out) =>
                  Some (CreateAgentRun (plan_prompt project_id)
                          :: steps ++ steps', out, g)
              | inr (steps', e) =>
                  Some (handler_fails
                          (CreateAgentRun (plan_prompt project_id)
                             :: steps ++ steps') e, g)
              end
          end
      end
  end.

Definition plan_polls (steps : list Step) : nat :=
  List.length
    (filter (fun s => match s with PollRun _ => true | _ => false end) steps).

Definition plan_log_fetches (steps : list Step) : nat :=
  List.length
    (filter (fun s => match s with FetchLogs _ => true | _ => false end) steps).

Definition plan_waits (steps : list Step) : list nat :=
  flat_map (fun s => match s with Wait n => [n] | _ => [] end) steps.

(** The poll made when [waited = 5 * k] leaves the loop waiting: the
    run came back with a status other than completed and failed. *)
Definition plan_poll_waits (w : World) (k : nat) : Prop :=
  exists run s,
    get_agent_run (poll_wire w k) = Returned run
    /\ Codegen.run_status run = Some s
    /\ s <> "completed"%string /\ s <> "failed"%string.

(** How a poll that does not leave the loop waiting ends it. *)
Definition poll_end (w : World) (k : nat) : LoopEnd :=
  match get_agent_run (poll_wire w k) with
  | Raised e => LoopRaised (ClientError e)
  | Returned run =>
      match Codegen.run_status run with
      | None => LoopRaised (KeyError "status")
      | Some _ => LoopDone run
      end
  end.

(** A poll followed by its wait, [n] times. *)
Definition polls_and_waits (id : string) (n : nat) : list Step :=
  flat_map (fun _ => [PollRun id; Wait 5]) (seq 0 n).

End Plan.

(** ** More sample runs *)

Module MoreSamples.

(** Two polls cannot reach the service, the third shows "running", the
    fourth "failed". *)
Definition flaky_then_failed : Monitor.World :=
  {| run_wire := fun k =>
       if k <? 2 then ConnectionFailed "connection reset"
       else Response 200
              (Some (Samples.run_with (if k =? 2 then "running" else "failed")));
     logs_wire := fun _ => Response 200 (Some {| logs_lines := Some [] |});
     now := fun k => if k =? 3 then "2024-01-01T00:00:30" else "2024-01-01T00:00:00";
     broadcast_raises := fun _ => None |}.

(** The run is completed at once and its logs show no pull request. *)
Definition completed_without_pr : Monitor.World :=
  {| run_wire := fun _ => Response 200 (Some (Samples.run_with "completed"));
     logs_wire := fun _ =>
       Response 200
         (Some {| logs_lines := Some ["cloning"; "tests passed"; "done"] |});
     now := fun _ => "2024-01-01T00:00:00";
     broadcast_raises := fun _ => None |}.

(** The run is completed, with a pull request in its logs; another
    connection subscribes while the first broadcast awaits a send, so
    that broadcast raises. *)
Definition subscribed_during_broadcast : Monitor.World :=
  {| run_wire := fun _ => Response 200 (Some (Samples.run_with "completed"));
     logs_wire := fun _ =>
       Response 200
         (Some {| logs_lines :=
                    Some ["Opened pull request https://github.com/acme/app/pull/42"] |});
     now := fun _ => "2024-01-01T00:00:00";
     broadcast_raises := fun k =>
       if k =? 0 then Some "dictionary changed size during iteration"%string
       else None |}.

(** The run shows "running" for 59 polls and "failed" at the last one,
    whose broadcast raises. *)
Definition fails_at_last_attempt : Monitor.World :=
  {| run_wire := fun k =>
       Response 200
         (Some (Samples.run_with (if k <? 59 then "running" else "failed")));
     logs_wire := fun _ => Response 200 (Some {| logs_lines := Some [] |});
     now := fun _ => "2024-01-01T00:00:00";
     broadcast_raises := fun k =>
       if k =? 59 then Some "dictionary changed size during iteration"%string
       else None |}.

End MoreSamples.

(** ** Sample plan requests *)

Module PlanSamples.
Import Client Plan.

Definition env_ok : Env :=
  {| CODEGEN_ORG_ID := Some "323"%string;
     CODEGEN_TOKEN := Some "sk-env"%string |}.

Definition the_client : CodegenClient :=
  {| org_id := "323"; token := "sk-env";
     base_url := default_base_url;
     headers := [("authorization", "Bearer sk-env");
                 ("Content-Type", "application/json")]%string |}.

Definition plan_logs : AgentRunLogs :=
  {| logs_lines :=
       Some ["analysing"; "Implementation Plan:"; "1. add endpoint";
             "2. add tests"; ""; "done"] |}.

(** The run is created; two polls show "running", the third
    [third]. *)
Definition settles_third (third : string) : Plan.World :=
  {| create_wire := Response 200 (Some {| created_id := Some "run-9"%string |});
     poll_wire := fun k =>
       Response 200 (Some (Samples.run_with (if k <? 2 then "running" else third)));
     plan_logs_wire := Response 200 (Some plan_logs);
     plan_now := "2024-01-01T00:00:00" |}.

(** Two polls show "running", then the service is gone. *)
Definition drops_third : Plan.World :=
  {| create_wire := Response 200 (Some {| created_id := Some "run-9"%string |});
     poll_wire := fun k =>
       if k <? 2 then Response 200 (Some (Samples.run_with "running"))
       else ConnectionFailed "connection reset";
     plan_logs_wire := Response 200 (Some plan_logs);
     plan_now := "2024-01-01T00:00:00" |}.

(** The service refuses the creation. *)
Definition refuses_creation : Plan.World :=
  {| create_wire := Response 503 None;
     poll_wire := fun _ => Response 200 (Some (Samples.run_with "running"));
     plan_logs_wire := Response 200 (Some plan_logs);
     plan_now := "2024-01-01T00:00:00" |}.

End PlanSamples.

(** * Properties *)

(** ** Strings *)

Section StringFacts.

Lemma str_app_nil_r (s : string) : (s ++ "")%string = s.
Proof. induction s as [|c s IH]; simpl; [reflexivity | now rewrite IH]. Qed.

Lemma str_app_assoc (a b c : string) :
  ((a ++ b) ++ c)%string = (a ++ (b ++ c))%string.
Proof. induction a as [|x a IH]; simpl; [reflexivity | now rewrite IH]. Qed.

Lemma startswith_iff (p s : string) :
  startswith p s = true <-> exists r, s = (p ++ r)%string.
Proof.
  revert s; induction p as [|a p IH]; intros s; simpl.
  - split; [intros _; now exists s | reflexivity].
  - destruct s as [|b s].
    + split; [discriminate | intros [r Hr]; discriminate].
    + rewrite andb_true_iff, Ascii.eqb_eq, IH. split.
      * intros [-> [r ->]]. now exists r.
      * intros [r Hr]. injection Hr as -> ->. split; [reflexivity | now exists r].
Qed.

Lemma contains_iff (p s : string) :
  contains p s = true <-> exists a b, s = (a ++ p ++ b)%string.
Proof.
  induction s as [|c s IH].
  - simpl. rewrite orb_false_r, startswith_iff. split.
    + intros [r Hr]. now exists ""%string, r.
    + intros [[|x a] [b Hb]]; [now exists b | discriminate].
  - cbn [contains]. rewrite orb_true_iff, startswith_iff, IH. split.
    + intros [[r Hr] | [a [b Hab]]].
      * now exists ""%string, r.
      * exists (String c a), b. simpl. now rewrite Hab.
    + intros [[|x a] [b Hb]].
      * left. now exists b.
      * right. injection Hb as -> ->. now exists a, b.
Qed.

Lemma lower_app (a b : string) :
  lower (a ++ b) = (lower a ++ lower b)%string.
Proof. induction a as [|x a IH]; simpl; [reflexivity | now rewrite IH]. Qed.

Lemma lower_split (s x y : string) :
  lower s = (x ++ y)%string ->
  exists a b, s = (a ++ b)%string /\ lower a = x /\ lower b = y.
Proof.
  revert s; induction x as [|c x IH]; intros s H.
  - exists ""%string, s. auto.
  - destruct s as [|d s]; [discriminate|].
    simpl in H. injection H as Hc Hs.
    destruct (IH _ Hs) as (a & b & -> & Ha & Hb).
    exists (String d a), b. simpl. now rewrite Hc, Ha.
Qed.

Lemma contains_lower_iff (phrase line : string) :
  contains phrase (lower line) = true <-> mentions phrase line.
Proof.
  rewrite contains_iff. split.
  - intros (x & y & H).
    destruct (lower_split _ _ _ H) as (a & r & -> & Ha & Hr).
    destruct (lower_split _ _ _ Hr) as (m & b & -> & Hm & Hb).
    now exists a, m, b.
  - intros (a & m & b & -> & Hm).
    exists (lower a), (lower b). now rewrite !lower_app, Hm.
Qed.

Lemma lstrip_empty (s : string) :
  lstrip s = ""%string -> all_chars is_space s.
Proof.
  induction s as [|c s IH]; simpl; [trivial|].
  destruct (is_space c) eqn:Hc; [auto | discriminate].
Qed.

Lemma lstrip_head (s : string) c r :
  lstrip s = String c r -> is_space c = false.
Proof.
  induction s as [|d s IH]; simpl; [discriminate|].
  destruct (is_space d) eqn:Hd; [exact IH|].
  intros H. injection H as <- _. exact Hd.
Qed.

(** A line is blank, in the sense of [not log_entry.strip()], exactly
    when it consists of white space only. *)
Lemma blank_iff (s : string) :
  truthy (strip s) = false <-> all_chars is_space s.
Proof.
  unfold strip. split.
  - intros H. destruct (lstrip s) as [|c r] eqn:E.
    + now apply lstrip_empty.
    + exfalso. apply lstrip_head in E.
      simpl in H. destruct (rstrip r); rewrite ?E in H; discriminate.
  - intros H.
    assert (Hl : lstrip s = ""%string).
    { induction s as [|c s IH]; simpl; [reflexivity|].
      destruct H as [Hc Hs]. rewrite Hc. auto. }
    now rewrite Hl.
Qed.

Lemma space_not_letter (c : ascii) :
  is_space c = true -> Ascii.eqb "i" (lower_char c) = false
                       /\ Ascii.eqb "p" (lower_char c) = false.
Proof.
  destruct c as [[] [] [] [] [] [] [] []]; vm_compute;
    solve [discriminate | auto].
Qed.

Lemma blank_no_plan_marker (s : string) :
  truthy (strip s) = false -> has_plan_marker s = false.
Proof.
  rewrite blank_iff. unfold has_plan_marker.
  induction s as [|c s IH]; [reflexivity|].
  intros [Hc Hs]. cbn [lower contains].
  rewrite (IH Hs), orb_false_r.
  cbn [startswith]. destruct (space_not_letter c Hc) as [-> _]. reflexivity.
Qed.

End StringFacts.

(** ** Plan extraction *)

Section PlanFacts.

Lemma plan_loop_before_marker pre rest acc :
  Forall no_marker pre ->
  plan_loop (pre ++ rest) false acc = plan_loop rest false acc.
Proof.
  induction 1 as [|l pre Hl _ IH]; simpl; [reflexivity|].
  now rewrite Hl.
Qed.

Lemma plan_loop_in_section body rest acc :
  Forall non_blank body ->
  plan_loop (body ++ rest) true acc
  = plan_loop rest true (acc ++ kept body).
Proof.
  intros H; revert acc; induction H as [|l body Hl _ IH]; intros acc; simpl.
  - now rewrite app_nil_r.
  - destruct (has_plan_marker l) eqn:E; simpl.
    + apply IH.
    + rewrite Hl, IH, <- app_assoc. reflexivity.
Qed.

Lemma plan_loop_at_blank b rest acc :
  blank b -> plan_loop (b :: rest) true acc = acc.
Proof.
  intros Hb. simpl. rewrite (blank_no_plan_marker _ Hb), Hb. reflexivity.
Qed.

Lemma plan_loop_marker m rest b acc :
  has_plan_marker m = true ->
  plan_loop (m :: rest) b acc = plan_loop rest true acc.
Proof. intros H. simpl. now rewrite H. Qed.

Lemma kept_all_markers ms :
  Forall (fun l => has_plan_marker l = true) ms -> kept ms = [].
Proof.
  induction 1 as [|l ms Hl _ IH]; simpl; [reflexivity|]. now rewrite Hl.
Qed.

Lemma markers_non_blank ms :
  Forall (fun l => has_plan_marker l = true) ms -> Forall non_blank ms.
Proof.
  apply Forall_impl. intros l Hl. unfold non_blank.
  destruct (truthy (strip l)) eqn:E; [reflexivity|].
  apply blank_no_plan_marker in E. congruence.
Qed.

Lemma default_plan_not_empty : default_plan <> ""%string.
Proof. discriminate. Qed.

(** C8: when no line of the logs carries the "implementation plan"
    marker (in any letter case), [extract_plan_from_logs] returns the
    default four-phase template, as an ordinary string result. *)
Theorem extract_plan_no_marker_default (logs : list string) :
  (forall l, In l logs -> ~ mentions "implementation plan" l) ->
  extract_plan_from_logs logs = default_plan.
Proof.
  intros H.
  assert (Hn : Forall no_marker logs).
  { apply Forall_forall. intros l Hl. unfold no_marker, has_plan_marker.
    destruct (contains _ _) eqn:E; [|reflexivity].
    apply contains_lower_iff in E. now elim (H l Hl). }
  unfold extract_plan_from_logs.
  rewrite <- (app_nil_r logs), (plan_loop_before_marker _ _ _ Hn).
  reflexivity.
Qed.

Lemma no_marker_no_mention (l : string) :
  has_plan_marker l = false -> ~ mentions "implementation plan" l.
Proof.
  unfold has_plan_marker. intros H Hm.
  apply contains_lower_iff in Hm. congruence.
Qed.

Lemma extract_plan_no_marker_default_witness :
  extract_plan_from_logs ["cloning"; ""; "the plan: implement"; "done"]
  = default_plan.
Proof.
  apply (extract_plan_no_marker_default
           ["cloning"; ""; "the plan: implement"; "done"]).
  intros l [<- | [<- | [<- | [<- | []]]]];
    apply no_marker_no_mention; reflexivity.
Defined.

(** The template is the four-phase checklist of the source, line for
    line. *)
Example default_plan_lines :
  default_plan =
  join newline
    [ "# Implementation Plan"; "";
      "## Phase 1: Analysis and Setup";
      "- Analyze current codebase structure";
      "- Identify required dependencies";
      "- Set up development environment"; "";
      "## Phase 2: Core Implementation";
      "- Implement main functionality";
      "- Add error handling";
      "- Write unit tests"; "";
      "## Phase 3: Integration and Testing";
      "- Integrate with existing systems";
      "- Perform integration testing";
      "- Optimize performance"; "";
      "## Phase 4: Documentation and Deployment";
      "- Update documentation";
      "- Prepare deployment scripts";
      "- Deploy to staging environment" ].
Proof. reflexivity. Qed.

(** C9: when the first marker line is followed by nothing that gets
    accumulated -- it is the last line, or the next line is blank
    (lines repeating the marker in between are not accumulated
    either) -- the result is the default template, not the empty
    string. *)
Theorem extract_plan_empty_section_default (pre ms rest : list string) (m : string) :
  Forall no_marker pre ->
  has_plan_marker m = true ->
  Forall (fun l => has_plan_marker l = true) ms ->
  (rest = [] \/ exists b rest', rest = b :: rest' /\ blank b) ->
  extract_plan_from_logs (pre ++ m :: ms ++ rest) = default_plan
  /\ extract_plan_from_logs (pre ++ m :: ms ++ rest) <> ""%string.
Proof.
  intros Hpre Hm Hms Hrest.
  assert (E : extract_plan_from_logs (pre ++ m :: ms ++ rest) = default_plan).
  { unfold extract_plan_from_logs.
    rewrite (plan_loop_before_marker _ _ _ Hpre), (plan_loop_marker _ _ _ _ Hm).
    rewrite (plan_loop_in_section _ _ _ (markers_non_blank _ Hms)).
    rewrite (kept_all_markers _ Hms). simpl.
    destruct Hrest as [-> | (b & rest' & -> & Hb)].
    - reflexivity.
    - now rewrite (plan_loop_at_blank _ _ _ Hb). }
  split; [exact E | rewrite E; exact default_plan_not_empty].
Qed.

Lemma extract_plan_empty_section_default_witness :
  extract_plan_from_logs (["boot"] ++ "Implementation Plan:" :: [] ++ [" "; "later"])
  = default_plan
  /\ extract_plan_from_logs (["boot"] ++ "Implementation Plan:" :: [] ++ [" "; "later"])
     <> ""%string.
Proof.
  apply (extract_plan_empty_section_default ["boot"] [] [" "; "later"]
           "Implementation Plan:").
  - repeat constructor.
  - reflexivity.
  - constructor.
  - right. exists " "%string, ["later"]. split; reflexivity.
Defined.

(** What the loop leaves in [plan_content] for a section closed by a
    blank line, and for a section that runs to the end of the logs. *)
Lemma plan_content_closed_section pre m body b rest :
  Forall no_marker pre -> has_plan_marker m = true ->
  Forall non_blank body -> blank b ->
  plan_loop (pre ++ m :: body ++ b :: rest) false [] = kept body.
Proof.
  intros Hpre Hm Hbody Hb.
  rewrite (plan_loop_before_marker _ _ _ Hpre), (plan_loop_marker _ _ _ _ Hm).
  rewrite (plan_loop_in_section _ _ _ Hbody). simpl app.
  apply (plan_loop_at_blank _ _ _ Hb).
Qed.

Lemma plan_content_open_section pre m body :
  Forall no_marker pre -> has_plan_marker m = true ->
  Forall non_blank body ->
  plan_loop (pre ++ m :: body) false [] = kept body.
Proof.
  intros Hpre Hm Hbody.
  rewrite (plan_loop_before_marker _ _ _ Hpre), (plan_loop_marker _ _ _ _ Hm).
  pose proof (plan_loop_in_section body [] [] Hbody) as H.
  rewrite app_nil_r in H. exact H.
Qed.

Lemma kept_no_marker body : Forall no_marker body -> kept body = body.
Proof.
  induction 1 as [|l body Hl _ IH]; simpl; [reflexivity|].
  rewrite Hl. simpl. now rewrite IH.
Qed.

(** C4, as the code has it: for logs whose first marker line is
    followed by N non-blank lines and then a blank line, the result is
    made of those of the N lines that do not repeat the marker, joined
    by newlines, without the marker line, the blank line or anything
    after it; when none is left (N = 0 included) the result is the
    default template.  In particular, N >= 1 lines none of which
    repeats the marker come back exactly, newline-joined. *)
Theorem extract_plan_closed_section (pre body rest : list string) (m b : string) :
  Forall no_marker pre ->
  has_plan_marker m = true ->
  Forall non_blank body ->
  blank b ->
  extract_plan_from_logs (pre ++ m :: body ++ b :: rest)
  = match kept body with
    | [] => default_plan
    | _ :: _ => join newline (kept body)
    end
  /\ (Forall no_marker body -> body <> [] ->
      extract_plan_from_logs (pre ++ m :: body ++ b :: rest)
      = join newline body).
Proof.
  intros Hpre Hm Hbody Hb.
  unfold extract_plan_from_logs.
  rewrite (plan_content_closed_section _ _ _ _ _ Hpre Hm Hbody Hb).
  split; [reflexivity|].
  intros Hn Hne. rewrite (kept_no_marker _ Hn).
  destruct body; [contradiction | reflexivity].
Qed.

Lemma extract_plan_closed_section_witness :
  extract_plan_from_logs
    (["boot"] ++ "Implementation Plan:" :: ["step 1"; "step 2"] ++ "  " :: ["later"])
  = join newline ["step 1"; "step 2"].
Proof.
  refine (proj2 (extract_plan_closed_section ["boot"] ["step 1"; "step 2"]
                   ["later"] "Implementation Plan:" "  " _ _ _ _) _ _).
  - repeat constructor.
  - reflexivity.
  - repeat constructor.
  - reflexivity.
  - repeat constructor.
  - discriminate.
Defined.

(** C4 as stated fails on the code: a non-blank line of the section
    that repeats the marker is not accumulated, and an empty section
    gives the default template rather than the empty join. *)
Lemma extract_plan_closed_section_counterexample :
  let m := "Implementation Plan:"%string in
  let body := ["step 1"; "see implementation plan above"; "step 2"]%string in
  (has_plan_marker m = true
   /\ Forall non_blank body
   /\ blank ""
   /\ extract_plan_from_logs (m :: body ++ [""%string])
      = join newline ["step 1"; "step 2"]
   /\ extract_plan_from_logs (m :: body ++ [""%string]) <> join newline body)
  /\ (extract_plan_from_logs (m :: [] ++ [""%string]) = default_plan
      /\ extract_plan_from_logs (m :: [] ++ [""%string]) <> join newline []).
Proof.
  cbv zeta. repeat split; try reflexivity; try discriminate.
  repeat constructor.
Qed.

(** C10, as the code has it: for logs whose first marker line is
    followed only by non-blank lines up to the end of the input, the
    loop runs to the end and the result is made of all the lines after
    the marker that do not repeat it, joined by newlines -- no blank
    line is needed; when no such line exists the result is the default
    template. *)
Theorem extract_plan_open_section (pre body : list string) (m : string) :
  Forall no_marker pre ->
  has_plan_marker m = true ->
  Forall non_blank body ->
  extract_plan_from_logs (pre ++ m :: body)
  = match kept body with
    | [] => default_plan
    | _ :: _ => join newline (kept body)
    end.
Proof.
  intros Hpre Hm Hbody.
  unfold extract_plan_from_logs.
  now rewrite (plan_content_open_section _ _ _ Hpre Hm Hbody).
Qed.

Lemma extract_plan_open_section_witness :
  extract_plan_from_logs
    (["boot"] ++ "IMPLEMENTATION PLAN" :: ["a"; "my implementation plan"; "b"])
  = join newline ["a"; "b"].
Proof.
  apply (extract_plan_open_section ["boot"]
           ["a"; "my implementation plan"; "b"] "IMPLEMENTATION PLAN").
  - repeat constructor.
  - reflexivity.
  - repeat constructor.
Defined.

(** C10 as stated fails on the code when every line after the marker
    repeats the marker: the join of the remaining lines is the empty
    string, and the code returns the default template. *)
Lemma extract_plan_open_section_counterexample :
  let m := "Implementation plan:"%string in
  let body := ["the implementation plan follows"]%string in
  has_plan_marker m = true
  /\ Forall non_blank body
  /\ kept body = []
  /\ extract_plan_from_logs (m :: body) = default_plan
  /\ extract_plan_from_logs (m :: body) <> join newline (kept body).
Proof.
  cbv zeta. repeat split; try reflexivity; try discriminate.
  repeat constructor.
Qed.

End PlanFacts.

(** ** Pull-request URL extraction *)

Section PrUrlFacts.

Lemma literal_iff (lit s r : string) :
  literal lit s = Some r <-> s = (lit ++ r)%string.
Proof.
  revert s; induction lit as [|a lit IH]; intros s; simpl.
  - split; [now intros [= ->] | now intros ->].
  - destruct s as [|b s]; [split; discriminate|].
    destruct (Ascii.eqb_spec a b) as [->|Hne].
    + rewrite IH. split; [now intros -> | now intros [= ->]].
    + split; [discriminate | intros [= E _]; now elim Hne].
Qed.

Lemma literal_app (lit r : string) : literal lit (lit ++ r) = Some r.
Proof. now apply literal_iff. Qed.

Lemma span_spec cls (s run rest : string) :
  span cls s = (run, rest) ->
  s = (run ++ rest)%string /\ all_chars cls run /\ stops cls rest.
Proof.
  revert run rest; induction s as [|c s IH]; intros run rest; simpl.
  - intros [= <- <-]. simpl. auto.
  - destruct (cls c) eqn:Hc.
    + destruct (span cls s) as [run' rest'] eqn:E.
      intros [= <- <-]. destruct (IH _ _ eq_refl) as (-> & Hall & Hstop).
      simpl. auto.
    + intros [= <- <-]. simpl. auto.
Qed.

Lemma span_app_all cls (x y : string) :
  all_chars cls x ->
  span cls (x ++ y) = ((x ++ fst (span cls y))%string, snd (span cls y)).
Proof.
  induction x as [|c x IH]; simpl.
  - intros _. now destruct (span cls y).
  - intros [Hc Hx]. rewrite Hc, (IH Hx). reflexivity.
Qed.

Lemma span_stops cls (y : string) :
  stops cls y -> span cls y = (""%string, y).
Proof. destruct y as [|c y]; simpl; [reflexivity | now intros ->]. Qed.

Lemma one_or_more_spec cls (s run rest : string) :
  one_or_more cls s = Some (run, rest) ->
  s = (run ++ rest)%string /\ run <> ""%string
  /\ all_chars cls run /\ stops cls rest.
Proof.
  unfold one_or_more. destruct (span cls s) as [r t] eqn:E.
  destruct r as [|c r]; [discriminate|].
  intros [= <- <-]. destruct (span_spec _ _ _ _ E) as (H1 & H2 & H3).
  repeat split; try assumption; try discriminate; apply H2.
Qed.

Lemma one_or_more_app cls (x y : string) :
  x <> ""%string -> all_chars cls x ->
  one_or_more cls (x ++ y)
  = Some ((x ++ fst (span cls y))%string, snd (span cls y)).
Proof.
  intros Hne Hx. unfold one_or_more. rewrite (span_app_all _ _ _ Hx).
  destruct x as [|c x]; [contradiction | reflexivity].
Qed.

Lemma one_or_more_exact cls (x y : string) :
  x <> ""%string -> all_chars cls x -> stops cls y ->
  one_or_more cls (x ++ y) = Some (x, y).
Proof.
  intros Hne Hx Hy. rewrite (one_or_more_app _ _ _ Hne Hx), (span_stops _ _ Hy).
  simpl. now rewrite str_app_nil_r.
Qed.

(** The matcher accepts only words of the pattern, found at the head. *)
Lemma match_pr_url_sound (s u : string) :
  match_pr_url s = Some u ->
  is_pr_url u /\ exists b, s = (u ++ b)%string.
Proof.
  unfold match_pr_url.
  destruct (literal "https://github.com/" s) as [s1|] eqn:E1; [|discriminate].
  destruct (one_or_more not_slash s1) as [[owner s2]|] eqn:E2; [|discriminate].
  destruct (literal "/" s2) as [s3|] eqn:E3; [|discriminate].
  destruct (one_or_more not_slash s3) as [[repo s4]|] eqn:E4; [|discriminate].
  destruct (literal "/pull/" s4) as [s5|] eqn:E5; [|discriminate].
  destruct (one_or_more is_digit s5) as [[digits s6]|] eqn:E6; [|discriminate].
  intros [= <-].
  apply literal_iff in E1, E3, E5.
  apply one_or_more_spec in E2, E4, E6.
  destruct E2 as (E2 & Ho & Hao & _), E4 as (E4 & Hr & Har & _),
           E6 as (E6 & Hd & Had & _).
  split.
  - exists owner, repo, digits. repeat split; assumption.
  - exists s6. subst s s1 s2 s3 s4 s5.
    repeat (rewrite ?str_app_assoc; simpl). reflexivity.
Qed.

(** Every word of the pattern at the head of a string is found, grown
    by the digits that follow it (the last [\d+] is greedy). *)
Lemma match_pr_url_complete (u b : string) :
  is_pr_url u ->
  match_pr_url (u ++ b) = Some (u ++ fst (span is_digit b))%string.
Proof.
  intros (owner & repo & digits & -> & Ho & Hao & Hr & Har & Hd & Had).
  replace (("https://github.com/" ++ owner ++ "/" ++ repo ++ "/pull/" ++ digits)
             ++ b)%string
    with ("https://github.com/" ++ owner ++ "/" ++ repo ++ "/pull/"
            ++ digits ++ b)%string
    by (now rewrite !str_app_assoc).
  unfold match_pr_url.
  rewrite literal_app.
  rewrite (one_or_more_exact not_slash owner _ Ho Hao) by reflexivity.
  rewrite literal_app.
  rewrite (one_or_more_exact not_slash repo _ Hr Har) by reflexivity.
  rewrite literal_app.
  rewrite (one_or_more_app is_digit digits b Hd Had).
  f_equal. now rewrite !str_app_assoc.
Qed.

Lemma match_pr_url_none (s u b : string) :
  match_pr_url s = None -> s = (u ++ b)%string -> ~ is_pr_url u.
Proof.
  intros Hn -> Hu. rewrite (match_pr_url_complete _ b Hu) in Hn. discriminate.
Qed.

Lemma search_pr_url_none (s : string) :
  search_pr_url s = None ->
  forall a u b, s = (a ++ u ++ b)%string -> ~ is_pr_url u.
Proof.
  induction s as [|c s IH]; simpl.
  - destruct (match_pr_url "") eqn:E; [discriminate|].
    intros _ a u b H. destruct a; [|discriminate].
    now apply (match_pr_url_none _ u b E).
  - destruct (match_pr_url (String c s)) eqn:E; [discriminate|].
    intros Hs a u b H. destruct a as [|x a].
    + now apply (match_pr_url_none _ u b E).
    + simpl in H. injection H as _ H. now apply (IH Hs a u b).
Qed.

Lemma search_pr_url_some (s u : string) :
  search_pr_url s = Some u -> leftmost_match u s.
Proof.
  revert u; induction s as [|c s IH]; intros u.
  - intros H. vm_compute in H. discriminate.
  - cbn [search_pr_url]. destruct (match_pr_url (String c s)) as [v|] eqn:E.
    + intros [= <-]. destruct (match_pr_url_sound _ _ E) as [Hv [b Hb]].
      exists ""%string, b. split; [exact Hb|]. split; [exact Hv|].
      intros a' u' b' H Hu'. split; [simpl; lia|].
      intros Hlen. destruct a'; [|discriminate]. simpl in H.
      rewrite H, (match_pr_url_complete _ b' Hu') in E.
      injection E as <-. eauto.
    + intros Hs. destruct (IH _ Hs) as (a & b & Hab & Hu & Hleft).
      exists (String c a), b. split; [simpl; now rewrite Hab|].
      split; [exact Hu|].
      intros a' u' b' H Hu'. destruct a' as [|x a'].
      * exfalso. now apply (match_pr_url_none _ u' b' E).
      * simpl in H. injection H as _ H.
        destruct (Hleft a' u' b' H Hu') as [H1 H2].
        simpl. split; [lia | intros; apply H2; lia].
Qed.

Lemma qualifies_iff (line : string) :
  qualifies line <-> qualifiesb line = true.
Proof.
  unfold qualifies, qualifiesb.
  rewrite andb_true_iff, contains_lower_iff. split.
  - intros [Hm (a & u & b & H & Hu)]. split; [exact Hm|].
    destruct (search_pr_url line) eqn:E; [reflexivity|].
    now elim (search_pr_url_none _ E a u b H).
  - intros [Hm Hs]. split; [exact Hm|].
    destruct (search_pr_url line) as [u|] eqn:E; [|discriminate].
    destruct (search_pr_url_some _ _ E) as (a & b & H & Hu & _). eauto.
Qed.

Lemma pr_url_has_host (line a u b : string) :
  line = (a ++ u ++ b)%string -> is_pr_url u ->
  contains "https://github.com" line = true.
Proof.
  intros -> (owner & repo & digits & -> & _).
  apply contains_iff.
  exists a, ("/" ++ owner ++ "/" ++ repo ++ "/pull/" ++ digits ++ b)%string.
  f_equal. now rewrite !str_app_assoc.
Qed.

Lemma extract_pr_url_skip (line : string) (rest : list string) :
  ~ qualifies line ->
  extract_pr_url_from_logs (line :: rest) = extract_pr_url_from_logs rest.
Proof.
  rewrite qualifies_iff. unfold qualifiesb. intros H. simpl.
  destruct (contains "pull request" (lower line)); simpl in *;
    [|reflexivity].
  destruct (search_pr_url line); [now elim H|].
  now destruct (contains "https://github.com" line).
Qed.

Lemma extract_pr_url_hit (line : string) (rest : list string) :
  qualifies line ->
  exists u, extract_pr_url_from_logs (line :: rest) = Some u
            /\ leftmost_match u line.
Proof.
  intros Hq. pose proof Hq as [_ (a & u & b & H & Hu)].
  apply qualifies_iff in Hq. unfold qualifiesb in Hq.
  apply andb_true_iff in Hq. destruct Hq as [Hm Hs].
  destruct (search_pr_url line) as [v|] eqn:E; [|discriminate].
  exists v. split; [|now apply search_pr_url_some].
  simpl. now rewrite Hm, (pr_url_has_host _ _ _ _ H Hu), E.
Qed.

(** C3: the lines are scanned in order; on the first line that
    mentions "pull request" (in any letter case) and holds a substring
    of the form https://github.com/<owner>/<repo>/pull/<digits>, the
    result is that substring of the line -- the leftmost occurrence, with
    all its digits -- and not the line; when no line is of that kind
    the result is none. *)
Theorem extract_pr_url_first_qualifying_line (logs : list string) :
  (forall pre line post,
      logs = pre ++ line :: post ->
      (forall l, In l pre -> ~ qualifies l) ->
      qualifies line ->
      exists u, extract_pr_url_from_logs logs = Some u
                /\ leftmost_match u line)
  /\ ((forall l, In l logs -> ~ qualifies l) ->
      extract_pr_url_from_logs logs = None).
Proof.
  split.
  - intros pre line post -> Hpre Hq.
    induction pre as [|l pre IH].
    + now apply extract_pr_url_hit.
    + cbn [app]. rewrite extract_pr_url_skip by (apply Hpre; now left).
      apply IH. intros l' Hl'. apply Hpre. now right.
  - induction logs as [|l logs IH]; intros H; [reflexivity|].
    rewrite extract_pr_url_skip by (apply H; now left).
    apply IH. intros l' Hl'. apply H. now right.
Qed.

Lemma extract_pr_url_first_qualifying_line_witness :
  (exists u,
      extract_pr_url_from_logs
        ["cloning"; "see https://github.com/o/r/pull/1";
         "Opened Pull Request: https://github.com/acme/app/pull/42.";
         "pull request https://github.com/acme/app/pull/43"]
      = Some u
      /\ leftmost_match u "Opened Pull Request: https://github.com/acme/app/pull/42.")
  /\ extract_pr_url_from_logs
       ["cloning"; "see https://github.com/o/r/pull/1";
        "pull request pending"] = None.
Proof.
  split.
  - apply (proj1 (extract_pr_url_first_qualifying_line _)
             ["cloning"; "see https://github.com/o/r/pull/1"]
             "Opened Pull Request: https://github.com/acme/app/pull/42."
             ["pull request https://github.com/acme/app/pull/43"]).
    + reflexivity.
    + intros l [<- | [<- | []]]; rewrite qualifies_iff; vm_compute; discriminate.
    + apply qualifies_iff. vm_compute. reflexivity.
  - apply (proj2 (extract_pr_url_first_qualifying_line _)).
    intros l [<- | [<- | [<- | []]]]; rewrite qualifies_iff; vm_compute;
      discriminate.
Defined.

(** The result is the URL, not the line. *)
Example extract_pr_url_sample :
  extract_pr_url_from_logs
    ["cloning"; "see https://github.com/o/r/pull/1";
     "Opened Pull Request: https://github.com/acme/app/pull/42.";
     "pull request https://github.com/acme/app/pull/43"]
  = Some "https://github.com/acme/app/pull/42"%string.
Proof. reflexivity. Qed.

End PrUrlFacts.

(** ** Run monitor *)

Section MonitorFacts.

Lemma events_app a b : events (a ++ b) = events a ++ events b.
Proof. unfold events. now rewrite flat_map_app. Qed.

Lemma no_broadcast_events acts : no_broadcast acts -> events acts = [].
Proof.
  induction 1 as [|a acts Ha _ IH]; [reflexivity|].
  destruct a; try discriminate; exact IH.
Qed.

Lemma quiet_no_broadcast acts : quiet acts -> no_broadcast acts.
Proof. apply Forall_impl. tauto. Qed.

Lemma polls_app a b : polls (a ++ b) = polls a + polls b.
Proof. unfold polls. now rewrite filter_app, length_app. Qed.

Variable w : World.
Variables agent_run_id project_id requirement_id : string.

Local Abbreviation body := (loop_body w agent_run_id project_id requirement_id).
Local Abbreviation loop := (while_loop w agent_run_id project_id requirement_id).
Local Abbreviation monitor :=
  (monitor_agent_run_for_pr w agent_run_id project_id requirement_id).
Local Abbreviation bcast := (Broadcast project_id requirement_id).

Lemma while_loop_done fuel attempt :
  max_attempts <= attempt -> loop fuel attempt = Some ([], attempt).
Proof.
  intros H. apply Nat.ltb_ge in H.
  destruct fuel; cbn [while_loop]; now rewrite H.
Qed.

Lemma while_loop_step fuel attempt :
  attempt < max_attempts ->
  loop (S fuel) attempt
  = match body attempt with
    | (acts, Break) => Some (acts, attempt)
    | (acts, Continue) =>
        match loop fuel (attempt + 1) with
        | Some (acts', attempt') => Some (acts ++ acts', attempt')
        | None => None
        end
    end.
Proof.
  intros H. apply Nat.ltb_lt in H. cbn [while_loop]. now rewrite H.
Qed.

(** While every pass goes on, the loop runs up to the ceiling. *)
Lemma while_loop_all_continue n :
  forall attempt fuel,
    attempt + n = max_attempts -> n <= fuel ->
    (forall k, attempt <= k < max_attempts -> snd (body k) = Continue) ->
    loop fuel attempt
    = Some (flat_map (fun k => fst (body k)) (seq attempt n), max_attempts).
Proof.
  induction n as [|n IH]; intros attempt fuel Hsum Hfuel Hall.
  - rewrite Nat.add_0_r in Hsum. subst attempt. now apply while_loop_done.
  - destruct fuel as [|fuel]; [lia|].
    rewrite while_loop_step by lia.
    specialize (Hall attempt ltac:(lia)) as Hk.
    destruct (body attempt) as [acts flow] eqn:E. simpl in Hk. subst flow.
    rewrite (IH (attempt + 1) fuel) by (try lia; intros; apply Hall; lia).
    cbn [seq flat_map]. rewrite E, Nat.add_1_r. reflexivity.
Qed.

Lemma monitor_all_continue codegen_client env c g fuel :
  Client.get_codegen_client codegen_client env = (Returned c, g) ->
  max_attempts <= fuel ->
  (forall k, k < max_attempts -> snd (body k) = Continue) ->
  monitor codegen_client env fuel
  = Some (flat_map (fun k => fst (body k)) (seq 0 max_attempts)
            ++ [bcast (timeout_event w max_attempts)],
          match broadcast_raises w max_attempts with
          | Some e => Raises e
          | None => Returns
          end, g).
Proof.
  intros Hclient Hfuel Hall. unfold monitor_agent_run_for_pr. rewrite Hclient.
  rewrite (while_loop_all_continue max_attempts 0 fuel);
    [now rewrite Nat.leb_refl | reflexivity | exact Hfuel |].
  intros k Hk. apply Hall. lia.
Qed.

(** When the broadcast of a pass returns, the pass either goes on -- no
    event, one poll, and the 10-second wait last -- or leaves the loop
    having emitted the event of a terminal status, with nothing but
    logging after it. *)
Lemma loop_body_cases (attempt : nat) :
  broadcast_raises w attempt = None ->
  (exists acts,
      body attempt = (acts ++ [Sleep 10], Continue)
      /\ no_broadcast acts /\ polls (acts ++ [Sleep 10]) = 1)
  \/ (exists pre e post,
         body attempt = (pre ++ bcast e :: post, Break)
         /\ no_broadcast pre /\ quiet post /\ is_status_event e
         /\ polls pre = 1).
Proof.
  intros Hcalm. unfold loop_body, broadcast_then. rewrite Hcalm.
  destruct (get_agent_run (run_wire w attempt)) as [e|run].
  { left. eexists [_; _]. split; [reflexivity|].
    split; [repeat constructor | reflexivity]. }
  destruct (str_eq (run_status run) "completed").
  - destruct (get_agent_run_logs (logs_wire w attempt)) as [e|logs].
    { left. eexists [_; _; _]. split; [reflexivity|].
      split; [repeat constructor | reflexivity]. }
    right.
    destruct (extract_pr_url_from_logs _) as [[|c u]|].
    + eexists [_; _], _, []. split; [reflexivity|].
      split; [repeat constructor|]. split; [constructor|].
      split; [|reflexivity]. right; left; split; reflexivity.
    + eexists [_; _], _, [_]. split; [reflexivity|].
      split; [repeat constructor|]. split; [repeat constructor|].
      split; [|reflexivity]. left; split; [reflexivity | eexists; reflexivity].
    + eexists [_; _], _, []. split; [reflexivity|].
      split; [repeat constructor|]. split; [constructor|].
      split; [|reflexivity]. right; left; split; reflexivity.
  - destruct (str_eq (run_status run) "failed").
    + right. eexists [_], _, []. split; [reflexivity|].
      split; [repeat constructor|]. split; [constructor|].
      split; [|reflexivity]. right; right; split; reflexivity.
    + left. eexists [_]. split; [reflexivity|].
      split; [repeat constructor | reflexivity].
Qed.

(** When no broadcast of the loop raises, the loop returns whenever the
    fuel covers the attempts left, and it ends in one of two ways: the
    ceiling is reached with no event emitted, or it was left below the
    ceiling right after the event of a terminal status. *)
Lemma while_loop_shape fuel attempt :
  broadcasts_return w ->
  attempt <= max_attempts -> max_attempts - attempt <= fuel ->
  exists acts attempt',
    loop fuel attempt = Some (acts, attempt')
    /\ ((attempt' = max_attempts /\ no_broadcast acts
         /\ polls acts = max_attempts - attempt)
        \/ (attempt' < max_attempts
            /\ exists pre e post,
                acts = pre ++ bcast e :: post
                /\ no_broadcast pre /\ quiet post /\ is_status_event e)).
Proof.
  intros Hcalm.
  revert attempt; induction fuel as [|fuel IH]; intros attempt Hle Hfuel.
  - assert (attempt = max_attempts) as -> by lia.
    exists [], max_attempts. split; [now apply while_loop_done|].
    left. split; [reflexivity|].
      split; [constructor | now rewrite Nat.sub_diag].
  - destruct (Nat.eq_dec attempt max_attempts) as [->|Hne].
    + exists [], max_attempts. split; [now apply while_loop_done|].
      left. split; [reflexivity|].
      split; [constructor | now rewrite Nat.sub_diag].
    + assert (Hlt : attempt < max_attempts) by lia.
      rewrite (while_loop_step _ _ Hlt).
      destruct (loop_body_cases attempt (Hcalm attempt Hlt))
        as [(acts & -> & Hnb & Hp) | (pre & e & post & -> & Hpre & Hpost & He & _)].
      * destruct (IH (attempt + 1)) as (acts' & a' & -> & Hres); [lia | lia |].
        eexists _, a'. split; [reflexivity|].
        destruct Hres as [(-> & Hnb' & Hp') | (Hlt' & pre & e & post & -> & Hpre & Hpost & He)].
        -- left. split; [reflexivity|]. split.
           ++ apply Forall_app. split; [|exact Hnb'].
              apply Forall_app. split; [exact Hnb | repeat constructor].
           ++ rewrite polls_app, Hp, Hp'. lia.
        -- right. split; [exact Hlt'|].
           exists ((acts ++ [Sleep 10]) ++ pre), e, post.
           split; [now rewrite <- !app_assoc|].
           split; [|auto].
           apply Forall_app. split; [|exact Hpre].
           apply Forall_app. split; [exact Hnb | repeat constructor].
      * eexists _, attempt. split; [reflexivity|].
        right. split; [exact Hlt|]. now exists pre, e, post.
Qed.

(** With a client, and when no broadcast of the loop raises, the task's
    trace is: polls and waits without an event, then one event, then
    nothing but logging.  The event is that of a terminal status, or
    else the timeout event, emitted after [max_attempts] polls. *)
Lemma monitor_shape codegen_client env c g fuel :
  Client.get_codegen_client codegen_client env = (Returned c, g) ->
  broadcasts_return w ->
  max_attempts <= fuel ->
  exists pre e post ending,
    monitor codegen_client env fuel = Some (pre ++ bcast e :: post, ending, g)
    /\ no_broadcast pre /\ quiet post
    /\ (broadcast_raises w max_attempts = None -> ending = Returns)
    /\ (is_status_event e
        \/ (e = timeout_event w max_attempts /\ post = []
            /\ polls pre = max_attempts)).
Proof.
  intros Hclient Hcalm Hfuel. unfold monitor_agent_run_for_pr. rewrite Hclient.
  destruct (while_loop_shape fuel 0 Hcalm) as (acts & a' & -> & Hres);
    [unfold max_attempts; lia | lia |].
  destruct Hres as [(-> & Hnb & Hp) | (Hlt & pre & e & post & -> & Hpre & Hpost & He)].
  - rewrite Nat.leb_refl. eexists acts, (timeout_event w max_attempts), [], _.
    split; [reflexivity|]. split; [exact Hnb|]. split; [constructor|].
    split; [now intros ->|].
    right. rewrite Hp, Nat.sub_0_r. auto.
  - apply Nat.leb_gt in Hlt. rewrite Hlt. exists pre, e, post, Returns.
    split; [reflexivity|]. split; [exact Hpre|]. split; [exact Hpost|].
    split; [reflexivity | now left].
Qed.

End MonitorFacts.

Section MonitorClaims.

Lemma status_of_completed run :
  status_of run = completed <-> str_eq (run_status run) "completed" = true.
Proof.
  unfold status_of, str_eq. destruct (run_status run) as [s|].
  - destruct (String.eqb_spec s "completed") as [->|Hne]; [tauto|].
    split; [|discriminate].
    destruct (s =? "pending")%string; [discriminate|].
    destruct (s =? "running")%string; [discriminate|].
    destruct (s =? "failed")%string; discriminate.
  - split; discriminate.
Qed.

Lemma status_of_failed run :
  status_of run = failed <-> str_eq (run_status run) "failed" = true.
Proof.
  unfold status_of, str_eq. destruct (run_status run) as [s|].
  - destruct (String.eqb_spec s "failed") as [->|Hne]; [tauto|].
    split; [|discriminate].
    destruct (s =? "pending")%string; [discriminate|].
    destruct (s =? "running")%string; [discriminate|].
    destruct (s =? "completed")%string; discriminate.
  - split; discriminate.
Qed.

(** A poll that shows a status other than completed and failed: the
    task waits 10 seconds and polls again. *)
Lemma loop_body_non_terminal w agent_run_id project_id requirement_id
      attempt run :
  get_agent_run (run_wire w attempt) = Returned run ->
  status_of run <> completed -> status_of run <> failed ->
  loop_body w agent_run_id project_id requirement_id attempt
  = ([GetAgentRun agent_run_id; Sleep 10], Continue).
Proof.
  intros Hrun Hc Hf. unfold loop_body. rewrite Hrun.
  destruct (str_eq (run_status run) "completed") eqn:Ec.
  { now apply status_of_completed in Ec. }
  destruct (str_eq (run_status run) "failed") eqn:Ef.
  { now apply status_of_failed in Ef. }
  reflexivity.
Qed.

Lemma flat_map_const {A B : Type} (f : A -> list B) (c : list B) (l : list A) :
  (forall x, In x l -> f x = c) ->
  flat_map f l = flat_map (fun _ => c) l.
Proof.
  induction l as [|x l IH]; intros H; [reflexivity|].
  cbn [flat_map]. rewrite (H x (or_introl eq_refl)), IH; [reflexivity|].
  intros y Hy. apply H. now right.
Qed.

(** C1: one run of the monitoring task can emit more than one event.
    A broadcast awaited inside the loop can raise (the registry changes
    while a send is awaited); the loop's handler then logs the error,
    waits and polls again.  With the run completed and its pull request
    in the logs, a first broadcast that raises is followed by a second
    poll and a second created event.  With the run failed at the last
    attempt and the broadcast raising, the attempt counter reaches the
    ceiling and the timeout event follows the event of the terminal
    status. *)
Theorem monitor_repeats_event_when_broadcast_raises :
  (let created :=
     {| ev_status := "created";
        ev_prUrl := Some "https://github.com/acme/app/pull/42"%string;
        ev_error := None;
        ev_createdAt := "2024-01-01T00:00:00" |} in
   monitor_agent_run_for_pr MoreSamples.subscribed_during_broadcast
     "run-1" "p1" "r1" None PlanSamples.env_ok 60
   = Some ([ GetAgentRun "run-1"; GetAgentRunLogs "run-1";
             Broadcast "p1" "r1" created;
             LogError "Error monitoring agent run run-1: dictionary changed size during iteration";
             Sleep 10;
             GetAgentRun "run-1"; GetAgentRunLogs "run-1";
             Broadcast "p1" "r1" created;
             LogInfo "PR created for requirement r1: https://github.com/acme/app/pull/42" ],
           Returns, Some PlanSamples.the_client))
  /\ (exists acts failed_event timeout,
         monitor_agent_run_for_pr MoreSamples.fails_at_last_attempt
           "run-1" "p1" "r1" None PlanSamples.env_ok 60
         = Some (acts, Returns, Some PlanSamples.the_client)
         /\ events acts = [failed_event; timeout]
         /\ polls acts = 60
         /\ ev_error failed_event = Some "Implementation failed"%string
         /\ is_status_event failed_event
         /\ is_timeout_event timeout).
Proof.
  split; [reflexivity|].
  eexists _, _, _. split; [vm_compute; reflexivity|].
  split; [vm_compute; reflexivity|].
  split; [vm_compute; reflexivity|].
  split; [reflexivity|].
  split; [right; right; split; reflexivity | split; reflexivity].
Qed.

(** The run [running, running, completed] with a pull-request URL in
    the logs: three polls, two waits, one event. *)
Example monitor_completes_third :
  monitor_agent_run_for_pr Samples.completes_third "run-1" "p1" "r1"
    None PlanSamples.env_ok 60
  = Some ([ GetAgentRun "run-1"; Sleep 10;
            GetAgentRun "run-1"; Sleep 10;
            GetAgentRun "run-1"; GetAgentRunLogs "run-1";
            Broadcast "p1" "r1"
              {| ev_status := "created";
                 ev_prUrl := Some "https://github.com/acme/app/pull/42"%string;
                 ev_error := None;
                 ev_createdAt := "2024-01-01T00:00:00" |};
            LogInfo "PR created for requirement r1: https://github.com/acme/app/pull/42" ],
          Returns, Some PlanSamples.the_client).
Proof. reflexivity. Qed.

(** Without credentials the task ends at once, on the exception of the
    client's constructor, having done nothing. *)
Example monitor_without_credentials :
  monitor_agent_run_for_pr Samples.completes_third "run-1" "p1" "r1"
    None {| CODEGEN_ORG_ID := None; CODEGEN_TOKEN := None |} 60
  = Some ([],
          Raises "Organization ID is required. Set CODEGEN_ORG_ID environment variable or pass org_id parameter.",
          None).
Proof. reflexivity. Qed.

(** C2: fed 60 polls in a row that show a non-terminal status, the
    task (which has its client) polls 60 times, waiting 10 seconds
    after each, then emits exactly one event -- failed, with the error
    "Monitoring timeout - PR status unknown" -- and does nothing
    more. *)
Theorem monitor_timeout_after_60_non_terminal
        (w : World) (agent_run_id project_id requirement_id : string)
        (codegen_client : option CodegenClient) (env : Env)
        (c : CodegenClient) (g : option CodegenClient)
        (fuel : nat) :
  get_codegen_client codegen_client env = (Returned c, g) ->
  max_attempts <= fuel ->
  (forall k, k < 60 ->
     exists run, get_agent_run (run_wire w k) = Returned run
                 /\ status_of run <> completed /\ status_of run <> failed) ->
  let timeout :=
    {| ev_status := "failed";
       ev_prUrl := None;
       ev_error := Some "Monitoring timeout - PR status unknown"%string;
       ev_createdAt := now w 60 |} in
  exists acts ending,
    monitor_agent_run_for_pr w agent_run_id project_id requirement_id
      codegen_client env fuel
    = Some (acts, ending, g)
    /\ acts = flat_map (fun _ => [GetAgentRun agent_run_id; Sleep 10]) (seq 0 60)
                ++ [Broadcast project_id requirement_id timeout]
    /\ events acts = [timeout]
    /\ polls acts = 60.
Proof.
  intros Hclient Hfuel Hall timeout.
  assert (Hbody : forall k, k < max_attempts ->
            loop_body w agent_run_id project_id requirement_id k
            = ([GetAgentRun agent_run_id; Sleep 10], Continue)).
  { intros k Hk. destruct (Hall k Hk) as (run & Hrun & Hc & Hf).
    now apply (loop_body_non_terminal _ _ _ _ _ run). }
  eexists _, _. split.
  - rewrite (monitor_all_continue w agent_run_id project_id requirement_id
               codegen_client env c g fuel Hclient Hfuel); [reflexivity|].
    intros k Hk. now rewrite (Hbody k Hk).
  - rewrite (flat_map_const _ [GetAgentRun agent_run_id; Sleep 10]).
    + split; [reflexivity|]. split; reflexivity.
    + intros k Hk. apply in_seq in Hk. rewrite Hbody; [reflexivity|].
      unfold max_attempts in *. lia.
Qed.

Lemma monitor_timeout_after_60_non_terminal_witness :
  exists acts ending,
    monitor_agent_run_for_pr Samples.always_running "run-1" "p1" "r1"
      None PlanSamples.env_ok 60
    = Some (acts, ending, Some PlanSamples.the_client)
    /\ acts = flat_map (fun _ => [GetAgentRun "run-1"; Sleep 10]) (seq 0 60)
                ++ [Broadcast "p1" "r1"
                      {| ev_status := "failed";
                         ev_prUrl := None;
                         ev_error := Some "Monitoring timeout - PR status unknown"%string;
                         ev_createdAt := "2024-01-01T00:00:00" |}]
    /\ events acts
       = [ {| ev_status := "failed";
              ev_prUrl := None;
              ev_error := Some "Monitoring timeout - PR status unknown"%string;
              ev_createdAt := "2024-01-01T00:00:00" |} ]
    /\ polls acts = 60.
Proof.
  apply (monitor_timeout_after_60_non_terminal Samples.always_running
           "run-1" "p1" "r1" None PlanSamples.env_ok
           PlanSamples.the_client (Some PlanSamples.the_client) 60).
  - reflexivity.
  - apply le_n.
  - intros k _. exists (Samples.run_with "running").
    split; [reflexivity|]. split; vm_compute; discriminate.
Defined.

Lemma loop_body_fetch_fails w agent_run_id project_id requirement_id k e :
  fetch_fails w k e ->
  exists acts,
    loop_body w agent_run_id project_id requirement_id k
    = (acts ++ [log_monitor_error agent_run_id e; Sleep 10], Continue)
    /\ events acts = [] /\ sleeps acts = [] /\ polls acts = 1.
Proof.
  unfold loop_body.
  intros [H | (run & Hrun & Hc & Hlogs)].
  - rewrite H. now exists [GetAgentRun agent_run_id].
  - rewrite Hrun. apply status_of_completed in Hc. rewrite Hc, Hlogs.
    now exists [GetAgentRun agent_run_id; GetAgentRunLogs agent_run_id].
Qed.

Lemma sleeps_app a b : sleeps (a ++ b) = sleeps a ++ sleeps b.
Proof. unfold sleeps. now rewrite flat_map_app. Qed.

Lemma flat_map_passes (f : nat -> list Action) (l : list nat) :
  (forall k, In k l ->
     events (f k) = [] /\ polls (f k) = 1 /\ sleeps (f k) = [10]) ->
  events (flat_map f l) = []
  /\ polls (flat_map f l) = List.length l
  /\ sleeps (flat_map f l) = repeat 10 (List.length l).
Proof.
  induction l as [|k l IH]; intros H; [now repeat split|].
  destruct (H k (or_introl eq_refl)) as (He & Hp & Hs).
  destruct IH as (He' & Hp' & Hs'); [intros j Hj; apply H; now right|].
  cbn [flat_map]. rewrite events_app, polls_app, sleeps_app.
  rewrite He, He', Hp, Hp', Hs, Hs'. now repeat split.
Qed.

(** C6: a poll whose status fetch (or log fetch) raises does not end
    the task: the error is logged, the task waits the same 10 seconds,
    and the loop goes on with the attempt counter one higher; and when
    every poll up to the ceiling fails, the task (which has its client)
    ends after 60 polls and 60 waits of 10 seconds with the single
    event failed / "Monitoring timeout - PR status unknown". *)
Theorem monitor_survives_fetch_errors
        (w : World) (agent_run_id project_id requirement_id : string) :
  (forall k e,
      fetch_fails w k e ->
      exists acts,
        loop_body w agent_run_id project_id requirement_id k
        = (acts ++ [LogError ("Error monitoring agent run " ++ agent_run_id
                                ++ ": " ++ e)%string; Sleep 10], Continue)
        /\ events acts = [] /\ sleeps acts = []
        /\ forall fuel,
            k < max_attempts ->
            while_loop w agent_run_id project_id requirement_id (S fuel) k
            = match while_loop w agent_run_id project_id requirement_id
                      fuel (k + 1) with
              | Some (acts', attempt') =>
                  Some ((acts ++ [LogError ("Error monitoring agent run "
                                              ++ agent_run_id ++ ": " ++ e)%string;
                                  Sleep 10]) ++ acts', attempt')
              | None => None
              end)
  /\ ((forall k, k < 60 -> exists e, fetch_fails w k e) ->
      forall codegen_client env c g fuel,
        get_codegen_client codegen_client env = (Returned c, g) ->
        max_attempts <= fuel ->
        exists acts ending,
          monitor_agent_run_for_pr w agent_run_id project_id requirement_id
            codegen_client env fuel
          = Some (acts, ending, g)
          /\ events acts
             = [ {| ev_status := "failed";
                    ev_prUrl := None;
                    ev_error := Some "Monitoring timeout - PR status unknown"%string;
                    ev_createdAt := now w 60 |} ]
          /\ polls acts = 60
          /\ sleeps acts = repeat 10 60).
Proof.
  split.
  - intros k e Hf.
    destruct (loop_body_fetch_fails w agent_run_id project_id requirement_id
                k e Hf) as (acts & Hb & He & Hs & _).
    exists acts. repeat split; try assumption.
    intros fuel Hk. rewrite while_loop_step by exact Hk.
    unfold log_monitor_error in Hb. now rewrite Hb.
  - intros Hall codegen_client env c g fuel Hclient Hfuel.
    assert (Hcont : forall k, k < max_attempts ->
              snd (loop_body w agent_run_id project_id requirement_id k)
              = Continue).
    { intros k Hk. destruct (Hall k Hk) as [e Hf].
      destruct (loop_body_fetch_fails w agent_run_id project_id
                  requirement_id k e Hf) as (acts & -> & _).
      reflexivity. }
    eexists _, _. split; [now apply (monitor_all_continue _ _ _ _ _ _ c)|].
    destruct (flat_map_passes
                (fun k => fst (loop_body w agent_run_id project_id
                                 requirement_id k))
                (seq 0 max_attempts)) as (He & Hp & Hs).
    { intros k Hk. apply in_seq in Hk.
      destruct (Hall k ltac:(unfold max_attempts in *; lia)) as [e Hf].
      destruct (loop_body_fetch_fails w agent_run_id project_id
                  requirement_id k e Hf) as (acts & -> & He & Hs & Hp).
      cbn [fst]. rewrite events_app, polls_app, sleeps_app, He, Hs, Hp.
      now repeat split. }
    rewrite length_seq in Hp, Hs.
    rewrite events_app, polls_app, sleeps_app, He, Hp, Hs.
    split; [reflexivity|]. split; [reflexivity|].
    simpl sleeps. now rewrite app_nil_r.
Qed.

Lemma monitor_survives_fetch_errors_witness :
  (exists acts,
      loop_body Samples.unreachable "run-1" "p1" "r1" 7
      = (acts ++ [LogError "Error monitoring agent run run-1: connection refused";
                  Sleep 10], Continue)
      /\ events acts = [] /\ sleeps acts = []
      /\ forall fuel,
          7 < max_attempts ->
          while_loop Samples.unreachable "run-1" "p1" "r1" (S fuel) 7
          = match while_loop Samples.unreachable "run-1" "p1" "r1" fuel (7 + 1) with
            | Some (acts', attempt') =>
                Some ((acts ++ [LogError "Error monitoring agent run run-1: connection refused";
                                Sleep 10]) ++ acts', attempt')
            | None => None
            end)
  /\ (exists acts ending,
         monitor_agent_run_for_pr Samples.unreachable "run-1" "p1" "r1"
           None PlanSamples.env_ok 60
         = Some (acts, ending, Some PlanSamples.the_client)
         /\ events acts
            = [ {| ev_status := "failed";
                   ev_prUrl := None;
                   ev_error := Some "Monitoring timeout - PR status unknown"%string;
                   ev_createdAt := "2024-01-01T00:00:00" |} ]
         /\ polls acts = 60
         /\ sleeps acts = repeat 10 60).
Proof.
  split.
  - apply (proj1 (monitor_survives_fetch_errors Samples.unreachable
                    "run-1" "p1" "r1") 7 "connection refused").
    left. reflexivity.
  - apply (proj2 (monitor_survives_fetch_errors Samples.unreachable
                    "run-1" "p1" "r1")) with (c := PlanSamples.the_client).
    + intros k _. exists "connection refused"%string. left. reflexivity.
    + reflexivity.
    + apply le_n.
Defined.

(** C7: a successful response whose status is none of pending,
    running, completed, failed (or is absent) makes [get_agent_run]
    return the run as it came, without raising; its status reads as
    unknown; and the monitor treats such a poll as non-terminal -- it
    waits and polls again, emitting nothing. *)
Theorem get_agent_run_tolerates_unknown_status
        (status_code : nat) (run : AgentRun) :
  is_http_error status_code = false ->
  (forall s, run_status run = Some s ->
             s <> "pending"%string /\ s <> "running"%string
             /\ s <> "completed"%string /\ s <> "failed"%string) ->
  get_agent_run (Response status_code (Some run)) = Returned run
  /\ status_of run = unknown
  /\ forall w agent_run_id project_id requirement_id attempt,
      run_wire w attempt = Response status_code (Some run) ->
      loop_body w agent_run_id project_id requirement_id attempt
      = ([GetAgentRun agent_run_id; Sleep 10], Continue)
      /\ events (fst (loop_body w agent_run_id project_id requirement_id
                        attempt)) = [].
Proof.
  intros Hcode Hs.
  assert (Hget : get_agent_run (Response status_code (Some run)) = Returned run).
  { unfold get_agent_run, _make_request. cbn. now rewrite Hcode. }
  assert (Hu : status_of run = unknown).
  { unfold status_of. destruct (run_status run) as [s|]; [|reflexivity].
    destruct (Hs s eq_refl) as (H1 & H2 & H3 & H4).
    apply String.eqb_neq in H1, H2, H3, H4. now rewrite H1, H2, H3, H4. }
  split; [exact Hget|]. split; [exact Hu|].
  intros w agent_run_id project_id requirement_id attempt Hw.
  rewrite (loop_body_non_terminal w agent_run_id project_id requirement_id
             attempt run); [split; reflexivity | | |].
  - now rewrite Hw.
  - rewrite Hu. discriminate.
  - rewrite Hu. discriminate.
Qed.

Lemma get_agent_run_tolerates_unknown_status_witness :
  get_agent_run (Response 200 (Some (Samples.run_with "queued")))
  = Returned (Samples.run_with "queued")
  /\ status_of (Samples.run_with "queued") = unknown
  /\ forall w agent_run_id project_id requirement_id attempt,
      run_wire w attempt = Response 200 (Some (Samples.run_with "queued")) ->
      loop_body w agent_run_id project_id requirement_id attempt
      = ([GetAgentRun agent_run_id; Sleep 10], Continue)
      /\ events (fst (loop_body w agent_run_id project_id requirement_id
                        attempt)) = [].
Proof.
  apply (get_agent_run_tolerates_unknown_status 200 (Samples.run_with "queued")).
  - reflexivity.
  - intros s [= <-]. repeat split; discriminate.
Defined.

(** An absent status is tolerated in the same way. *)
Example get_agent_run_absent_status :
  get_agent_run (Response 200 (Some {| run_status := None |}))
  = Returned {| run_status := None |}
  /\ status_of {| run_status := None |} = unknown.
Proof. split; reflexivity. Qed.

End MonitorClaims.

(** ** Subscription registry and broadcaster *)

Section RegistryFacts.

Lemma dict_set_keys {V} (d : list (nat * V)) k v k' :
  In k' (map fst (dict_set d k v)) <-> k' = k \/ In k' (map fst d).
Proof.
  induction d as [|[k0 v0] d IH]; simpl.
  - intuition.
  - destruct (Nat.eqb_spec k0 k) as [->|Hne]; simpl.
    + intuition.
    + rewrite IH. intuition.
Qed.

Lemma dict_set_nodup {V} (d : list (nat * V)) k v :
  NoDup (map fst d) -> NoDup (map fst (dict_set d k v)).
Proof.
  induction d as [|[k0 v0] d IH]; simpl; intros H.
  - repeat constructor. intros [].
  - inversion H as [|? ? Hnin Hnd]; subst.
    destruct (Nat.eqb_spec k0 k) as [->|Hne]; simpl.
    + now constructor.
    + constructor; [|now apply IH].
      rewrite dict_set_keys. intros [E | Hin]; [now elim Hne | now elim Hnin].
Qed.

Lemma dict_del_incl {V} (d : list (nat * V)) k k' :
  In k' (map fst (dict_del d k)) -> In k' (map fst d).
Proof.
  induction d as [|[k0 v0] d IH]; simpl; [trivial|].
  destruct (Nat.eqb_spec k0 k); simpl; intuition.
Qed.

Lemma dict_del_nodup {V} (d : list (nat * V)) k :
  NoDup (map fst d) ->
  NoDup (map fst (dict_del d k)) /\ ~ In k (map fst (dict_del d k)).
Proof.
  induction d as [|[k0 v0] d IH]; simpl; intros H.
  - split; [constructor | intros []].
  - inversion H as [|? ? Hnin Hnd]; subst.
    destruct (Nat.eqb_spec k0 k) as [->|Hne]; simpl.
    + now split.
    + destruct (IH Hnd) as [H1 H2]. split.
      * constructor; [|exact H1]. intros Hin. apply Hnin.
        now apply dict_del_incl in Hin.
      * intros [E | Hin]; [now elim Hne | now elim H2].
Qed.

Lemma list_remove_keeps l x i :
  i <> ws_id x -> In i (map ws_id l) -> In i (map ws_id (list_remove l x)).
Proof.
  intros Hne. induction l as [|y l IH]; simpl; [trivial|].
  destruct (Nat.eqb_spec (ws_id y) (ws_id x)) as [E|Hy]; simpl.
  - intros [H | H]; [congruence | exact H].
  - intuition.
Qed.

Lemma reachable_ok m : reachable m -> registry_ok m.
Proof.
  induction 1 as [| m ws _ [Hnd Hsub] _ | m ws s _ [Hnd Hsub] Hin
                  | m ws _ [Hnd Hsub]]; unfold registry_ok; simpl.
  - split; [constructor | intros ? []].
  - split; [exact Hnd|]. intros cid Hc. rewrite map_app, in_app_iff.
    left. now apply Hsub.
  - split; [now apply dict_set_nodup|].
    intros cid Hc. apply dict_set_keys in Hc. destruct Hc as [-> | Hc].
    + now apply in_map.
    + now apply Hsub.
  - destruct (dict_del_nodup (pr_subscriptions m) (ws_id ws) Hnd) as [H1 H2].
    split; [exact H1|]. intros cid Hc.
    apply list_remove_keeps.
    + intros ->. now elim H2.
    + apply Hsub. now apply dict_del_incl in Hc.
Qed.

Lemma find_connection_some m cid :
  In cid (map ws_id (active_connections m)) ->
  exists ws, find_connection m cid = Some ws /\ ws_id ws = cid.
Proof.
  unfold find_connection. induction (active_connections m) as [|y l IH]; simpl.
  - intros [].
  - destruct (Nat.eqb_spec (ws_id y) cid) as [E|Hne].
    + intros _. now exists y.
    + intros [H | H]; [now elim Hne | now apply IH].
Qed.

Lemma find_connection_id m cid ws :
  find_connection m cid = Some ws -> ws_id ws = cid.
Proof.
  unfold find_connection. intros H. apply find_some in H.
  now apply Nat.eqb_eq.
Qed.



Lemma reachable_three_observers : reachable Samples.three_observers.
Proof.
  unfold Samples.three_observers.
  apply (reach_subscribe _ {| ws_id := 3 |}).
  - apply (reach_subscribe _ {| ws_id := 2 |}).
    + apply (reach_subscribe _ {| ws_id := 1 |}).
      * repeat apply reach_connect; try apply reach_init;
          simpl; intuition discriminate.
      * simpl. auto.
    + simpl. auto.
  - simpl. auto.
Defined.


(** Two observers on K, one on K2, the first channel broken: the failure
    is logged, the second observer on K still gets the event, the
    observer on K2 gets nothing. *)
Example broadcast_three_observers :
  broadcast_pr_event Samples.first_channel_down Samples.three_observers
    "p1" "r1" Samples.sample_event
  = let message :=
      {| msg_type := "pr_status_update";
         msg_projectId := "p1";
         msg_requirementId := "r1";
         msg_event := Samples.sample_event |} in
    [SendFailedLogged 1 message; Sent 2 message].
Proof. reflexivity. Qed.

End RegistryFacts.

(** * Further properties of the code *)

Import PlanSection Routing.

(** ** The extractors *)

Section ExtractMore.

Lemma plan_loop_outside logs acc :
  plan_loop logs false acc
  = match after_first_marker logs with
    | Some lines => plan_loop lines true acc
    | None => acc
    end.
Proof.
  induction logs as [|l logs IH]; simpl; [reflexivity|].
  destruct (has_plan_marker l); [reflexivity | exact IH].
Qed.

Lemma plan_loop_inside lines acc :
  plan_loop lines true acc = acc ++ kept (until_blank lines).
Proof.
  revert acc; induction lines as [|l lines IH]; intros acc; simpl.
  - now rewrite app_nil_r.
  - destruct (has_plan_marker l) eqn:Em.
    + destruct (truthy (strip l)) eqn:Eb.
      * simpl. rewrite Em. simpl. apply IH.
      * apply blank_no_plan_marker in Eb. congruence.
    + destruct (truthy (strip l)) eqn:Eb; simpl.
      * rewrite Em. simpl. rewrite IH, <- app_assoc. reflexivity.
      * now rewrite app_nil_r.
Qed.

Lemma plan_content_is_plan_section (logs : list string) :
  plan_loop logs false [] = plan_section logs.
Proof.
  unfold plan_section. rewrite plan_loop_outside.
  destruct (after_first_marker logs) as [lines|]; [|reflexivity].
  now rewrite plan_loop_inside.
Qed.

(** The loop of [extract_plan_from_logs] computes the plan section:
    the lines after the first marker line, up to the first blank line,
    without those that repeat the marker; the result is their join,
    or the default template when there is none. *)
Theorem extract_plan_is_plan_section (logs : list string) :
  extract_plan_from_logs logs
  = match plan_section logs with
    | [] => default_plan
    | _ :: _ => join newline (plan_section logs)
    end.
Proof.
  unfold extract_plan_from_logs. now rewrite plan_content_is_plan_section.
Qed.

Lemma until_blank_non_blank lines : Forall non_blank (until_blank lines).
Proof.
  induction lines as [|l lines IH]; simpl; [constructor|].
  destruct (truthy (strip l)) eqn:E; constructor; assumption.
Qed.

Lemma kept_forall (P : string -> Prop) lines :
  Forall P lines -> Forall P (kept lines).
Proof.
  induction 1 as [|l lines Hl _ IH]; simpl; [constructor|].
  destruct (has_plan_marker l); simpl; [exact IH | now constructor].
Qed.

Lemma join_not_empty l lines :
  l <> ""%string -> join newline (l :: lines) <> ""%string.
Proof.
  intros Hl. destruct l as [|c l]; [contradiction|].
  destruct lines; simpl; discriminate.
Qed.

Lemma plan_text_not_empty (logs : list string) :
  extract_plan_from_logs logs <> ""%string.
Proof.
  unfold extract_plan_from_logs.
  rewrite plan_content_is_plan_section. unfold plan_section.
  destruct (after_first_marker logs) as [lines|];
    [|exact default_plan_not_empty].
  pose proof (kept_forall _ _ (until_blank_non_blank lines)) as H.
  destruct (kept (until_blank lines)) as [|l ls];
    [exact default_plan_not_empty|].
  apply join_not_empty. inversion H as [|? ? Hl _]; subst.
  intros ->. discriminate Hl.
Qed.

(** [extract_plan_from_logs] never returns the empty string: its result
    is the default template or a join of non-blank lines. *)
Theorem extract_plan_never_empty (logs : list string) :
  extract_plan_from_logs logs <> ""%string.
Proof. exact (plan_text_not_empty logs). Qed.

Lemma extract_pr_url_find (logs : list string) :
  extract_pr_url_from_logs logs
  = match find qualifiesb logs with
    | Some line => search_pr_url line
    | None => None
    end.
Proof.
  induction logs as [|l logs IH]; [reflexivity|].
  cbn [find]. destruct (qualifiesb l) eqn:E.
  - unfold qualifiesb in E. apply andb_true_iff in E. destruct E as [Hm Hs].
    destruct (search_pr_url l) as [v|] eqn:Ev; [|discriminate].
    destruct (search_pr_url_some _ _ Ev) as (a & b & Hl & Hv & _).
    pose proof (pr_url_has_host l a v b Hl Hv) as Hh.
    cbn [extract_pr_url_from_logs]. rewrite Hm, Hh, Ev. reflexivity.
  - rewrite <- IH. apply extract_pr_url_skip.
    rewrite qualifies_iff. congruence.
Qed.

(** [extract_pr_url_from_logs] is: find the first line that passes the
    tests of the loop and has a match, and return its match. *)
Theorem extract_pr_url_is_first_match (logs : list string) :
  extract_pr_url_from_logs logs
  = match find qualifiesb logs with
    | Some line => search_pr_url line
    | None => None
    end.
Proof. exact (extract_pr_url_find logs). Qed.

Lemma pr_url_not_empty (u : string) : is_pr_url u -> u <> ""%string.
Proof. intros (owner & repo & digits & -> & _). discriminate. Qed.

Lemma extract_pr_url_origin (logs : list string) (u : string) :
  extract_pr_url_from_logs logs = Some u ->
  exists line,
    In line logs /\ mentions "pull request" line /\ leftmost_match u line.
Proof.
  rewrite extract_pr_url_find.
  destruct (find qualifiesb logs) as [line|] eqn:E; [|discriminate].
  apply find_some in E. destruct E as [Hin Hq]. intros Hs.
  exists line. split; [exact Hin|]. split.
  - apply qualifies_iff in Hq. apply Hq.
  - now apply search_pr_url_some.
Qed.

(** Whatever [extract_pr_url_from_logs] returns is a well-formed
    pull-request URL, hence never the empty string, and it is the match
    on a line of the logs that mentions "pull request". *)
Theorem extract_pr_url_result_well_formed (logs : list string) (u : string) :
  extract_pr_url_from_logs logs = Some u ->
  is_pr_url u /\ u <> ""%string
  /\ exists line,
      In line logs /\ mentions "pull request" line /\ leftmost_match u line.
Proof.
  intros H. destruct (extract_pr_url_origin logs u H) as (line & Hin & Hm & Hl).
  assert (Hu : is_pr_url u) by (destruct Hl as (a & b & _ & Hu & _); exact Hu).
  split; [exact Hu|]. split; [now apply pr_url_not_empty|].
  now exists line.
Qed.

Lemma extract_pr_url_result_well_formed_witness :
  is_pr_url "https://github.com/acme/app/pull/42"
  /\ "https://github.com/acme/app/pull/42"%string <> ""%string
  /\ exists line,
      In line ["cloning";
               "Opened pull request https://github.com/acme/app/pull/42 (draft)"]
      /\ mentions "pull request" line
      /\ leftmost_match "https://github.com/acme/app/pull/42" line.
Proof.
  apply (extract_pr_url_result_well_formed
           ["cloning";
            "Opened pull request https://github.com/acme/app/pull/42 (draft)"]).
  reflexivity.
Defined.

End ExtractMore.

(** ** The monitor, poll by poll *)

Section MonitorMore.

Variable w : Monitor.World.
Variables agent_run_id project_id requirement_id : string.

Local Abbreviation body := (loop_body w agent_run_id project_id requirement_id).
Local Abbreviation loop := (while_loop w agent_run_id project_id requirement_id).
Local Abbreviation monitor :=
  (monitor_agent_run_for_pr w agent_run_id project_id requirement_id).
Local Abbreviation bcast := (Broadcast project_id requirement_id).
Local Abbreviation passes := (fun k => fst (body k)).
Local Abbreviation then_broadcast :=
  (broadcast_then w agent_run_id project_id requirement_id).
Local Abbreviation status_known :=
  (fun e : EventData => is_known_event e /\ ~ is_timeout_event e).

Lemma broadcast_then_returns k before e after :
  broadcast_raises w k = None ->
  then_broadcast k before e after = (before ++ bcast e :: after, Break).
Proof. intros H. unfold broadcast_then. now rewrite H. Qed.

Lemma broadcast_then_raises k before e after x :
  broadcast_raises w k = Some x ->
  then_broadcast k before e after
  = (before ++ [bcast e; log_monitor_error agent_run_id x; Sleep 10],
     Continue).
Proof. intros H. unfold broadcast_then. now rewrite H. Qed.

Lemma loop_body_failed k run :
  get_agent_run (run_wire w k) = Returned run ->
  status_of run = failed ->
  body k
  = then_broadcast k [GetAgentRun agent_run_id]
      {| ev_status := "failed"; ev_prUrl := None;
         ev_error := Some "Implementation failed"%string;
         ev_createdAt := now w k |}
      [].
Proof.
  intros Hrun Hf. unfold loop_body. rewrite Hrun.
  destruct (str_eq (run_status run) "completed") eqn:Ec.
  { apply status_of_completed in Ec. congruence. }
  apply status_of_failed in Hf. now rewrite Hf.
Qed.

Lemma loop_body_completed k run logs :
  get_agent_run (run_wire w k) = Returned run ->
  status_of run = completed ->
  get_agent_run_logs (logs_wire w k) = Returned logs ->
  body k
  = match extract_pr_url_from_logs
            (match logs_lines logs with Some l => l | None => [] end) with
    | Some u =>
        then_broadcast k
          [GetAgentRun agent_run_id; GetAgentRunLogs agent_run_id]
          {| ev_status := "created"; ev_prUrl := Some u;
             ev_error := None; ev_createdAt := now w k |}
          [LogInfo ("PR created for requirement " ++ requirement_id
                    ++ ": " ++ u)%string]
    | None =>
        then_broadcast k
          [GetAgentRun agent_run_id; GetAgentRunLogs agent_run_id]
          {| ev_status := "failed"; ev_prUrl := None;
             ev_error :=
               Some "Implementation completed but no PR was created"%string;
             ev_createdAt := now w k |}
          []
    end.
Proof.
  intros Hrun Hc Hlogs. unfold loop_body. rewrite Hrun.
  apply status_of_completed in Hc. rewrite Hc, Hlogs.
  destruct (extract_pr_url_from_logs _) as [u|] eqn:E; [|reflexivity].
  destruct u as [|c u]; [|reflexivity].
  apply extract_pr_url_origin in E.
  destruct E as (line & _ & _ & (a & b & _ & Hu & _)).
  now apply pr_url_not_empty in Hu.
Qed.

(** A poll that is not decisive: the loop goes on, and nothing was
    emitted. *)
Lemma poll_goes_on_pass k :
  poll_goes_on w k -> snd (body k) = Continue /\ events (passes k) = [].
Proof.
  intros [[e Hf] | (run & Hrun & Hc & Hf)].
  - destruct (loop_body_fetch_fails w agent_run_id project_id
                requirement_id k e Hf) as (acts & -> & He & _).
    cbn [fst snd]. split; [reflexivity|].
    rewrite events_app, He. reflexivity.
  - rewrite (loop_body_non_terminal w agent_run_id project_id
               requirement_id k run Hrun Hc Hf).
    split; reflexivity.
Qed.

(** The loop goes on after a pass exactly when its poll is not
    decisive or its broadcast raises. *)
Lemma continue_iff_goes_on k :
  snd (body k) = Continue <-> pass_goes_on w k.
Proof.
  split.
  - intros H. unfold pass_goes_on, poll_goes_on, fetch_fails.
    destruct (get_agent_run (run_wire w k)) as [e|run] eqn:Hrun.
    { left. left. exists e. now left. }
    destruct (status_of run) eqn:Hs.
    1,2,5: left; right; exists run; repeat split; congruence.
    + destruct (get_agent_run_logs (logs_wire w k)) as [e|logs] eqn:Hlogs.
      * left. left. exists e. right. now exists run.
      * right. rewrite (loop_body_completed k run logs Hrun Hs Hlogs) in H.
        unfold broadcast_then in H.
        destruct (broadcast_raises w k) as [x|]; [now exists x|].
        destruct (extract_pr_url_from_logs _); discriminate.
    + right. rewrite (loop_body_failed k run Hrun Hs) in H.
      unfold broadcast_then in H.
      destruct (broadcast_raises w k) as [x|]; [now exists x | discriminate].
  - intros [Hp | [x Hx]].
    + now apply poll_goes_on_pass.
    + unfold loop_body, broadcast_then. rewrite Hx.
      destruct (get_agent_run _); [reflexivity|].
      destruct (str_eq _ "completed").
      * destruct (get_agent_run_logs _); [reflexivity|].
        destruct (extract_pr_url_from_logs _) as [[|c u]|]; reflexivity.
      * destruct (str_eq _ "failed"); reflexivity.
Qed.

(** When the broadcast of a pass returns, the loop goes on only after
    a poll that is not decisive. *)
Lemma calm_continue k :
  broadcast_raises w k = None ->
  snd (body k) = Continue -> poll_goes_on w k.
Proof.
  intros Hcalm Hc. apply continue_iff_goes_on in Hc.
  destruct Hc as [Hp | [x Hx]]; [exact Hp | congruence].
Qed.

Lemma log_fetches_app a b :
  log_fetches (a ++ b) = log_fetches a + log_fetches b.
Proof. unfold log_fetches. now rewrite filter_app, length_app. Qed.

(** What one pass through the loop body amounts to. *)
Lemma loop_body_profile k :
  polls (passes k) = 1
  /\ log_fetches (passes k) <= 1
  /\ Forall status_known (events (passes k))
  /\ List.length (events (passes k)) <= 1
  /\ match snd (body k) with
     | Continue => sleeps (passes k) = [10]
     | Break =>
         sleeps (passes k) = []
         /\ broadcast_raises w k = None
         /\ exists e, events (passes k) = [e]
     end.
Proof.
  assert (Hquiet : forall acts,
            polls acts = 1 -> log_fetches acts <= 1 -> events acts = [] ->
            sleeps acts = [10] ->
            polls acts = 1 /\ log_fetches acts <= 1
            /\ Forall status_known (events acts)
            /\ List.length (events acts) <= 1
            /\ sleeps acts = [10]).
  { intros acts Hp Hl He Hs. rewrite He. cbn.
    split; [exact Hp|]. split; [exact Hl|]. split; [constructor|].
    split; [lia | exact Hs]. }
  assert (Hloud : forall before e after,
            status_known e ->
            polls before = 1 -> log_fetches before <= 1 ->
            events before = [] -> sleeps before = [] ->
            quiet after ->
            log_fetches after = 0 ->
            let r := then_broadcast k before e after in
            polls (fst r) = 1 /\ log_fetches (fst r) <= 1
            /\ Forall status_known (events (fst r))
            /\ List.length (events (fst r)) <= 1
            /\ match snd r with
               | Continue => sleeps (fst r) = [10]
               | Break =>
                   sleeps (fst r) = []
                   /\ broadcast_raises w k = None
                   /\ exists e', events (fst r) = [e']
               end).
  { intros before e after Hk Hp Hl He Hs Hq Hla r. unfold r, broadcast_then.
    assert (Hpa : polls after = 0).
    { clear - Hq. induction Hq as [|a after (Ha & _) _ IH]; [reflexivity|].
      unfold polls in *. cbn [filter]. now rewrite Ha. }
    assert (Hea : events after = []).
    { apply no_broadcast_events. now apply quiet_no_broadcast. }
    assert (Hsa : sleeps after = []).
    { clear - Hq. induction Hq as [|a after (_ & Ha & _) _ IH]; [reflexivity|].
      destruct a; try discriminate; exact IH. }
    destruct (broadcast_raises w k) as [x|]; cbn [fst snd].
    - rewrite polls_app, log_fetches_app, events_app, sleeps_app, Hp, He, Hs.
      cbn. split; [reflexivity|]. split; [lia|].
      split; [constructor; [exact Hk | constructor]|].
      split; [lia | reflexivity].
    - change (bcast e :: after) with ([bcast e] ++ after).
      rewrite !polls_app, !log_fetches_app, !events_app, !sleeps_app,
        Hp, He, Hs, Hpa, Hea, Hsa, Hla.
      cbn. split; [reflexivity|]. split; [lia|].
      split; [constructor; [exact Hk | constructor]|].
      split; [lia|]. split; [reflexivity|]. split; [reflexivity|].
      now exists e. }
  cbn beta.
  destruct (get_agent_run (run_wire w k)) as [e|run] eqn:Hrun.
  { unfold loop_body. rewrite Hrun. apply Hquiet; cbn; auto. }
  destruct (status_of run) eqn:Hs.
  1,2,5: rewrite (loop_body_non_terminal w agent_run_id project_id
                    requirement_id k run Hrun) by congruence;
         apply Hquiet; cbn; auto.
  - destruct (get_agent_run_logs (logs_wire w k)) as [e|logs] eqn:Hlogs.
    + unfold loop_body. rewrite Hrun.
      apply status_of_completed in Hs. rewrite Hs, Hlogs.
      apply Hquiet; cbn; auto.
    + rewrite (loop_body_completed k run logs Hrun Hs Hlogs).
      destruct (extract_pr_url_from_logs _) as [u|] eqn:E.
      * apply Hloud; try reflexivity; try (repeat constructor; fail).
        split; [|intros [H _]; discriminate].
        left. cbn. repeat split.
        exists u. split; [reflexivity|].
        apply extract_pr_url_origin in E.
        destruct E as (line & _ & _ & (a & b & _ & Hu & _)). exact Hu.
      * apply Hloud; try reflexivity; try (repeat constructor; fail).
        split; [|intros [_ H]; discriminate]. right. cbn. auto.
  - rewrite (loop_body_failed k run Hrun Hs).
    apply Hloud; try reflexivity; try (repeat constructor; fail).
    split; [|intros [_ H]; discriminate]. right. cbn. auto.
Qed.

(** The loop runs through the passes that go on and stops at the first
    one that breaks, or at the ceiling. *)
Lemma while_loop_runs fuel attempt :
  attempt <= max_attempts -> max_attempts - attempt <= fuel ->
  exists n,
    (forall j, attempt <= j < attempt + n -> snd (body j) = Continue)
    /\ ((attempt + n = max_attempts
         /\ loop fuel attempt
            = Some (flat_map passes (seq attempt n), max_attempts))
        \/ (attempt + n < max_attempts
            /\ snd (body (attempt + n)) = Break
            /\ loop fuel attempt
               = Some (flat_map passes (seq attempt n)
                         ++ passes (attempt + n), attempt + n))).
Proof.
  revert attempt; induction fuel as [|fuel IH]; intros attempt Hle Hfuel.
  - exists 0. split; [intros; lia|]. left.
    assert (attempt = max_attempts) as -> by lia.
    split; [lia | now apply while_loop_done].
  - destruct (Nat.eq_dec attempt max_attempts) as [->|Hne].
    + exists 0. split; [intros; lia|]. left.
      split; [lia | now apply while_loop_done].
    + assert (Hlt : attempt < max_attempts) by lia.
      rewrite (while_loop_step _ _ _ _ _ _ Hlt).
      destruct (body attempt) as [acts flow] eqn:E. destruct flow.
      * exists 0. split; [intros; lia|]. right.
        rewrite !Nat.add_0_r, E. cbn. auto.
      * destruct (IH (attempt + 1)) as (n & Hall & Hres); [lia | lia |].
        exists (S n). split.
        { intros j Hj. destruct (Nat.eq_dec j attempt) as [->|Hj'].
          - now rewrite E.
          - apply Hall. lia. }
        replace (attempt + S n) with (attempt + 1 + n) by lia.
        cbn [seq flat_map]. rewrite E. cbn [fst].
        replace (S attempt) with (attempt + 1) by lia.
        destruct Hres as [(Hn & ->) | (Hn & Hb & ->)].
        -- left. split; [exact Hn | reflexivity].
        -- right. split; [exact Hn|]. split; [exact Hb|].
           now rewrite <- app_assoc.
Qed.

(** Without a client the task ends before it does anything. *)
Lemma monitor_without_client codegen_client env e g fuel :
  get_codegen_client codegen_client env = (Raised e, g) ->
  monitor codegen_client env fuel = Some ([], Raises e, g).
Proof. intros H. unfold monitor_agent_run_for_pr. now rewrite H. Qed.

(** With a client, the task runs through the passes that go on and
    stops at the first one that breaks; at the ceiling it emits the
    timeout event. *)
Lemma monitor_runs codegen_client env c g fuel :
  get_codegen_client codegen_client env = (Returned c, g) ->
  max_attempts <= fuel ->
  exists n,
    (forall j, j < n -> snd (body j) = Continue)
    /\ ((n = max_attempts
         /\ monitor codegen_client env fuel
            = Some (flat_map passes (seq 0 n)
                      ++ [bcast (timeout_event w max_attempts)],
                    match broadcast_raises w max_attempts with
                    | Some e => Raises e
                    | None => Returns
                    end, g))
        \/ (n < max_attempts
            /\ snd (body n) = Break
            /\ monitor codegen_client env fuel
               = Some (flat_map passes (seq 0 n) ++ passes n, Returns, g))).
Proof.
  intros Hclient Hfuel.
  destruct (while_loop_runs fuel 0) as (n & Hall & Hres);
    [unfold max_attempts; lia | lia |].
  exists n. split; [intros j Hj; apply Hall; lia|].
  unfold monitor_agent_run_for_pr. rewrite Hclient. cbn [Nat.add] in Hres.
  destruct Hres as [(-> & ->) | (Hn & Hb & ->)].
  - left. now rewrite Nat.leb_refl.
  - right. apply Nat.leb_gt in Hn as Hn'. now rewrite Hn'.
Qed.

(** Passes that go on, put end to end. *)
Lemma passes_counts (l : list nat) :
  (forall j, In j l -> snd (body j) = Continue) ->
  polls (flat_map passes l) = List.length l
  /\ sleeps (flat_map passes l) = repeat 10 (List.length l)
  /\ log_fetches (flat_map passes l) <= List.length l
  /\ Forall status_known (events (flat_map passes l))
  /\ List.length (events (flat_map passes l)) <= List.length l.
Proof.
  induction l as [|k l IH]; intros Hall.
  { cbn. auto. }
  destruct IH as (Hp & Hs & Hl & Hk & Hn);
    [intros j Hj; apply Hall; now right|].
  destruct (loop_body_profile k) as (Hp1 & Hl1 & Hk1 & Hn1 & Hc).
  rewrite (Hall k (or_introl eq_refl)) in Hc. cbn beta in *.
  cbn [flat_map List.length].
  rewrite polls_app, sleeps_app, log_fetches_app, events_app, length_app.
  rewrite Hp, Hs, Hp1, Hc.
  split; [reflexivity|]. split; [reflexivity|]. split; [lia|].
  split; [apply Forall_app; now split | lia].
Qed.

Lemma going_on_passes n :
  (forall j, j < n -> snd (body j) = Continue) ->
  polls (flat_map passes (seq 0 n)) = n
  /\ sleeps (flat_map passes (seq 0 n)) = repeat 10 n
  /\ log_fetches (flat_map passes (seq 0 n)) <= n
  /\ Forall status_known (events (flat_map passes (seq 0 n)))
  /\ List.length (events (flat_map passes (seq 0 n))) <= n.
Proof.
  intros Hall.
  pose proof (passes_counts (seq 0 n)) as H. rewrite length_seq in H.
  apply H. intros j Hj. apply in_seq in Hj. apply Hall. lia.
Qed.

(** Passes whose polls are not decisive emit nothing. *)
Lemma going_on_quiet n :
  (forall j, j < n -> poll_goes_on w j) ->
  events (flat_map passes (seq 0 n)) = [].
Proof.
  intros Hall.
  assert (H : forall l, (forall j, In j l -> j < n) ->
                        events (flat_map passes l) = []).
  { induction l as [|k l IH]; intros Hl; [reflexivity|].
    cbn [flat_map]. rewrite events_app, IH by (intros j Hj; apply Hl; now right).
    destruct (poll_goes_on_pass k (Hall k (Hl k (or_introl eq_refl))))
      as [_ ->].
    reflexivity. }
  apply H. intros j Hj. apply in_seq in Hj. lia.
Qed.

Lemma goes_on_continue k :
  (forall j, j < k -> poll_goes_on w j) ->
  forall j, j < k -> snd (body j) = Continue.
Proof. intros H j Hj. now apply poll_goes_on_pass, H. Qed.

(** With a client: when the passes before [k] go on and pass [k]
    breaks, the task ends with pass [k]. *)
Lemma monitor_breaks_at codegen_client env c g k fuel :
  get_codegen_client codegen_client env = (Returned c, g) ->
  k < max_attempts -> max_attempts <= fuel ->
  (forall j, j < k -> snd (body j) = Continue) ->
  snd (body k) = Break ->
  monitor codegen_client env fuel
  = Some (flat_map passes (seq 0 k) ++ passes k, Returns, g).
Proof.
  intros Hclient Hk Hfuel Hbefore Hbreak.
  destruct (monitor_runs codegen_client env c g fuel Hclient Hfuel)
    as (n & Hall & [(-> & _) | (Hn & Hb & Hm)]).
  - rewrite (Hall k Hk) in Hbreak. discriminate.
  - destruct (Nat.lt_trichotomy n k) as [Hlt | [-> | Hgt]].
    + rewrite (Hbefore n Hlt) in Hb. discriminate.
    + exact Hm.
    + rewrite (Hall k Hgt) in Hbreak. discriminate.
Qed.

End MonitorMore.

Section MonitorExtras.

Lemma list_sum_repeat (c n : nat) : list_sum (repeat c n) = c * n.
Proof. induction n as [|n IH]; simpl; [lia | rewrite IH; lia]. Qed.

(** A task that has its client, and none of whose broadcasts in the
    loop raises, emits exactly one event, and it is one of four:
    created, with a well-formed pull-request URL, or failed with
    "Implementation completed but no PR was created", "Implementation
    failed" or "Monitoring timeout - PR status unknown". *)
Theorem monitor_emits_exactly_one_known_event
        (w : Monitor.World) (agent_run_id project_id requirement_id : string)
        (codegen_client : option CodegenClient) (env : Env)
        (c : CodegenClient) (g : option CodegenClient) (fuel : nat) :
  get_codegen_client codegen_client env = (Returned c, g) ->
  broadcasts_return w ->
  max_attempts <= fuel ->
  exists acts ending e,
    monitor_agent_run_for_pr w agent_run_id project_id requirement_id
      codegen_client env fuel
    = Some (acts, ending, g)
    /\ events acts = [e]
    /\ is_known_event e.
Proof.
  intros Hclient Hcalm Hfuel.
  destruct (monitor_runs w agent_run_id project_id requirement_id
              codegen_client env c g fuel Hclient Hfuel)
    as (n & Hall & [(-> & Hm) | (Hn & Hb & Hm)]).
  - assert (He : events (flat_map
                           (fun k => fst (loop_body w agent_run_id project_id
                                            requirement_id k))
                           (seq 0 max_attempts)) = []).
    { apply going_on_quiet. intros j Hj.
      apply (calm_continue w agent_run_id project_id requirement_id);
        [now apply Hcalm | now apply Hall]. }
    eexists _, _, _. split; [exact Hm|]. rewrite events_app, He.
    split; [reflexivity|]. right. cbn. auto.
  - assert (He : events (flat_map
                           (fun k => fst (loop_body w agent_run_id project_id
                                            requirement_id k))
                           (seq 0 n)) = []).
    { apply going_on_quiet. intros j Hj.
      apply (calm_continue w agent_run_id project_id requirement_id);
        [apply Hcalm; unfold max_attempts in Hn; lia | now apply Hall]. }
    destruct (loop_body_profile w agent_run_id project_id requirement_id n)
      as (_ & _ & Hk & _ & Hp).
    rewrite Hb in Hp. destruct Hp as (_ & _ & e & Hev).
    cbn beta in Hev, Hk. rewrite Hev in Hk.
    eexists _, _, e. split; [exact Hm|]. rewrite events_app, He, Hev.
    split; [reflexivity|]. now inversion Hk as [|? ? [Hke _] _].
Qed.

Lemma monitor_emits_exactly_one_known_event_witness :
  exists acts ending e,
    monitor_agent_run_for_pr MoreSamples.flaky_then_failed "run-1" "p1" "r1"
      None PlanSamples.env_ok 60
    = Some (acts, ending, Some PlanSamples.the_client)
    /\ events acts = [e]
    /\ is_known_event e.
Proof.
  apply (monitor_emits_exactly_one_known_event MoreSamples.flaky_then_failed
           "run-1" "p1" "r1" None PlanSamples.env_ok
           PlanSamples.the_client (Some PlanSamples.the_client) 60).
  - reflexivity.
  - intros k _. reflexivity.
  - apply le_n.
Defined.

(** Every run of the monitoring task is bounded: at most 60 polls, no
    more log fetches than polls, waits of 10 seconds only, one after
    each poll but possibly the last -- hence at most 600 seconds of
    waiting in all. *)
Theorem monitor_is_bounded
        (w : Monitor.World) (agent_run_id project_id requirement_id : string)
        (codegen_client : option CodegenClient) (env : Env) (fuel : nat) :
  max_attempts <= fuel ->
  exists acts ending g n,
    monitor_agent_run_for_pr w agent_run_id project_id requirement_id
      codegen_client env fuel
    = Some (acts, ending, g)
    /\ polls acts <= 60
    /\ log_fetches acts <= polls acts
    /\ sleeps acts = repeat 10 n
    /\ (polls acts = n \/ polls acts = n + 1)
    /\ list_sum (sleeps acts) <= 600.
Proof.
  intros Hfuel.
  destruct (get_codegen_client codegen_client env) as [[e|c] g] eqn:Hclient.
  { exists [], (Raises e), g, 0.
    split; [now apply monitor_without_client|].
    cbn. repeat split; auto; lia. }
  destruct (monitor_runs w agent_run_id project_id requirement_id
              codegen_client env c g fuel Hclient Hfuel)
    as (n & Hall & [(-> & Hm) | (Hn & Hb & Hm)]);
    destruct (going_on_passes w agent_run_id project_id requirement_id _ Hall)
      as (Hp & Hs & Hl & _).
  - eexists _, _, g, max_attempts. split; [exact Hm|].
    rewrite polls_app, sleeps_app, log_fetches_app, Hp, Hs.
    cbn [polls sleeps log_fetches filter flat_map List.length is_poll].
    rewrite app_nil_r, Nat.add_0_r, list_sum_repeat.
    unfold max_attempts in *. repeat split; lia.
  - destruct (loop_body_profile w agent_run_id project_id requirement_id n)
      as (Hp1 & Hl1 & _ & _ & Hk).
    rewrite Hb in Hk. destruct Hk as (Hs1 & _). cbn beta in *.
    eexists _, _, g, n. split; [exact Hm|].
    rewrite polls_app, sleeps_app, log_fetches_app, Hp, Hs, Hp1, Hs1.
    rewrite app_nil_r, list_sum_repeat.
    unfold max_attempts in *. repeat split; lia.
Qed.

Lemma monitor_is_bounded_witness :
  exists acts ending g n,
    monitor_agent_run_for_pr Samples.completes_third "run-1" "p1" "r1"
      None PlanSamples.env_ok 60
    = Some (acts, ending, g)
    /\ polls acts <= 60
    /\ log_fetches acts <= polls acts
    /\ sleeps acts = repeat 10 n
    /\ (polls acts = n \/ polls acts = n + 1)
    /\ list_sum (sleeps acts) <= 600.
Proof.
  apply (monitor_is_bounded Samples.completes_third). apply le_n.
Defined.

(** Whatever the service answers and whichever broadcasts raise, a run
    of the task ends, every event it emitted is one of the four known
    ones, and there is at most one event per poll, plus the timeout
    event.  A task that gets no client ends on the exception of the
    constructor, having done nothing. *)
Theorem monitor_emits_only_known_events
        (w : Monitor.World) (agent_run_id project_id requirement_id : string)
        (codegen_client : option CodegenClient) (env : Env) (fuel : nat) :
  max_attempts <= fuel ->
  exists acts ending,
    monitor_agent_run_for_pr w agent_run_id project_id requirement_id
      codegen_client env fuel
    = Some (acts, ending, snd (get_codegen_client codegen_client env))
    /\ Forall is_known_event (events acts)
    /\ List.length (events acts) <= polls acts + 1
    /\ (forall e, fst (get_codegen_client codegen_client env) = Raised e ->
                  acts = [] /\ ending = Raises e).
Proof.
  intros Hfuel.
  assert (Hweak : forall l,
            Forall (fun e => is_known_event e /\ ~ is_timeout_event e) l ->
            Forall is_known_event l).
  { intros l. apply Forall_impl. tauto. }
  destruct (get_codegen_client codegen_client env) as [[e|c] g] eqn:Hclient.
  { exists [], (Raises e).
    split; [now apply monitor_without_client|].
    cbn. split; [constructor|]. split; [lia|].
    intros e' [= <-]. auto. }
  destruct (monitor_runs w agent_run_id project_id requirement_id
              codegen_client env c g fuel Hclient Hfuel)
    as (n & Hall & [(-> & Hm) | (Hn & Hb & Hm)]);
    destruct (going_on_passes w agent_run_id project_id requirement_id _ Hall)
      as (Hp & _ & _ & Hk & Hlen).
  - eexists _, _. split; [exact Hm|].
    set (t := timeout_event w max_attempts).
    rewrite events_app, polls_app, length_app, Hp.
    change (events [Broadcast project_id requirement_id t]) with [t].
    change (polls [Broadcast project_id requirement_id t]) with 0.
    cbn [List.length fst].
    split; [|split; [lia | discriminate]].
    apply Forall_app. split; [now apply Hweak|].
    constructor; [|constructor]. right. cbn. auto.
  - destruct (loop_body_profile w agent_run_id project_id requirement_id n)
      as (Hp1 & _ & Hk1 & Hlen1 & _).
    cbn beta in *.
    eexists _, _. split; [exact Hm|].
    rewrite events_app, polls_app, length_app, Hp, Hp1.
    split; [|split; [lia | discriminate]].
    apply Forall_app. split; now apply Hweak.
Qed.

Lemma monitor_emits_only_known_events_witness :
  exists acts ending,
    monitor_agent_run_for_pr MoreSamples.subscribed_during_broadcast
      "run-1" "p1" "r1" None PlanSamples.env_ok 60
    = Some (acts, ending,
            snd (get_codegen_client None PlanSamples.env_ok))
    /\ Forall is_known_event (events acts)
    /\ List.length (events acts) <= polls acts + 1
    /\ (forall e, fst (get_codegen_client None PlanSamples.env_ok) = Raised e ->
                  acts = [] /\ ending = Raises e).
Proof.
  apply (monitor_emits_only_known_events
           MoreSamples.subscribed_during_broadcast).
  apply le_n.
Defined.

End MonitorExtras.

Section MonitorOutcomes.

(** With a client: when the polls before poll [k] are not decisive,
    poll [k] shows the status failed and the broadcast made then
    returns, the task ends there: [k + 1] polls, a wait of 10 seconds
    after each of the first [k], and the single event failed /
    "Implementation failed", with nothing after it.  With [k = 0] this
    is the run that fails on the first poll. *)
Theorem monitor_reports_failed_run
        (w : Monitor.World) (agent_run_id project_id requirement_id : string)
        (codegen_client : option CodegenClient) (env : Env)
        (c : CodegenClient) (g : option CodegenClient)
        (k fuel : nat) (run : AgentRun) :
  get_codegen_client codegen_client env = (Returned c, g) ->
  k < 60 -> max_attempts <= fuel ->
  (forall j, j < k -> poll_goes_on w j) ->
  get_agent_run (run_wire w k) = Returned run ->
  status_of run = failed ->
  broadcast_raises w k = None ->
  let event :=
    {| ev_status := "failed"; ev_prUrl := None;
       ev_error := Some "Implementation failed"%string;
       ev_createdAt := now w k |} in
  exists before,
    monitor_agent_run_for_pr w agent_run_id project_id requirement_id
      codegen_client env fuel
    = Some (before ++ [GetAgentRun agent_run_id;
                       Broadcast project_id requirement_id event],
            Returns, g)
    /\ events before = [] /\ polls before = k /\ sleeps before = repeat 10 k.
Proof.
  intros Hclient Hk Hfuel Hbefore Hrun Hs Hcalm event.
  pose proof (goes_on_continue w agent_run_id project_id requirement_id k
                Hbefore) as Hc.
  pose proof (loop_body_failed w agent_run_id project_id requirement_id
                k run Hrun Hs) as Hb.
  rewrite broadcast_then_returns in Hb by exact Hcalm.
  eexists. split.
  - rewrite (monitor_breaks_at w agent_run_id project_id requirement_id
               codegen_client env c g k fuel);
      [rewrite Hb; reflexivity | exact Hclient | exact Hk | exact Hfuel
       | exact Hc | now rewrite Hb].
  - destruct (going_on_passes w agent_run_id project_id requirement_id k Hc)
      as (Hp & Hsl & _).
    split; [now apply going_on_quiet | auto].
Qed.

Lemma monitor_reports_failed_run_witness :
  exists before,
    monitor_agent_run_for_pr MoreSamples.flaky_then_failed "run-1" "p1" "r1"
      None PlanSamples.env_ok 60
    = Some (before ++ [GetAgentRun "run-1";
                       Broadcast "p1" "r1"
                         {| ev_status := "failed"; ev_prUrl := None;
                            ev_error := Some "Implementation failed"%string;
                            ev_createdAt := "2024-01-01T00:00:30" |}],
            Returns, Some PlanSamples.the_client)
    /\ events before = [] /\ polls before = 3 /\ sleeps before = repeat 10 3.
Proof.
  apply (monitor_reports_failed_run MoreSamples.flaky_then_failed
           "run-1" "p1" "r1" None PlanSamples.env_ok
           PlanSamples.the_client (Some PlanSamples.the_client)
           3 60 (Samples.run_with "failed")).
  - reflexivity.
  - repeat constructor.
  - apply le_n.
  - intros j Hj.
    destruct j as [|[|[|j]]].
    + left. exists "connection reset"%string. left. reflexivity.
    + left. exists "connection reset"%string. left. reflexivity.
    + right. exists (Samples.run_with "running").
      split; [reflexivity|]. split; vm_compute; discriminate.
    + exfalso. apply (Nat.lt_irrefl 3).
      apply (Nat.le_lt_trans _ (S (S (S j)))); [|exact Hj].
      apply le_n_S, le_n_S, le_n_S, Nat.le_0_l.
  - reflexivity.
  - reflexivity.
  - reflexivity.
Defined.

(** With a client: when the polls before poll [k] are not decisive,
    poll [k] shows the status completed, the logs fetched then hold a
    pull-request URL and the broadcast made then returns, the task ends
    there with the single event created, carrying the URL that
    [extract_pr_url_from_logs] finds in those logs. *)
Theorem monitor_reports_created_pr
        (w : Monitor.World) (agent_run_id project_id requirement_id : string)
        (codegen_client : option CodegenClient) (env : Env)
        (c : CodegenClient) (g : option CodegenClient)
        (k fuel : nat) (run : AgentRun) (logs : AgentRunLogs) (u : string) :
  get_codegen_client codegen_client env = (Returned c, g) ->
  k < 60 -> max_attempts <= fuel ->
  (forall j, j < k -> poll_goes_on w j) ->
  get_agent_run (run_wire w k) = Returned run ->
  status_of run = completed ->
  get_agent_run_logs (logs_wire w k) = Returned logs ->
  extract_pr_url_from_logs
    (match logs_lines logs with Some l => l | None => [] end) = Some u ->
  broadcast_raises w k = None ->
  exists acts,
    monitor_agent_run_for_pr w agent_run_id project_id requirement_id
      codegen_client env fuel
    = Some (acts, Returns, g)
    /\ events acts
       = [ {| ev_status := "created"; ev_prUrl := Some u;
              ev_error := None; ev_createdAt := now w k |} ]
    /\ polls acts = k + 1 /\ log_fetches acts <= k + 1
    /\ sleeps acts = repeat 10 k.
Proof.
  intros Hclient Hk Hfuel Hbefore Hrun Hs Hlogs Hu Hcalm.
  pose proof (goes_on_continue w agent_run_id project_id requirement_id k
                Hbefore) as Hc.
  pose proof (loop_body_completed w agent_run_id project_id requirement_id
                k run logs Hrun Hs Hlogs) as Hb.
  rewrite Hu, broadcast_then_returns in Hb by exact Hcalm.
  destruct (going_on_passes w agent_run_id project_id requirement_id k Hc)
    as (Hp & Hsl & Hl & _).
  pose proof (going_on_quiet w agent_run_id project_id requirement_id k
                Hbefore) as He.
  eexists. split.
  - rewrite (monitor_breaks_at w agent_run_id project_id requirement_id
               codegen_client env c g k fuel);
      [rewrite Hb; reflexivity | exact Hclient | exact Hk | exact Hfuel
       | exact Hc | now rewrite Hb].
  - rewrite events_app, polls_app, sleeps_app, log_fetches_app, He, Hp, Hsl.
    cbn. rewrite app_nil_r. repeat split; lia.
Qed.

Lemma monitor_reports_created_pr_witness :
  exists acts,
    monitor_agent_run_for_pr Samples.completes_third "run-1" "p1" "r1"
      None PlanSamples.env_ok 60
    = Some (acts, Returns, Some PlanSamples.the_client)
    /\ events acts
       = [ {| ev_status := "created";
              ev_prUrl := Some "https://github.com/acme/app/pull/42"%string;
              ev_error := None; ev_createdAt := "2024-01-01T00:00:00" |} ]
    /\ polls acts = 2 + 1 /\ log_fetches acts <= 2 + 1
    /\ sleeps acts = repeat 10 2.
Proof.
  apply (monitor_reports_created_pr Samples.completes_third
           "run-1" "p1" "r1" None PlanSamples.env_ok
           PlanSamples.the_client (Some PlanSamples.the_client)
           2 60 (Samples.run_with "completed")
           {| logs_lines :=
                Some ["cloning";
                      "Opened pull request https://github.com/acme/app/pull/42"] |}).
  - reflexivity.
  - repeat constructor.
  - apply le_n.
  - intros j Hj. right. exists (Samples.run_with "running").
    destruct j as [|[|j]].
    + split; [reflexivity|]. split; vm_compute; discriminate.
    + split; [reflexivity|]. split; vm_compute; discriminate.
    + exfalso. apply (Nat.lt_irrefl 2).
      apply (Nat.le_lt_trans _ (S (S j))); [|exact Hj].
      apply le_n_S, le_n_S, Nat.le_0_l.
  - reflexivity.
  - reflexivity.
  - reflexivity.
  - reflexivity.
  - reflexivity.
Defined.

(** With a client: when the polls before poll [k] are not decisive,
    poll [k] shows the status completed, the logs fetched then hold no
    pull-request URL and the broadcast made then returns, the task ends
    there with the single event failed / "Implementation completed but
    no PR was created". *)
Theorem monitor_reports_missing_pr
        (w : Monitor.World) (agent_run_id project_id requirement_id : string)
        (codegen_client : option CodegenClient) (env : Env)
        (c : CodegenClient) (g : option CodegenClient)
        (k fuel : nat) (run : AgentRun) (logs : AgentRunLogs) :
  get_codegen_client codegen_client env = (Returned c, g) ->
  k < 60 -> max_attempts <= fuel ->
  (forall j, j < k -> poll_goes_on w j) ->
  get_agent_run (run_wire w k) = Returned run ->
  status_of run = completed ->
  get_agent_run_logs (logs_wire w k) = Returned logs ->
  extract_pr_url_from_logs
    (match logs_lines logs with Some l => l | None => [] end) = None ->
  broadcast_raises w k = None ->
  exists acts,
    monitor_agent_run_for_pr w agent_run_id project_id requirement_id
      codegen_client env fuel
    = Some (acts, Returns, g)
    /\ events acts
       = [ {| ev_status := "failed"; ev_prUrl := None;
              ev_error :=
                Some "Implementation completed but no PR was created"%string;
              ev_createdAt := now w k |} ]
    /\ polls acts = k + 1
    /\ sleeps acts = repeat 10 k.
Proof.
  intros Hclient Hk Hfuel Hbefore Hrun Hs Hlogs Hu Hcalm.
  pose proof (goes_on_continue w agent_run_id project_id requirement_id k
                Hbefore) as Hc.
  pose proof (loop_body_completed w agent_run_id project_id requirement_id
                k run logs Hrun Hs Hlogs) as Hb.
  rewrite Hu, broadcast_then_returns in Hb by exact Hcalm.
  destruct (going_on_passes w agent_run_id project_id requirement_id k Hc)
    as (Hp & Hsl & _).
  pose proof (going_on_quiet w agent_run_id project_id requirement_id k
                Hbefore) as He.
  eexists. split.
  - rewrite (monitor_breaks_at w agent_run_id project_id requirement_id
               codegen_client env c g k fuel);
      [rewrite Hb; reflexivity | exact Hclient | exact Hk | exact Hfuel
       | exact Hc | now rewrite Hb].
  - rewrite events_app, polls_app, sleeps_app, He, Hp, Hsl.
    cbn. rewrite app_nil_r. repeat split; lia.
Qed.

Lemma monitor_reports_missing_pr_witness :
  exists acts,
    monitor_agent_run_for_pr MoreSamples.completed_without_pr "run-1" "p1" "r1"
      None PlanSamples.env_ok 60
    = Some (acts, Returns, Some PlanSamples.the_client)
    /\ events acts
       = [ {| ev_status := "failed"; ev_prUrl := None;
              ev_error :=
                Some "Implementation completed but no PR was created"%string;
              ev_createdAt := "2024-01-01T00:00:00" |} ]
    /\ polls acts = 0 + 1
    /\ sleeps acts = repeat 10 0.
Proof.
  apply (monitor_reports_missing_pr MoreSamples.completed_without_pr
           "run-1" "p1" "r1" None PlanSamples.env_ok
           PlanSamples.the_client (Some PlanSamples.the_client)
           0 60 (Samples.run_with "completed")
           {| logs_lines := Some ["cloning"; "tests passed"; "done"] |}).
  - reflexivity.
  - repeat constructor.
  - apply le_n.
  - intros j Hj. exfalso. exact (Nat.nlt_0_r j Hj).
  - reflexivity.
  - reflexivity.
  - reflexivity.
  - reflexivity.
  - reflexivity.
Defined.

(** With a client, the task emits the timeout event exactly when each
    of the 60 passes of the loop goes on: its poll is not decisive, or
    the broadcast made in it raises.  When no broadcast of the loop
    raises, the task emits one event, and it is the timeout event
    exactly when none of the 60 polls is decisive. *)
Theorem monitor_times_out_iff_no_decisive_poll
        (w : Monitor.World) (agent_run_id project_id requirement_id : string)
        (codegen_client : option CodegenClient) (env : Env)
        (c : CodegenClient) (g : option CodegenClient) (fuel : nat) :
  get_codegen_client codegen_client env = (Returned c, g) ->
  max_attempts <= fuel ->
  exists acts ending,
    monitor_agent_run_for_pr w agent_run_id project_id requirement_id
      codegen_client env fuel
    = Some (acts, ending, g)
    /\ ((exists e, In e (events acts) /\ is_timeout_event e)
        <-> forall k, k < 60 -> pass_goes_on w k)
    /\ (broadcasts_return w ->
        exists e,
          events acts = [e]
          /\ (is_timeout_event e <-> forall k, k < 60 -> poll_goes_on w k)).
Proof.
  intros Hclient Hfuel.
  destruct (monitor_runs w agent_run_id project_id requirement_id
              codegen_client env c g fuel Hclient Hfuel)
    as (n & Hall & [(-> & Hm) | (Hn & Hb & Hm)]);
    destruct (going_on_passes w agent_run_id project_id requirement_id _ Hall)
      as (_ & _ & _ & Hk & _).
  - eexists _, _. split; [exact Hm|]. split.
    + split.
      * intros _ k Hk'.
        apply (continue_iff_goes_on w agent_run_id project_id requirement_id).
        now apply Hall.
      * intros _. exists (timeout_event w max_attempts). split.
        -- rewrite events_app. apply in_or_app. right. now left.
        -- split; reflexivity.
    + intros Hcalm. exists (timeout_event w max_attempts).
      assert (Hgo : forall j, j < max_attempts -> poll_goes_on w j).
      { intros j Hj.
        apply (calm_continue w agent_run_id project_id requirement_id);
          [now apply Hcalm | now apply Hall]. }
      rewrite events_app,
        (going_on_quiet w agent_run_id project_id requirement_id _ Hgo).
      split; [reflexivity|]. split; [intros _; exact Hgo|].
      intros _. split; reflexivity.
  - destruct (loop_body_profile w agent_run_id project_id requirement_id n)
      as (_ & _ & Hk1 & _ & Hp).
    rewrite Hb in Hp. destruct Hp as (_ & _ & e & Hev).
    cbn beta in Hev, Hk1.
    assert (Hn' : n < 60) by exact Hn.
    eexists _, _. split; [exact Hm|]. split.
    + split.
      * intros (e' & Hin & Ht). exfalso.
        rewrite events_app in Hin. apply in_app_or in Hin.
        destruct Hin as [Hin | Hin].
        -- apply (proj1 (Forall_forall _ _) Hk) in Hin. now apply Hin.
        -- apply (proj1 (Forall_forall _ _) Hk1) in Hin. now apply Hin.
      * intros H. exfalso.
        pose proof (proj2 (continue_iff_goes_on w agent_run_id project_id
                             requirement_id n) (H n Hn')) as Hc.
        rewrite Hb in Hc. discriminate.
    + intros Hcalm. exists e.
      assert (Hgo : forall j, j < n -> poll_goes_on w j).
      { intros j Hj.
        apply (calm_continue w agent_run_id project_id requirement_id);
          [apply Hcalm; lia | now apply Hall]. }
      rewrite events_app,
        (going_on_quiet w agent_run_id project_id requirement_id _ Hgo), Hev.
      split; [reflexivity|]. rewrite Hev in Hk1.
      inversion Hk1 as [|? ? [_ Hnt] _]; subst. split.
      * intros Ht. now elim Hnt.
      * intros H. exfalso.
        destruct (poll_goes_on_pass w agent_run_id project_id requirement_id
                    n (H n Hn')) as [Hc _].
        rewrite Hb in Hc. discriminate.
Qed.

Lemma monitor_times_out_iff_no_decisive_poll_witness :
  exists acts ending,
    monitor_agent_run_for_pr Samples.unreachable "run-1" "p1" "r1"
      None PlanSamples.env_ok 60
    = Some (acts, ending, Some PlanSamples.the_client)
    /\ ((exists e, In e (events acts) /\ is_timeout_event e)
        <-> forall k, k < 60 -> pass_goes_on Samples.unreachable k)
    /\ (broadcasts_return Samples.unreachable ->
        exists e,
          events acts = [e]
          /\ (is_timeout_event e
              <-> forall k, k < 60 -> poll_goes_on Samples.unreachable k)).
Proof.
  apply (monitor_times_out_iff_no_decisive_poll Samples.unreachable
           "run-1" "p1" "r1" None PlanSamples.env_ok
           PlanSamples.the_client (Some PlanSamples.the_client) 60).
  - reflexivity.
  - apply le_n.
Defined.

(** A broadcast that raises inside the loop does not end the task and
    does not leave the loop: after a decisive poll whose broadcast
    raises, the error is logged, the task waits 10 seconds, and the
    loop goes on with the attempt counter one higher -- the event of
    the terminal status having been handed to the broadcaster. *)
Theorem monitor_retries_after_failed_broadcast
        (w : Monitor.World) (agent_run_id project_id requirement_id : string)
        (k : nat) (x : string) :
  poll_decides w k ->
  broadcast_raises w k = Some x ->
  exists before e,
    loop_body w agent_run_id project_id requirement_id k
    = (before ++ [Broadcast project_id requirement_id e;
                  LogError ("Error monitoring agent run " ++ agent_run_id
                            ++ ": " ++ x)%string;
                  Sleep 10], Continue)
    /\ events before = [] /\ sleeps before = [] /\ polls before = 1
    /\ is_status_event e
    /\ forall fuel,
        k < max_attempts ->
        while_loop w agent_run_id project_id requirement_id (S fuel) k
        = match while_loop w agent_run_id project_id requirement_id
                  fuel (k + 1) with
          | Some (acts', attempt') =>
              Some ((before ++ [Broadcast project_id requirement_id e;
                                LogError ("Error monitoring agent run "
                                          ++ agent_run_id ++ ": " ++ x)%string;
                                Sleep 10]) ++ acts', attempt')
          | None => None
          end.
Proof.
  intros (run & Hrun & Hd) Hx.
  assert (Hbody : exists before e,
            loop_body w agent_run_id project_id requirement_id k
            = (before ++ [Broadcast project_id requirement_id e;
                          log_monitor_error agent_run_id x; Sleep 10], Continue)
            /\ events before = [] /\ sleeps before = [] /\ polls before = 1
            /\ is_status_event e).
  { destruct Hd as [Hf | (Hc & logs & Hlogs)].
    - rewrite (loop_body_failed w agent_run_id project_id requirement_id
                 k run Hrun Hf).
      rewrite (broadcast_then_raises w agent_run_id project_id requirement_id
                 k _ _ _ x Hx).
      eexists _, _. split; [reflexivity|].
      split; [reflexivity|]. split; [reflexivity|]. split; [reflexivity|].
      right. right. split; reflexivity.
    - rewrite (loop_body_completed w agent_run_id project_id requirement_id
                 k run logs Hrun Hc Hlogs).
      destruct (extract_pr_url_from_logs _) as [u|];
        rewrite (broadcast_then_raises w agent_run_id project_id
                   requirement_id k _ _ _ x Hx);
        eexists _, _; (split; [reflexivity|]);
        (split; [reflexivity|]); (split; [reflexivity|]);
        (split; [reflexivity|]).
      + left. split; [reflexivity|]. now exists u.
      + right. left. split; reflexivity. }
  destruct Hbody as (before & e & Hb & He & Hs & Hp & Hse).
  exists before, e. unfold log_monitor_error in Hb.
  split; [exact Hb|]. split; [exact He|]. split; [exact Hs|].
  split; [exact Hp|]. split; [exact Hse|].
  intros fuel Hk. rewrite while_loop_step by exact Hk. now rewrite Hb.
Qed.

Lemma monitor_retries_after_failed_broadcast_witness :
  exists before e,
    loop_body MoreSamples.fails_at_last_attempt "run-1" "p1" "r1" 59
    = (before ++ [Broadcast "p1" "r1" e;
                  LogError "Error monitoring agent run run-1: dictionary changed size during iteration";
                  Sleep 10], Continue)
    /\ events before = [] /\ sleeps before = [] /\ polls before = 1
    /\ is_status_event e
    /\ forall fuel,
        59 < max_attempts ->
        while_loop MoreSamples.fails_at_last_attempt "run-1" "p1" "r1"
          (S fuel) 59
        = match while_loop MoreSamples.fails_at_last_attempt "run-1" "p1" "r1"
                  fuel (59 + 1) with
          | Some (acts', attempt') =>
              Some ((before ++ [Broadcast "p1" "r1" e;
                                LogError "Error monitoring agent run run-1: dictionary changed size during iteration";
                                Sleep 10]) ++ acts', attempt')
          | None => None
          end.
Proof.
  apply (monitor_retries_after_failed_broadcast
           MoreSamples.fails_at_last_attempt "run-1" "p1" "r1" 59
           "dictionary changed size during iteration").
  - exists (Samples.run_with "failed"). split; [reflexivity|].
    left. reflexivity.
  - reflexivity.
Defined.

End MonitorOutcomes.

Section MonitorLogs.

Lemma loop_body_no_log_fetch w agent_run_id project_id requirement_id k :
  (forall run, get_agent_run (run_wire w k) = Returned run ->
               status_of run <> completed) ->
  log_fetches (fst (loop_body w agent_run_id project_id requirement_id k)) = 0.
Proof.
  intros H. unfold loop_body.
  destruct (get_agent_run (run_wire w k)) as [e|run]; [reflexivity|].
  specialize (H run eq_refl).
  destruct (str_eq (run_status run) "completed") eqn:Ec.
  { now apply status_of_completed in Ec. }
  destruct (str_eq (run_status run) "failed"); [|reflexivity].
  unfold broadcast_then. destruct (broadcast_raises w k); reflexivity.
Qed.

(** The logs are fetched only on a poll that shows the status
    completed: a run that never shows it ends without a log fetch. *)
Theorem monitor_fetches_logs_only_when_completed
        (w : Monitor.World) (agent_run_id project_id requirement_id : string)
        (codegen_client : option CodegenClient) (env : Env) (fuel : nat) :
  max_attempts <= fuel ->
  (forall k run, k < 60 -> get_agent_run (run_wire w k) = Returned run ->
                 status_of run <> completed) ->
  exists acts ending g,
    monitor_agent_run_for_pr w agent_run_id project_id requirement_id
      codegen_client env fuel
    = Some (acts, ending, g)
    /\ log_fetches acts = 0.
Proof.
  intros Hfuel Hnc.
  destruct (get_codegen_client codegen_client env) as [[e|c] g] eqn:Hclient.
  { exists [], (Raises e), g.
    split; [now apply monitor_without_client | reflexivity]. }
  assert (Hflat : forall n, n <= 60 ->
            log_fetches
              (flat_map (fun j => fst (loop_body w agent_run_id project_id
                                         requirement_id j)) (seq 0 n)) = 0).
  { induction n as [|n IH]; intros Hn; [reflexivity|].
    rewrite seq_S, flat_map_app, log_fetches_app, IH by lia.
    cbn [flat_map Nat.add]. rewrite app_nil_r.
    apply loop_body_no_log_fetch. intros run. apply Hnc. lia. }
  destruct (monitor_runs w agent_run_id project_id requirement_id
              codegen_client env c g fuel Hclient Hfuel)
    as (n & _ & [(-> & Hm) | (Hn & _ & Hm)]).
  - eexists _, _, _. split; [exact Hm|].
    rewrite log_fetches_app, Hflat by (unfold max_attempts; lia). reflexivity.
  - eexists _, _, _. split; [exact Hm|].
    unfold max_attempts in Hn.
    rewrite log_fetches_app, Hflat by lia.
    apply loop_body_no_log_fetch. intros run. apply Hnc. lia.
Qed.

Lemma monitor_fetches_logs_only_when_completed_witness :
  exists acts ending g,
    monitor_agent_run_for_pr MoreSamples.flaky_then_failed "run-1" "p1" "r1"
      None PlanSamples.env_ok 60
    = Some (acts, ending, g)
    /\ log_fetches acts = 0.
Proof.
  apply (monitor_fetches_logs_only_when_completed MoreSamples.flaky_then_failed).
  - apply le_n.
  - intros k run _.
    destruct k as [|[|[|k]]]; vm_compute; intros [= <-]; discriminate.
Defined.

End MonitorLogs.

(** ** The registry: lookups and routes *)

Section RegistryMore.

Lemma dict_get_set_same {V} (d : list (nat * V)) k v :
  dict_get (dict_set d k v) k = Some v.
Proof.
  induction d as [|[k0 v0] d IH]; simpl.
  - now rewrite Nat.eqb_refl.
  - destruct (Nat.eqb_spec k0 k) as [->|Hne]; simpl.
    + now rewrite Nat.eqb_refl.
    + destruct (Nat.eqb_spec k0 k); [contradiction | exact IH].
Qed.

Lemma dict_get_set_other {V} (d : list (nat * V)) k v k' :
  k' <> k -> dict_get (dict_set d k v) k' = dict_get d k'.
Proof.
  intros Hne. induction d as [|[k0 v0] d IH]; simpl.
  - destruct (Nat.eqb_spec k k'); [congruence | reflexivity].
  - destruct (Nat.eqb_spec k0 k) as [->|Hk]; simpl.
    + destruct (Nat.eqb_spec k k'); [congruence | reflexivity].
    + destruct (Nat.eqb_spec k0 k'); [reflexivity | exact IH].
Qed.

Lemma dict_get_none {V} (d : list (nat * V)) k :
  ~ In k (map fst d) -> dict_get d k = None.
Proof.
  induction d as [|[k0 v0] d IH]; simpl; [reflexivity|].
  intros H. destruct (Nat.eqb_spec k0 k) as [->|Hne].
  - elim H. now left.
  - apply IH. intros Hin. apply H. now right.
Qed.

Lemma dict_get_del_other {V} (d : list (nat * V)) k k' :
  k' <> k -> dict_get (dict_del d k) k' = dict_get d k'.
Proof.
  intros Hne. induction d as [|[k0 v0] d IH]; simpl; [reflexivity|].
  destruct (Nat.eqb_spec k0 k) as [->|Hk]; simpl.
  - destruct (Nat.eqb_spec k k'); [congruence | reflexivity].
  - destruct (Nat.eqb_spec k0 k'); [reflexivity | exact IH].
Qed.

Lemma dict_get_in {V} (d : list (nat * V)) k v :
  dict_get d k = Some v -> In (k, v) d.
Proof.
  induction d as [|[k0 v0] d IH]; simpl; [discriminate|].
  destruct (Nat.eqb_spec k0 k) as [->|Hne].
  - intros [= ->]. now left.
  - intros H. right. now apply IH.
Qed.


(** In a reachable state the registry is a proper dictionary of active
    connections: no connection has two subscriptions, and whoever is
    subscribed is connected. *)
Theorem registry_keeps_one_subscription_per_active_connection
        (m : ConnectionManager) :
  reachable m ->
  NoDup (map fst (pr_subscriptions m))
  /\ forall connection_id s,
      dict_get (pr_subscriptions m) connection_id = Some s ->
      exists websocket,
        In websocket (active_connections m)
        /\ ws_id websocket = connection_id.
Proof.
  intros Hr. destruct (reachable_ok m Hr) as [Hnd Hsub].
  split; [exact Hnd|]. intros cid s Hget.
  apply dict_get_in in Hget. apply (in_map fst) in Hget.
  apply Hsub, in_map_iff in Hget. destruct Hget as (ws & Hid & Hin).
  now exists ws.
Qed.

Lemma registry_keeps_one_subscription_per_active_connection_witness :
  NoDup (map fst (pr_subscriptions Samples.three_observers))
  /\ forall connection_id s,
      dict_get (pr_subscriptions Samples.three_observers) connection_id = Some s ->
      exists websocket,
        In websocket (active_connections Samples.three_observers)
        /\ ws_id websocket = connection_id.
Proof.
  apply (registry_keeps_one_subscription_per_active_connection
           Samples.three_observers).
  exact reachable_three_observers.
Defined.

(** Subscribing is an upsert: afterwards the connection has exactly the
    new subscription, every other connection has the one it had, and
    the connections are as before. *)
Theorem subscribe_replaces_own_subscription_only
        (m : ConnectionManager) (connection_id : nat) (s : Subscription) :
  dict_get (pr_subscriptions (subscribe m connection_id s)) connection_id
  = Some s
  /\ (forall other, other <> connection_id ->
        dict_get (pr_subscriptions (subscribe m connection_id s)) other
        = dict_get (pr_subscriptions m) other)
  /\ active_connections (subscribe m connection_id s) = active_connections m
  /\ (NoDup (map fst (pr_subscriptions m)) ->
      NoDup (map fst (pr_subscriptions (subscribe m connection_id s)))).
Proof.
  unfold subscribe; simpl. split; [apply dict_get_set_same|].
  split; [intros other Hne; now apply dict_get_set_other|].
  split; [reflexivity | apply dict_set_nodup].
Qed.

Lemma subscribe_replaces_own_subscription_only_witness :
  dict_get (pr_subscriptions (subscribe Samples.three_observers 2 Samples.sub_k2)) 2
  = Some Samples.sub_k2
  /\ dict_get (pr_subscriptions (subscribe Samples.three_observers 2 Samples.sub_k2)) 1
     = dict_get (pr_subscriptions Samples.three_observers) 1.
Proof.
  pose proof (subscribe_replaces_own_subscription_only
                Samples.three_observers 2 Samples.sub_k2) as [Hown [Hother _]].
  split; [exact Hown|]. apply Hother. discriminate.
Defined.

(** After a disconnect the connection has no subscription left, the
    other subscriptions are untouched, and no broadcast sends to it. *)
Theorem disconnect_ends_subscription
        (send_text_ok : nat -> bool) (m : ConnectionManager)
        (websocket : WebSocket) :
  reachable m ->
  let m' := disconnect m websocket (ws_id websocket) in
  dict_get (pr_subscriptions m') (ws_id websocket) = None
  /\ (forall other, other <> ws_id websocket ->
        dict_get (pr_subscriptions m') other
        = dict_get (pr_subscriptions m) other)
  /\ forall project_id requirement_id event_data d,
      In d (broadcast_pr_event send_text_ok m' project_id requirement_id
              event_data) ->
      fst (attempted d) <> ws_id websocket.
Proof.
  intros Hr m'. destruct (reachable_ok m Hr) as [Hnd _].
  destruct (dict_del_nodup (pr_subscriptions m) (ws_id websocket) Hnd)
    as [_ Hnin].
  split; [now apply dict_get_none|].
  split; [intros other Hne; now apply dict_get_del_other|].
  intros project_id requirement_id event_data d Hd Heq.
  unfold broadcast_pr_event in Hd. apply in_flat_map in Hd.
  destruct Hd as ([cid sub] & Hin & Hd).
  destruct ((sub_project_id sub =? project_id)
            && (sub_requirement_id sub =? requirement_id))%string;
    [|destruct Hd].
  destruct (find_connection m' cid) as [ws|] eqn:Ef; [|destruct Hd].
  apply find_connection_id in Ef.
  assert (Hc : fst (attempted d) = cid).
  { destruct (send_text_ok (ws_id ws)); destruct Hd as [<- | []];
      simpl; exact Ef. }
  assert (Hcid : cid = ws_id websocket) by congruence.
  apply Hnin. apply (in_map fst) in Hin. simpl in Hin.
  rewrite Hcid in Hin. exact Hin.
Qed.

Lemma disconnect_ends_subscription_witness :
  let m' := disconnect Samples.three_observers {| ws_id := 2 |} 2 in
  dict_get (pr_subscriptions m') 2 = None
  /\ (forall other, other <> 2 ->
        dict_get (pr_subscriptions m') other
        = dict_get (pr_subscriptions Samples.three_observers) other)
  /\ forall project_id requirement_id event_data d,
      In d (broadcast_pr_event Samples.first_channel_down m'
              project_id requirement_id event_data) ->
      fst (attempted d) <> 2.
Proof.
  apply (disconnect_ends_subscription Samples.first_channel_down
           Samples.three_observers {| ws_id := 2 |}).
  exact reachable_three_observers.
Defined.

End RegistryMore.

Section RouteFacts.

Lemma broadcast_route (send_text_ok : nat -> bool) (m : ConnectionManager)
      (project_id requirement_id : string) (event_data : EventData) :
  reachable m ->
  broadcast_pr_event send_text_ok m project_id requirement_id event_data
  = map (fun entry =>
           send_to send_text_ok
             (pr_message project_id requirement_id event_data) (fst entry))
        (filter (key_matches project_id requirement_id) (pr_subscriptions m)).
Proof.
  intros Hr. destruct (reachable_ok m Hr) as [_ Hsub].
  unfold broadcast_pr_event.
  assert (H : forall subs,
            (forall cid, In cid (map fst subs) ->
                         In cid (map ws_id (active_connections m))) ->
            flat_map
              (fun entry : nat * Subscription =>
                 let (connection_id, subscription) := entry in
                 if ((sub_project_id subscription =? project_id)
                     && (sub_requirement_id subscription =? requirement_id))%string
                 then
                   match find_connection m connection_id with
                   | Some websocket =>
                       if send_text_ok (ws_id websocket)
                       then [Sent (ws_id websocket)
                               {| msg_type := "pr_status_update";
                                  msg_projectId := project_id;
                                  msg_requirementId := requirement_id;
                                  msg_event := event_data |}]
                       else [SendFailedLogged (ws_id websocket)
                               {| msg_type := "pr_status_update";
                                  msg_projectId := project_id;
                                  msg_requirementId := requirement_id;
                                  msg_event := event_data |}]
                   | None => []
                   end
                 else []) subs
            = map (fun entry =>
                     send_to send_text_ok
                       (pr_message project_id requirement_id event_data)
                       (fst entry))
                  (filter (key_matches project_id requirement_id) subs)).
  { induction subs as [|[cid sub] subs IH]; intros Hs; [reflexivity|].
    cbn [flat_map filter]. rewrite IH by (intros c Hc; apply Hs; now right).
    change ((sub_project_id sub =? project_id)
            && (sub_requirement_id sub =? requirement_id))%string
      with (key_matches project_id requirement_id (cid, sub)).
    destruct (key_matches project_id requirement_id (cid, sub));
      [|reflexivity].
    destruct (find_connection_some m cid) as (ws & -> & ->);
      [apply Hs; now left|].
    cbn [map fst]. unfold send_to, pr_message.
    destruct (send_text_ok cid); reflexivity. }
  now apply H.
Qed.






End RouteFacts.

Section SubscriberFacts.



Lemma deliveries_app send_text_ok m a b :
  deliveries send_text_ok m (a ++ b)
  = deliveries send_text_ok m a ++ deliveries send_text_ok m b.
Proof. unfold deliveries. now rewrite flat_map_app. Qed.

Lemma no_broadcast_deliveries send_text_ok m acts :
  no_broadcast acts -> deliveries send_text_ok m acts = [].
Proof.
  induction 1 as [|a acts Ha _ IH]; [reflexivity|].
  destruct a; try discriminate; exact IH.
Qed.

(** From subscription to delivery: when a connection subscribes for a
    run under a key, the task started for that run -- if it has its
    client and none of its broadcasts raises, the registry staying as
    it is -- emits its one event under that key, and the broadcast of
    that event goes to the subscribing connection -- sent when its
    channel works, caught and logged when it does not -- and to it
    once. *)
Theorem subscriber_gets_the_event_of_its_run
        (send_text_ok : nat -> bool) (m : ConnectionManager)
        (websocket : WebSocket) (s : Subscription)
        (w : Monitor.World)
        (codegen_client : option CodegenClient) (env : Env)
        (c : CodegenClient) (g : option CodegenClient) (fuel : nat) :
  reachable m ->
  In websocket (active_connections m) ->
  get_codegen_client codegen_client env = (Returned c, g) ->
  (forall k, broadcast_raises w k = None) ->
  max_attempts <= fuel ->
  exists acts e,
    monitor_agent_run_for_pr w (sub_agent_run_id s) (sub_project_id s)
      (sub_requirement_id s) codegen_client env fuel
    = Some (acts, Returns, g)
    /\ events acts = [e]
    /\ count_occ Nat.eq_dec
         (map (fun d => fst (attempted d))
            (deliveries send_text_ok (subscribe m (ws_id websocket) s) acts))
         (ws_id websocket) = 1
    /\ In (send_to send_text_ok
             (pr_message (sub_project_id s) (sub_requirement_id s) e)
             (ws_id websocket))
          (deliveries send_text_ok (subscribe m (ws_id websocket) s) acts).
Proof.
  intros Hr Hin Hclient Hcalm Hfuel.
  destruct (monitor_shape w (sub_agent_run_id s) (sub_project_id s)
              (sub_requirement_id s) codegen_client env c g fuel Hclient
              (fun k _ => Hcalm k) Hfuel)
    as (pre & e & post & ending & Hm & Hpre & Hpost & Hend & _).
  rewrite (Hend (Hcalm max_attempts)) in Hm.
  exists (pre ++ Broadcast (sub_project_id s) (sub_requirement_id s) e :: post), e.
  split; [exact Hm|].
  assert (Hd : deliveries send_text_ok (subscribe m (ws_id websocket) s)
                 (pre ++ Broadcast (sub_project_id s) (sub_requirement_id s) e
                      :: post)
               = broadcast_pr_event send_text_ok
                   (subscribe m (ws_id websocket) s)
                   (sub_project_id s) (sub_requirement_id s) e).
  { change (Broadcast (sub_project_id s) (sub_requirement_id s) e :: post)
      with ([Broadcast (sub_project_id s) (sub_requirement_id s) e] ++ post).
    rewrite !deliveries_app, (no_broadcast_deliveries _ _ _ Hpre),
      (no_broadcast_deliveries _ _ _ (quiet_no_broadcast _ Hpost)).
    cbn. now rewrite !app_nil_r. }
  split.
  { change (Broadcast (sub_project_id s) (sub_requirement_id s) e :: post)
      with ([Broadcast (sub_project_id s) (sub_requirement_id s) e] ++ post).
    rewrite !events_app, (no_broadcast_events _ Hpre),
      (no_broadcast_events _ (quiet_no_broadcast _ Hpost)). reflexivity. }
  rewrite Hd.
  pose proof (reach_subscribe m websocket s Hr Hin) as Hr'.
  destruct (reachable_ok _ Hr') as [Hnd _].
  assert (Hmine : In (ws_id websocket, s)
                     (pr_subscriptions (subscribe m (ws_id websocket) s))).
  { apply dict_get_in. apply dict_get_set_same. }
  assert (Hkey : key_matches (sub_project_id s) (sub_requirement_id s)
                   (ws_id websocket, s) = true).
  { unfold key_matches. simpl. now rewrite !String.eqb_refl. }
  rewrite (broadcast_route _ _ _ _ _ Hr'). split.
  - rewrite map_map.
    assert (E : forall l : list (nat * Subscription),
              map (fun x => fst (attempted
                                   (send_to send_text_ok
                                      (pr_message (sub_project_id s)
                                         (sub_requirement_id s) e) (fst x)))) l
              = map fst l).
    { intros l. apply map_ext. intros [cid sub]. unfold send_to. simpl.
      now destruct (send_text_ok cid). }
    rewrite E. apply NoDup_count_occ'.
    + clear - Hnd.
      induction (pr_subscriptions (subscribe m (ws_id websocket) s))
        as [|[cid sub] subs IH]; [constructor|].
      inversion Hnd as [|? ? Hnin Hnd']; subst. cbn [filter].
      destruct (key_matches _ _ (cid, sub)); [|now apply IH].
      cbn [map fst]. constructor; [|now apply IH].
      intros Hin. apply Hnin. apply in_map_iff in Hin.
      destruct Hin as (x & Hx & Hin). apply filter_In in Hin.
      rewrite <- Hx. apply in_map. apply Hin.
    + apply (in_map fst _ (ws_id websocket, s)).
      apply filter_In. now split.
  - apply (in_map (fun entry =>
                     send_to send_text_ok
                       (pr_message (sub_project_id s) (sub_requirement_id s) e)
                       (fst entry))
             _ (ws_id websocket, s)).
    apply filter_In. now split.
Qed.

Lemma subscriber_gets_the_event_of_its_run_witness :
  exists acts e,
    monitor_agent_run_for_pr Samples.completes_third
      (sub_agent_run_id Samples.sub_k) (sub_project_id Samples.sub_k)
      (sub_requirement_id Samples.sub_k) None PlanSamples.env_ok 60
    = Some (acts, Returns, Some PlanSamples.the_client)
    /\ events acts = [e]
    /\ count_occ Nat.eq_dec
         (map (fun d => fst (attempted d))
            (deliveries Samples.first_channel_down
               (subscribe Samples.three_observers 2 Samples.sub_k) acts))
         2 = 1
    /\ In (send_to Samples.first_channel_down
             (pr_message (sub_project_id Samples.sub_k)
                (sub_requirement_id Samples.sub_k) e) 2)
          (deliveries Samples.first_channel_down
             (subscribe Samples.three_observers 2 Samples.sub_k) acts).
Proof.
  apply (subscriber_gets_the_event_of_its_run Samples.first_channel_down
           Samples.three_observers {| ws_id := 2 |} Samples.sub_k
           Samples.completes_third None PlanSamples.env_ok
           PlanSamples.the_client (Some PlanSamples.the_client) 60).
  - exact reachable_three_observers.
  - simpl. auto.
  - reflexivity.
  - intros k. reflexivity.
  - apply le_n.
Defined.

End SubscriberFacts.

(** ** The agent client *)

Section ClientFacts.

Lemma py_or_has_value (a b : option string) :
  has_value (py_or a b) <-> has_value a \/ has_value b.
Proof.
  destruct a as [[|c s]|]; simpl; tauto.
Qed.

(** The constructor fails fast: a client is made exactly when an
    organization id and a token are each given, as a non-empty argument
    or else as a non-empty environment variable; otherwise it raises,
    and a missing organization id is reported before a missing token. *)
Theorem init_requires_both_credentials
        (org_id token : option string) (base_url : string) (env : Env) :
  ((exists c, init org_id token base_url env = Returned c)
   <-> (has_value org_id \/ has_value (CODEGEN_ORG_ID env))
       /\ (has_value token \/ has_value (CODEGEN_TOKEN env)))
  /\ (~ (has_value org_id \/ has_value (CODEGEN_ORG_ID env)) ->
      init org_id token base_url env
      = Raised "Organization ID is required. Set CODEGEN_ORG_ID environment variable or pass org_id parameter.").
Proof.
  rewrite <- !py_or_has_value. unfold init.
  destruct (py_or org_id (CODEGEN_ORG_ID env)) as [[|c o]|];
    destruct (py_or token (CODEGEN_TOKEN env)) as [[|d t]|]; simpl;
    (split; [split; [intros [x Hx]; try discriminate; tauto
                    | intros [H1 H2]; try contradiction; eauto]
            | intros H; try reflexivity; tauto]).
Qed.

Lemma init_requires_both_credentials_witness :
  (exists c, init None (Some "sk-arg"%string) default_base_url
               PlanSamples.env_ok = Returned c)
  /\ init None (Some "sk-arg"%string) default_base_url
       {| CODEGEN_ORG_ID := Some ""%string; CODEGEN_TOKEN := None |}
     = Raised "Organization ID is required. Set CODEGEN_ORG_ID environment variable or pass org_id parameter.".
Proof.
  split.
  - apply (proj1 (init_requires_both_credentials None (Some "sk-arg"%string)
                    default_base_url PlanSamples.env_ok)).
    simpl. auto.
  - apply (proj2 (init_requires_both_credentials None (Some "sk-arg"%string)
                    default_base_url
                    {| CODEGEN_ORG_ID := Some ""%string;
                       CODEGEN_TOKEN := None |})).
    simpl. intros [H | H]; exact H.
Defined.

(** On success the client holds the argument when it is a non-empty
    string and the environment variable otherwise (an empty argument
    counts as absent); both are non-empty, and the authorization header
    is "Bearer " followed by the token. *)
Theorem init_prefers_arguments
        (org_id token : option string) (base_url : string) (env : Env)
        (c : CodegenClient) :
  init org_id token base_url env = Returned c ->
  Some (Client.org_id c) = py_or org_id (CODEGEN_ORG_ID env)
  /\ Some (Client.token c) = py_or token (CODEGEN_TOKEN env)
  /\ (has_value org_id -> Some (Client.org_id c) = org_id)
  /\ (has_value token -> Some (Client.token c) = token)
  /\ Client.org_id c <> ""%string /\ Client.token c <> ""%string
  /\ Client.base_url c = base_url
  /\ headers c = [("authorization", "Bearer " ++ Client.token c);
                  ("Content-Type", "application/json")]%string.
Proof.
  unfold init.
  destruct (py_or org_id (CODEGEN_ORG_ID env)) as [[|a o]|] eqn:Eo;
    try discriminate.
  destruct (py_or token (CODEGEN_TOKEN env)) as [[|b t]|] eqn:Et;
    try discriminate.
  intros [= <-]. simpl. repeat split; try discriminate.
  - intros H. destruct org_id as [[|x s]|]; simpl in *; try contradiction.
    now rewrite Eo.
  - intros H. destruct token as [[|x s]|]; simpl in *; try contradiction.
    now rewrite Et.
Qed.

Lemma init_prefers_arguments_witness :
  let env := {| CODEGEN_ORG_ID := Some "323"%string;
                CODEGEN_TOKEN := Some "sk-env"%string |} in
  let c := {| org_id := "323"; token := "sk-arg";
              base_url := default_base_url;
              headers := [("authorization", "Bearer sk-arg");
                          ("Content-Type", "application/json")]%string |} in
  Some (Client.org_id c) = py_or (Some ""%string) (CODEGEN_ORG_ID env)
  /\ Some (Client.token c) = py_or (Some "sk-arg"%string) (CODEGEN_TOKEN env)
  /\ (has_value (Some ""%string) -> Some (Client.org_id c) = Some ""%string)
  /\ (has_value (Some "sk-arg"%string)
      -> Some (Client.token c) = Some "sk-arg"%string)
  /\ Client.org_id c <> ""%string /\ Client.token c <> ""%string
  /\ Client.base_url c = default_base_url
  /\ headers c = [("authorization", "Bearer " ++ Client.token c);
                  ("Content-Type", "application/json")]%string.
Proof.
  intros env c.
  apply (init_prefers_arguments (Some ""%string) (Some "sk-arg"%string)
           default_base_url env c).
  reflexivity.
Defined.

(** The process-wide client is made once: after a call that returns a
    client, every later call returns that same client whatever the
    environment has become; a call that raises leaves nothing behind,
    so the next call reads the environment again. *)
Theorem get_codegen_client_is_made_once
        (codegen_client : option CodegenClient) (env : Env) :
  (forall c g,
      get_codegen_client codegen_client env = (Returned c, g) ->
      g = Some c
      /\ forall env', get_codegen_client g env' = (Returned c, Some c))
  /\ (forall e g,
         get_codegen_client codegen_client env = (Raised e, g) ->
         codegen_client = None /\ g = None
         /\ forall env',
             get_codegen_client g env'
             = match init None None default_base_url env' with
               | Returned c => (Returned c, Some c)
               | Raised e' => (Raised e', None)
               end).
Proof.
  unfold get_codegen_client. split.
  - intros c g H. destruct codegen_client as [c0|].
    + injection H as <- <-. auto.
    + destruct (init None None default_base_url env) as [e|c1];
        [discriminate|].
      injection H as <- <-. auto.
  - intros e g H. destruct codegen_client as [c0|]; [discriminate|].
    destruct (init None None default_base_url env) as [e1|c1];
      [|discriminate].
    injection H as <- <-. auto.
Qed.

Lemma get_codegen_client_is_made_once_witness :
  let env := {| CODEGEN_ORG_ID := Some "323"%string;
                CODEGEN_TOKEN := Some "sk-env"%string |} in
  let c := {| org_id := "323"; token := "sk-env";
              base_url := default_base_url;
              headers := [("authorization", "Bearer sk-env");
                          ("Content-Type", "application/json")]%string |} in
  Some c = Some c
  /\ forall env', get_codegen_client (Some c) env' = (Returned c, Some c).
Proof.
  intros env c.
  apply (proj1 (get_codegen_client_is_made_once None env) c (Some c)).
  reflexivity.
Defined.

(** [_make_request] returns a document exactly when the method is get
    or post in some letter case, a response came back, its status code
    is not a 4xx or 5xx, and its body is JSON; the document is that
    body.  In every other case it raises. *)
Theorem make_request_returns_iff
        {A : Type} (method : string) (wire : Http A) (body : A) :
  _make_request method wire = Returned body
  <-> (lower method = "get"%string \/ lower method = "post"%string)
      /\ exists status_code,
          wire = Response status_code (Some body)
          /\ (status_code < 400 \/ 600 <= status_code).
Proof.
  unfold _make_request, is_http_error. split.
  - destruct ((lower method =? "get") || (lower method =? "post"))%string
      eqn:Em; [|discriminate].
    apply orb_true_iff in Em. rewrite !String.eqb_eq in Em.
    destruct wire as [e|code [b|]]; try discriminate.
    + destruct ((400 <=? code) && (code <? 600)) eqn:Ec; [discriminate|].
      intros [= ->]. split; [exact Em|]. exists code. split; [reflexivity|].
      apply andb_false_iff in Ec.
      rewrite Nat.leb_gt, Nat.ltb_ge in Ec. lia.
    + destruct ((400 <=? code) && (code <? 600)); discriminate.
  - intros [Hm (code & -> & Hc)].
    assert (Em : ((lower method =? "get") || (lower method =? "post"))%string
                 = true).
    { apply orb_true_iff. now rewrite !String.eqb_eq. }
    rewrite Em.
    assert (Ec : (400 <=? code) && (code <? 600) = false).
    { apply andb_false_iff. rewrite Nat.leb_gt, Nat.ltb_ge. lia. }
    now rewrite Ec.
Qed.

Lemma make_request_returns_iff_witness :
  _make_request "GET" (Response 204 (Some (Samples.run_with "running")))
  = Returned (Samples.run_with "running").
Proof.
  apply (proj2 (make_request_returns_iff "GET"
                  (Response 204 (Some (Samples.run_with "running")))
                  (Samples.run_with "running"))).
  split; [left; reflexivity|].
  exists 204. split; [reflexivity|]. left. repeat constructor.
Defined.

End ClientFacts.

(** ** One-shot plan creation *)

Import Plan.

Section PlanLoop.

Variable w : Plan.World.
Variable agent_run : CreatedRun.
Variable id : string.
Hypothesis Hid : created_id agent_run = Some id.

Lemma wait_guard k : (5 * k <? max_wait) = (k <? 24).
Proof.
  unfold max_wait.
  destruct (Nat.ltb_spec (5 * k) 120), (Nat.ltb_spec k 24); lia.
Qed.

Lemma poll_index k : 5 * k / 5 = k.
Proof. rewrite Nat.mul_comm. apply Nat.div_mul. discriminate. Qed.

Lemma flat_map_seq_const {B : Type} (c : list B) n :
  forall a b,
    flat_map (fun _ : nat => c) (seq a n) = flat_map (fun _ : nat => c) (seq b n).
Proof.
  induction n as [|n IH]; intros a b; [reflexivity|].
  cbn [seq flat_map]. now rewrite (IH (S a) (S b)).
Qed.

Lemma polls_and_waits_S n :
  polls_and_waits id (S n) = PollRun id :: Wait 5 :: polls_and_waits id n.
Proof.
  unfold polls_and_waits. cbn [seq flat_map app].
  now rewrite (flat_map_seq_const _ n 1 0).
Qed.

Lemma polls_and_waits_counts n :
  plan_polls (polls_and_waits id n) = n
  /\ plan_waits (polls_and_waits id n) = repeat 5 n
  /\ plan_log_fetches (polls_and_waits id n) = 0.
Proof.
  induction n as [|n (Hp & Hw & Hl)]; [now repeat split|].
  rewrite polls_and_waits_S.
  unfold plan_polls, plan_waits, plan_log_fetches in *.
  cbn [filter flat_map List.length app repeat].
  rewrite Hp, Hw, Hl. now repeat split.
Qed.

(** One iteration that leaves the loop waiting. *)
Lemma wait_loop_waits fuel k last :
  k < 24 -> plan_poll_waits w k ->
  exists run s,
    get_agent_run (poll_wire w k) = Returned run
    /\ Codegen.run_status run = Some s
    /\ s <> "completed"%string /\ s <> "failed"%string
    /\ wait_loop w agent_run (S fuel) (5 * k) last
       = match wait_loop w agent_run fuel (5 * (k + 1)) run with
         | Some (steps, e) => Some (PollRun id :: Wait 5 :: steps, e)
         | None => None
         end.
Proof.
  intros Hk (run & s & Hrun & Hs & Hc & Hf).
  exists run, s. repeat split; try assumption.
  cbn [wait_loop]. rewrite wait_guard, (proj2 (Nat.ltb_lt _ _) Hk).
  rewrite Hid, poll_index, Hrun, Hs.
  apply String.eqb_neq in Hc, Hf. rewrite Hc, Hf. simpl orb. cbv iota.
  replace (5 * k + 5) with (5 * (k + 1)) by lia. reflexivity.
Qed.

(** One iteration that ends the loop. *)
Lemma wait_loop_ends fuel k last :
  k < 24 -> ~ plan_poll_waits w k ->
  wait_loop w agent_run (S fuel) (5 * k) last
  = Some ([PollRun id], poll_end w k).
Proof.
  intros Hk Hn. cbn [wait_loop].
  rewrite wait_guard, (proj2 (Nat.ltb_lt _ _) Hk), Hid, poll_index.
  unfold poll_end.
  destruct (get_agent_run (poll_wire w k)) as [e|run] eqn:Hrun; [reflexivity|].
  destruct (Codegen.run_status run) as [s|] eqn:Hs; [|reflexivity].
  destruct ((s =? "completed") || (s =? "failed"))%string eqn:E;
    [reflexivity|].
  exfalso. apply Hn. exists run, s.
  apply orb_false_iff in E. rewrite !String.eqb_neq in E. tauto.
Qed.

Lemma wait_loop_over fuel k last :
  24 <= k -> wait_loop w agent_run fuel (5 * k) last = Some ([], LoopDone last).
Proof.
  intros Hk.
  destruct fuel; cbn [wait_loop]; now rewrite wait_guard, (proj2 (Nat.ltb_ge _ _) Hk).
Qed.

(** The loop polls and waits until the first poll that does not leave
    it waiting. *)
Lemma wait_loop_until n :
  forall j fuel last k,
    j + n = k -> k < 24 -> n < fuel ->
    (forall i, j <= i < k -> plan_poll_waits w i) ->
    ~ plan_poll_waits w k ->
    wait_loop w agent_run fuel (5 * j) last
    = Some (polls_and_waits id n ++ [PollRun id], poll_end w k).
Proof.
  induction n as [|n IH]; intros j fuel last k Hsum Hk Hfuel Hall Hend.
  - rewrite Nat.add_0_r in Hsum. subst j.
    destruct fuel as [|fuel]; [lia|]. now apply wait_loop_ends.
  - destruct fuel as [|fuel]; [lia|].
    destruct (wait_loop_waits fuel j last) as (run & s & _ & _ & _ & _ & ->);
      [lia | apply Hall; lia |].
    rewrite (IH (j + 1) fuel run k); try lia; try assumption.
    + now rewrite polls_and_waits_S.
    + intros i Hi. apply Hall. lia.
Qed.

(** When every poll leaves it waiting the loop stops at 120 seconds,
    with the last run polled. *)
Lemma wait_loop_all_wait n :
  forall j fuel last,
    j + n = 24 -> n <= fuel ->
    (forall i, j <= i < 24 -> plan_poll_waits w i) ->
    exists last',
      wait_loop w agent_run fuel (5 * j) last
      = Some (polls_and_waits id n, LoopDone last')
      /\ (0 < n ->
          exists s, Codegen.run_status last' = Some s
                    /\ s <> "completed"%string /\ s <> "failed"%string).
Proof.
  induction n as [|n IH]; intros j fuel last Hsum Hfuel Hall.
  - exists last. split; [apply wait_loop_over; lia | lia].
  - destruct fuel as [|fuel]; [lia|].
    destruct (wait_loop_waits fuel j last)
      as (run & s & _ & Hs & Hc & Hf & ->); [lia | apply Hall; lia |].
    destruct (IH (j + 1) fuel run) as (last' & Heq & Hlast);
      [lia | lia | intros i Hi; apply Hall; lia |].
    exists last'. rewrite Heq. split; [now rewrite polls_and_waits_S|].
    intros _. destruct n as [|n].
    + assert (E : wait_loop w agent_run fuel (5 * (j + 1)) run
                  = Some ([], LoopDone run)) by (apply wait_loop_over; lia).
      rewrite E in Heq. injection Heq as <-. exists s. auto.
    + apply Hlast. lia.
Qed.

End PlanLoop.

Section PlanCounts.

Lemma plan_polls_app a b : plan_polls (a ++ b) = plan_polls a + plan_polls b.
Proof. unfold plan_polls. now rewrite filter_app, length_app. Qed.

Lemma plan_log_fetches_app a b :
  plan_log_fetches (a ++ b) = plan_log_fetches a + plan_log_fetches b.
Proof. unfold plan_log_fetches. now rewrite filter_app, length_app. Qed.

Lemma plan_waits_app a b : plan_waits (a ++ b) = plan_waits a ++ plan_waits b.
Proof. unfold plan_waits. now rewrite flat_map_app. Qed.

(** Whatever the service answers, the loop returns, having polled at
    most once per 5 seconds left and fetched no logs. *)
Ltac plan_count :=
  unfold plan_polls, plan_log_fetches, plan_waits;
  cbn [filter flat_map List.length app repeat];
  try reflexivity; try lia.

Lemma wait_loop_bounded (w : Plan.World) (agent_run : CreatedRun) fuel :
  forall j last,
    j <= 24 -> 24 - j <= fuel ->
    exists steps e n,
      wait_loop w agent_run fuel (5 * j) last = Some (steps, e)
      /\ plan_polls steps <= 24 - j
      /\ plan_log_fetches steps = 0
      /\ plan_waits steps = repeat 5 n /\ n <= 24 - j
      /\ n <= plan_polls steps.
Proof.
  induction fuel as [|fuel IH]; intros j last Hj Hfuel.
  - exists [], (LoopDone last), 0.
    rewrite (wait_loop_over w agent_run 0 j last) by lia.
    repeat split; plan_count.
  - destruct (Nat.eq_dec j 24) as [->|Hne].
    { exists [], (LoopDone last), 0.
      rewrite (wait_loop_over w agent_run (S fuel) 24 last) by lia.
      repeat split; plan_count. }
    assert (Hlt : j < 24) by lia.
    cbn [wait_loop]. rewrite wait_guard, (proj2 (Nat.ltb_lt _ _) Hlt).
    destruct (created_id agent_run) as [id|].
    2:{ exists [], (LoopRaised (KeyError "id")), 0. repeat split; plan_count. }
    rewrite poll_index.
    destruct (get_agent_run (poll_wire w j)) as [e|run].
    { exists [PollRun id], (LoopRaised (ClientError e)), 0.
      repeat split; plan_count. }
    destruct (Codegen.run_status run) as [s|].
    2:{ exists [PollRun id], (LoopRaised (KeyError "status")), 0.
        repeat split; plan_count. }
    destruct ((s =? "completed") || (s =? "failed"))%string.
    { exists [PollRun id], (LoopDone run), 0. repeat split; plan_count. }
    replace (5 * j + 5) with (5 * (j + 1)) by lia.
    destruct (IH (j + 1) run) as (steps & e & n & -> & Hp & Hl & Hw & Hn & Hnp);
      [lia | lia |].
    exists (PollRun id :: Wait 5 :: steps), e, (S n).
    unfold plan_polls, plan_log_fetches, plan_waits in *.
    cbn [filter flat_map List.length app repeat].
    rewrite Hw. repeat split; try lia; try exact Hl.
Qed.

End PlanCounts.

Section PlanClaims.

(** The counts of a request: the creation, the steps of the loop, and
    what follows them. *)
Lemma plan_request_counts (total steps tail : list Step) (prompt : string)
      (n : nat) :
  total = CreateAgentRun prompt :: steps ++ tail ->
  plan_polls tail = 0 -> plan_waits tail = [] ->
  plan_polls steps <= 24 -> plan_log_fetches steps = 0 ->
  plan_waits steps = repeat 5 n -> n <= plan_polls steps ->
  plan_polls total <= 24
  /\ plan_log_fetches total = plan_log_fetches tail
  /\ plan_waits total = repeat 5 n
  /\ n <= plan_polls total
  /\ list_sum (plan_waits total) <= 120.
Proof.
  intros -> Hpt Hwt Hp Hl Hw Hn.
  change (CreateAgentRun prompt :: steps ++ tail)
    with ([CreateAgentRun prompt] ++ steps ++ tail).
  rewrite !plan_polls_app, !plan_log_fetches_app, !plan_waits_app,
    Hpt, Hwt, Hl, Hw.
  cbn [plan_polls plan_log_fetches plan_waits filter flat_map List.length app].
  rewrite app_nil_r, list_sum_repeat. repeat split; lia.
Qed.

(** Every request for a plan is bounded and ends in one of two ways.
    It makes at most 24 polls, waits 5 seconds after a poll and at most
    120 seconds in all, and fetches the logs at most once.  It ends with
    a plan -- made from one log fetch, with a content that is never
    empty, marked created, its id being the id of the run -- or with the
    error 500, the cause having been logged last. *)
Theorem create_plan_is_bounded
        (codegen_client : option CodegenClient) (env : Env) (w : Plan.World)
        (project_id requirement_id : string) (fuel : nat) :
  24 <= fuel ->
  exists steps out g n,
    create_plan codegen_client env w project_id requirement_id fuel
    = Some (steps, out, g)
    /\ plan_polls steps <= 24
    /\ plan_log_fetches steps <= 1
    /\ plan_waits steps = repeat 5 n /\ n <= plan_polls steps
    /\ list_sum (plan_waits steps) <= 120
    /\ (forall plan,
          out = PlanCreated plan ->
          plan_log_fetches steps = 1
          /\ plan_content plan <> ""%string
          /\ plan_status plan = "created"%string
          /\ plan_id plan = plan_agentRunId plan)
    /\ (forall e,
          out = Http500 e -> exists before, steps = before ++ [LogFailed e]).
Proof.
  intros Hfuel. unfold create_plan, handler_fails.
  destruct (get_codegen_client codegen_client env) as [[e|c] g].
  { exists [LogFailed (ClientError e)], (Http500 (ClientError e)), g, 0.
    split; [reflexivity|]. split; [cbn; lia|]. split; [cbn; lia|].
    split; [reflexivity|]. split; [cbn; lia|]. split; [cbn; lia|].
    split; [intros plan H; discriminate|].
    intros e' [= <-]. now exists []. }
  destruct (_make_request "post" (create_wire w)) as [e|agent_run].
  { exists [CreateAgentRun (plan_prompt project_id); LogFailed (ClientError e)],
      (Http500 (ClientError e)), g, 0.
    split; [reflexivity|]. split; [cbn; lia|]. split; [cbn; lia|].
    split; [reflexivity|]. split; [cbn; lia|]. split; [cbn; lia|].
    split; [intros plan H; discriminate|].
    intros e' [= <-]. now exists [CreateAgentRun (plan_prompt project_id)]. }
  destruct (wait_loop_bounded w agent_run fuel 0 {| run_status := None |})
    as (steps & e & n & Hloop & Hp & Hl & Hw & Hn & Hnp); [lia | lia |].
  change (5 * 0) with 0 in Hloop. rewrite Hloop.
  assert (Hfail : forall tail x,
            plan_polls tail = 0 -> plan_waits tail = [] ->
            plan_log_fetches tail <= 1 ->
            exists steps0 out g0 n0,
              Some ((CreateAgentRun (plan_prompt project_id) :: steps ++ tail)
                      ++ [LogFailed x], Http500 x, g)
              = Some (steps0, out, g0)
              /\ plan_polls steps0 <= 24
              /\ plan_log_fetches steps0 <= 1
              /\ plan_waits steps0 = repeat 5 n0 /\ n0 <= plan_polls steps0
              /\ list_sum (plan_waits steps0) <= 120
              /\ (forall plan,
                    out = PlanCreated plan ->
                    plan_log_fetches steps0 = 1
                    /\ plan_content plan <> ""%string
                    /\ plan_status plan = "created"%string
                    /\ plan_id plan = plan_agentRunId plan)
              /\ (forall e0,
                    out = Http500 e0 ->
                    exists before, steps0 = before ++ [LogFailed e0])).
  { intros tail x Ht1 Ht2 Ht3.
    eexists _, _, g, n. split; [reflexivity|].
    destruct (plan_request_counts
                ((CreateAgentRun (plan_prompt project_id) :: steps ++ tail)
                   ++ [LogFailed x])
                steps (tail ++ [LogFailed x]) (plan_prompt project_id) n)
      as (A & B & C & D & E); try assumption; try lia.
    - cbn [app]. now rewrite <- app_assoc.
    - rewrite plan_polls_app, Ht1. reflexivity.
    - rewrite plan_waits_app, Ht2. reflexivity.
    - rewrite (plan_log_fetches_app tail [LogFailed x]) in B.
      change (plan_log_fetches [LogFailed x]) with 0 in B.
      split; [exact A|]. split; [lia|]. split; [exact C|].
      split; [exact D|]. split; [exact E|].
      split; [intros plan H; discriminate|].
      intros e0 [= <-]. eexists. reflexivity. }
  destruct e as [e | run_status].
  { specialize (Hfail [] e eq_refl eq_refl (Nat.le_0_l 1)).
    rewrite app_nil_r in Hfail. exact Hfail. }
  unfold after_loop.
  destruct (Codegen.run_status run_status) as [s|];
    [|exact (Hfail [] _ eq_refl eq_refl (Nat.le_0_l 1))].
  destruct (s =? "completed")%string;
    [|exact (Hfail [] _ eq_refl eq_refl (Nat.le_0_l 1))].
  destruct (created_id agent_run) as [id|];
    [|exact (Hfail [] _ eq_refl eq_refl (Nat.le_0_l 1))].
  destruct (get_agent_run_logs (plan_logs_wire w)) as [e|logs];
    [exact (Hfail [FetchLogs id] _ eq_refl eq_refl (le_n 1))|].
  eexists _, _, g, n. split; [reflexivity|].
  destruct (plan_request_counts
              (CreateAgentRun (plan_prompt project_id)
                 :: steps ++ [FetchLogs id;
                              LogCreated ("Created plan for requirement "
                                            ++ requirement_id)%string])
              steps
              [FetchLogs id;
               LogCreated ("Created plan for requirement "
                             ++ requirement_id)%string]
              (plan_prompt project_id) n)
    as (A & B & C & D & E); try assumption; try reflexivity; try lia.
  change (plan_log_fetches
            [FetchLogs id;
             LogCreated ("Created plan for requirement "
                           ++ requirement_id)%string]) with 1 in B.
  split; [exact A|]. split; [lia|]. split; [exact C|].
  split; [exact D|]. split; [exact E|].
  split; [|intros e0 H; discriminate].
  intros plan [= <-]. cbn. split; [exact B|].
  split; [apply plan_text_not_empty | auto].
Qed.

Lemma create_plan_is_bounded_witness :
  exists steps out g n,
    create_plan None PlanSamples.env_ok PlanSamples.drops_third "p1" "r1" 24
    = Some (steps, out, g)
    /\ plan_polls steps <= 24
    /\ plan_log_fetches steps <= 1
    /\ plan_waits steps = repeat 5 n /\ n <= plan_polls steps
    /\ list_sum (plan_waits steps) <= 120
    /\ (forall plan,
          out = PlanCreated plan ->
          plan_log_fetches steps = 1
          /\ plan_content plan <> ""%string
          /\ plan_status plan = "created"%string
          /\ plan_id plan = plan_agentRunId plan)
    /\ (forall e,
          out = Http500 e -> exists before, steps = before ++ [LogFailed e]).
Proof.
  apply (create_plan_is_bounded None PlanSamples.env_ok PlanSamples.drops_third
           "p1" "r1" 24).
  apply le_n.
Defined.

End PlanClaims.

Section PlanOutcomes.

Variable codegen_client : option CodegenClient.
Variable env : Env.
Variable w : Plan.World.
Variables project_id requirement_id : string.
Variable c : CodegenClient.
Variable g : option CodegenClient.
Variable agent_run : CreatedRun.
Variable id : string.

Hypothesis Hclient : get_codegen_client codegen_client env = (Returned c, g).
Hypothesis Hcreate : _make_request "post" (create_wire w) = Returned agent_run.
Hypothesis Hid : created_id agent_run = Some id.

(** The request up to the end of the loop, when poll [k] is the first
    that does not leave it waiting. *)
Lemma create_plan_until k fuel :
  k < 24 -> 24 <= fuel ->
  (forall j, j < k -> plan_poll_waits w j) ->
  ~ plan_poll_waits w k ->
  wait_loop w agent_run fuel 0 {| run_status := None |}
  = Some (polls_and_waits id k ++ [PollRun id], poll_end w k).
Proof.
  intros Hk Hfuel Hall Hend.
  change 0 with (5 * 0) at 1.
  apply (wait_loop_until w agent_run id Hid k 0 fuel _ k); try lia;
    try assumption.
  intros i Hi. apply Hall. lia.
Qed.

Lemma terminal_not_waiting k run s :
  get_agent_run (poll_wire w k) = Returned run ->
  Codegen.run_status run = Some s ->
  s = "completed"%string \/ s = "failed"%string ->
  ~ plan_poll_waits w k /\ poll_end w k = LoopDone run.
Proof.
  intros Hrun Hs Hterm. split.
  - intros (run' & s' & Hrun' & Hs' & Hc & Hf).
    rewrite Hrun in Hrun'. injection Hrun' as <-.
    rewrite Hs in Hs'. injection Hs' as <-. tauto.
  - unfold poll_end. now rewrite Hrun, Hs.
Qed.

Lemma create_plan_completed k fuel run logs :
  k < 24 -> 24 <= fuel ->
  (forall j, j < k -> plan_poll_waits w j) ->
  get_agent_run (poll_wire w k) = Returned run ->
  Codegen.run_status run = Some "completed"%string ->
  get_agent_run_logs (plan_logs_wire w) = Returned logs ->
  create_plan codegen_client env w project_id requirement_id fuel
  = Some (CreateAgentRun (plan_prompt project_id)
            :: (polls_and_waits id k ++ [PollRun id])
            ++ [FetchLogs id;
                LogCreated ("Created plan for requirement " ++ requirement_id)%string],
          PlanCreated
            {| plan_id := id;
               plan_content :=
                 extract_plan_from_logs
                   (match logs_lines logs with Some l => l | None => [] end);
               plan_status := "created";
               plan_createdAt := plan_now w;
               plan_agentRunId := id |},
          g).
Proof.
  intros Hk Hfuel Hall Hrun Hs Hlogs.
  destruct (terminal_not_waiting k run _ Hrun Hs (or_introl eq_refl))
    as [Hend Hpe].
  unfold create_plan. rewrite Hclient, Hcreate.
  rewrite (create_plan_until k fuel Hk Hfuel Hall Hend), Hpe.
  unfold after_loop. now rewrite Hs, Hid, Hlogs.
Qed.

Lemma create_plan_not_completed k fuel run s :
  k < 24 -> 24 <= fuel ->
  (forall j, j < k -> plan_poll_waits w j) ->
  get_agent_run (poll_wire w k) = Returned run ->
  Codegen.run_status run = Some s ->
  s = "failed"%string ->
  create_plan codegen_client env w project_id requirement_id fuel
  = Some ((CreateAgentRun (plan_prompt project_id)
             :: (polls_and_waits id k ++ [PollRun id]) ++ [])
            ++ [LogFailed (HTTPException 500 "Failed to generate plan")],
          Http500 (HTTPException 500 "Failed to generate plan"), g).
Proof.
  intros Hk Hfuel Hall Hrun Hs ->.
  destruct (terminal_not_waiting k run _ Hrun Hs (or_intror eq_refl))
    as [Hend Hpe].
  unfold create_plan. rewrite Hclient, Hcreate.
  rewrite (create_plan_until k fuel Hk Hfuel Hall Hend), Hpe.
  unfold after_loop. now rewrite Hs.
Qed.

Lemma create_plan_poll_raises k fuel e :
  k < 24 -> 24 <= fuel ->
  (forall j, j < k -> plan_poll_waits w j) ->
  get_agent_run (poll_wire w k) = Raised e ->
  create_plan codegen_client env w project_id requirement_id fuel
  = Some ((CreateAgentRun (plan_prompt project_id)
             :: polls_and_waits id k ++ [PollRun id])
            ++ [LogFailed (ClientError e)],
          Http500 (ClientError e), g).
Proof.
  intros Hk Hfuel Hall Hrun.
  assert (Hend : ~ plan_poll_waits w k).
  { intros (run' & s' & Hrun' & _). rewrite Hrun in Hrun'. discriminate. }
  unfold create_plan. rewrite Hclient, Hcreate.
  rewrite (create_plan_until k fuel Hk Hfuel Hall Hend).
  unfold poll_end. now rewrite Hrun.
Qed.

Lemma create_plan_never_settles fuel :
  24 <= fuel ->
  (forall j, j < 24 -> plan_poll_waits w j) ->
  create_plan codegen_client env w project_id requirement_id fuel
  = Some ((CreateAgentRun (plan_prompt project_id)
             :: polls_and_waits id 24 ++ [])
            ++ [LogFailed (HTTPException 500 "Failed to generate plan")],
          Http500 (HTTPException 500 "Failed to generate plan"), g).
Proof.
  intros Hfuel Hall.
  destruct (wait_loop_all_wait w agent_run id Hid 24 0 fuel
              {| run_status := None |})
    as (last' & Hloop & Hlast); [lia | lia | intros i Hi; apply Hall; lia |].
  destruct Hlast as (s & Hs & Hc & Hf); [lia|].
  unfold create_plan. rewrite Hclient, Hcreate.
  change (5 * 0) with 0 in Hloop. rewrite Hloop.
  unfold after_loop. rewrite Hs.
  apply String.eqb_neq in Hc. now rewrite Hc.
Qed.

End PlanOutcomes.

Section PlanExtras.

Lemma request_counts (id prompt : string) (k : nat) (tail : list Step) :
  plan_polls tail = 0 -> plan_waits tail = [] ->
  let steps := CreateAgentRun prompt
                 :: (polls_and_waits id k ++ [PollRun id]) ++ tail in
  plan_polls steps = k + 1
  /\ plan_waits steps = repeat 5 k
  /\ plan_log_fetches steps = plan_log_fetches tail.
Proof.
  intros Ht1 Ht2 steps. unfold steps.
  destruct (polls_and_waits_counts id k) as (Hp & Hw & Hl).
  change (CreateAgentRun prompt :: (polls_and_waits id k ++ [PollRun id]) ++ tail)
    with ([CreateAgentRun prompt] ++ (polls_and_waits id k ++ [PollRun id]) ++ tail).
  rewrite !plan_polls_app, !plan_waits_app, !plan_log_fetches_app,
    Hp, Hw, Hl, Ht1, Ht2.
  cbn [plan_polls plan_waits plan_log_fetches filter flat_map List.length app].
  rewrite !app_nil_r. repeat split; lia.
Qed.

(** When the client is there, the run is created, the polls before
    poll [k] show a status other than completed and failed, poll [k]
    shows completed and the logs can be fetched, the request returns
    the plan extracted from those logs -- never empty -- under the id of
    the run, after [k + 1] polls, [k] waits of 5 seconds and one log
    fetch. *)
Theorem create_plan_returns_extracted_plan
        (codegen_client : option CodegenClient) (env : Env) (w : Plan.World)
        (project_id requirement_id : string)
        (c : CodegenClient) (g : option CodegenClient)
        (agent_run : CreatedRun) (id : string)
        (k fuel : nat) (run : AgentRun) (logs : AgentRunLogs) :
  get_codegen_client codegen_client env = (Returned c, g) ->
  _make_request "post" (create_wire w) = Returned agent_run ->
  created_id agent_run = Some id ->
  k < 24 -> 24 <= fuel ->
  (forall j, j < k -> plan_poll_waits w j) ->
  get_agent_run (poll_wire w k) = Returned run ->
  Codegen.run_status run = Some "completed"%string ->
  get_agent_run_logs (plan_logs_wire w) = Returned logs ->
  exists steps plan,
    create_plan codegen_client env w project_id requirement_id fuel
    = Some (steps, PlanCreated plan, g)
    /\ plan_content plan
       = extract_plan_from_logs
           (match logs_lines logs with Some l => l | None => [] end)
    /\ plan_content plan <> ""%string
    /\ plan_id plan = id /\ plan_agentRunId plan = id
    /\ plan_status plan = "created"%string
    /\ plan_polls steps = k + 1
    /\ plan_waits steps = repeat 5 k
    /\ plan_log_fetches steps = 1.
Proof.
  intros Hclient Hcreate Hid Hk Hfuel Hall Hrun Hs Hlogs.
  eexists _, _. split.
  - exact (create_plan_completed codegen_client env w project_id
             requirement_id c g agent_run id Hclient Hcreate Hid
             k fuel run logs Hk Hfuel Hall Hrun Hs Hlogs).
  - cbn [plan_content plan_id plan_agentRunId plan_status].
    split; [reflexivity|]. split; [apply plan_text_not_empty|].
    split; [reflexivity|]. split; [reflexivity|]. split; [reflexivity|].
    apply (request_counts id (plan_prompt project_id) k
             [FetchLogs id;
              LogCreated ("Created plan for requirement " ++ requirement_id)%string]);
      reflexivity.
Qed.

Lemma create_plan_returns_extracted_plan_witness :
  exists steps plan,
    create_plan None PlanSamples.env_ok (PlanSamples.settles_third "completed")
      "p1" "r1" 24
    = Some (steps, PlanCreated plan, Some PlanSamples.the_client)
    /\ plan_content plan
       = extract_plan_from_logs
           (match logs_lines PlanSamples.plan_logs with
            | Some l => l | None => [] end)
    /\ plan_content plan <> ""%string
    /\ plan_id plan = "run-9"%string /\ plan_agentRunId plan = "run-9"%string
    /\ plan_status plan = "created"%string
    /\ plan_polls steps = 2 + 1
    /\ plan_waits steps = repeat 5 2
    /\ plan_log_fetches steps = 1.
Proof.
  apply (create_plan_returns_extracted_plan None PlanSamples.env_ok
           (PlanSamples.settles_third "completed") "p1" "r1"
           PlanSamples.the_client (Some PlanSamples.the_client)
           {| created_id := Some "run-9"%string |} "run-9" 2 24
           (Samples.run_with "completed") PlanSamples.plan_logs).
  - reflexivity.
  - reflexivity.
  - reflexivity.
  - repeat constructor.
  - apply le_n.
  - intros j Hj. exists (Samples.run_with "running"), "running"%string.
    destruct j as [|[|j]].
    + repeat split; discriminate.
    + repeat split; discriminate.
    + exfalso. apply (Nat.lt_irrefl 2).
      apply (Nat.le_lt_trans _ (S (S j))); [|exact Hj].
      apply le_n_S, le_n_S, Nat.le_0_l.
  - reflexivity.
  - reflexivity.
  - reflexivity.
Defined.

(** Unlike the monitor, the request does not absorb a failing poll:
    when the polls before poll [k] leave the loop waiting and poll [k]
    raises, the request ends at once with the error 500 for that
    exception -- [k + 1] polls, no log fetch, no plan. *)
Theorem create_plan_propagates_poll_error
        (codegen_client : option CodegenClient) (env : Env) (w : Plan.World)
        (project_id requirement_id : string)
        (c : CodegenClient) (g : option CodegenClient)
        (agent_run : CreatedRun) (id : string)
        (k fuel : nat) (e : string) :
  get_codegen_client codegen_client env = (Returned c, g) ->
  _make_request "post" (create_wire w) = Returned agent_run ->
  created_id agent_run = Some id ->
  k < 24 -> 24 <= fuel ->
  (forall j, j < k -> plan_poll_waits w j) ->
  get_agent_run (poll_wire w k) = Raised e ->
  exists steps,
    create_plan codegen_client env w project_id requirement_id fuel
    = Some (steps, Http500 (ClientError e), g)
    /\ plan_polls steps = k + 1
    /\ plan_waits steps = repeat 5 k
    /\ plan_log_fetches steps = 0.
Proof.
  intros Hclient Hcreate Hid Hk Hfuel Hall Hrun.
  eexists. split.
  - exact (create_plan_poll_raises codegen_client env w project_id
             requirement_id c g agent_run id Hclient Hcreate Hid
             k fuel e Hk Hfuel Hall Hrun).
  - cbn [app]. rewrite <- app_assoc.
    replace (polls_and_waits id k ++ [PollRun id] ++ [LogFailed (ClientError e)])
      with ((polls_and_waits id k ++ [PollRun id]) ++ [LogFailed (ClientError e)])
      by (now rewrite <- app_assoc).
    apply (request_counts id (plan_prompt project_id) k
             [LogFailed (ClientError e)]); reflexivity.
Qed.

Lemma create_plan_propagates_poll_error_witness :
  exists steps,
    create_plan None PlanSamples.env_ok PlanSamples.drops_third "p1" "r1" 24
    = Some (steps, Http500 (ClientError "connection reset"),
            Some PlanSamples.the_client)
    /\ plan_polls steps = 2 + 1
    /\ plan_waits steps = repeat 5 2
    /\ plan_log_fetches steps = 0.
Proof.
  apply (create_plan_propagates_poll_error None PlanSamples.env_ok
           PlanSamples.drops_third "p1" "r1"
           PlanSamples.the_client (Some PlanSamples.the_client)
           {| created_id := Some "run-9"%string |} "run-9" 2 24
           "connection reset").
  - reflexivity.
  - reflexivity.
  - reflexivity.
  - repeat constructor.
  - apply le_n.
  - intros j Hj. exists (Samples.run_with "running"), "running"%string.
    destruct j as [|[|j]].
    + repeat split; discriminate.
    + repeat split; discriminate.
    + exfalso. apply (Nat.lt_irrefl 2).
      apply (Nat.le_lt_trans _ (S (S j))); [|exact Hj].
      apply le_n_S, le_n_S, Nat.le_0_l.
  - reflexivity.
Defined.

(** A run that shows the status failed at poll [k], or that shows
    neither completed nor failed in any of the 24 polls, ends the
    request with the error 500 "Failed to generate plan" without a log
    fetch; in the second case after 24 polls and 120 seconds of
    waiting. *)
Theorem create_plan_fails_without_completed_run
        (codegen_client : option CodegenClient) (env : Env) (w : Plan.World)
        (project_id requirement_id : string)
        (c : CodegenClient) (g : option CodegenClient)
        (agent_run : CreatedRun) (id : string) (fuel : nat) :
  get_codegen_client codegen_client env = (Returned c, g) ->
  _make_request "post" (create_wire w) = Returned agent_run ->
  created_id agent_run = Some id ->
  24 <= fuel ->
  (forall k run,
      k < 24 ->
      (forall j, j < k -> plan_poll_waits w j) ->
      get_agent_run (poll_wire w k) = Returned run ->
      Codegen.run_status run = Some "failed"%string ->
      exists steps,
        create_plan codegen_client env w project_id requirement_id fuel
        = Some (steps, Http500 (HTTPException 500 "Failed to generate plan"), g)
        /\ plan_polls steps = k + 1
        /\ plan_waits steps = repeat 5 k
        /\ plan_log_fetches steps = 0)
  /\ ((forall j, j < 24 -> plan_poll_waits w j) ->
      exists steps,
        create_plan codegen_client env w project_id requirement_id fuel
        = Some (steps, Http500 (HTTPException 500 "Failed to generate plan"), g)
        /\ plan_polls steps = 24
        /\ plan_waits steps = repeat 5 24
        /\ list_sum (plan_waits steps) = 120
        /\ plan_log_fetches steps = 0).
Proof.
  intros Hclient Hcreate Hid Hfuel. split.
  - intros k run Hk Hall Hrun Hs. eexists. split.
    + exact (create_plan_not_completed codegen_client env w project_id
               requirement_id c g agent_run id Hclient Hcreate Hid
               k fuel run _ Hk Hfuel Hall Hrun Hs eq_refl).
    + rewrite app_nil_r. cbn [app]. rewrite <- app_assoc.
      replace (polls_and_waits id k ++ [PollRun id]
                 ++ [LogFailed (HTTPException 500 "Failed to generate plan")])
        with ((polls_and_waits id k ++ [PollRun id])
                ++ [LogFailed (HTTPException 500 "Failed to generate plan")])
        by (now rewrite <- app_assoc).
      apply (request_counts id (plan_prompt project_id) k
               [LogFailed (HTTPException 500 "Failed to generate plan")]);
        reflexivity.
  - intros Hall. eexists. split.
    + exact (create_plan_never_settles codegen_client env w project_id
               requirement_id c g agent_run id Hclient Hcreate Hid
               fuel Hfuel Hall).
    + rewrite app_nil_r. cbn [app].
      destruct (polls_and_waits_counts id 24) as (Hp & Hw & Hl).
      change (CreateAgentRun (plan_prompt project_id)
                :: polls_and_waits id 24
                ++ [LogFailed (HTTPException 500 "Failed to generate plan")])
        with ([CreateAgentRun (plan_prompt project_id)]
                ++ polls_and_waits id 24
                ++ [LogFailed (HTTPException 500 "Failed to generate plan")]).
      rewrite !plan_polls_app, !plan_waits_app, !plan_log_fetches_app,
        Hp, Hw, Hl.
      cbn [plan_polls plan_waits plan_log_fetches filter flat_map
             List.length app].
      rewrite !app_nil_r, list_sum_repeat. repeat split; lia.
Qed.

Lemma create_plan_fails_without_completed_run_witness :
  exists steps,
    create_plan None PlanSamples.env_ok (PlanSamples.settles_third "failed")
      "p1" "r1" 24
    = Some (steps, Http500 (HTTPException 500 "Failed to generate plan"),
            Some PlanSamples.the_client)
    /\ plan_polls steps = 2 + 1
    /\ plan_waits steps = repeat 5 2
    /\ plan_log_fetches steps = 0.
Proof.
  apply (proj1 (create_plan_fails_without_completed_run None PlanSamples.env_ok
                  (PlanSamples.settles_third "failed") "p1" "r1"
                  PlanSamples.the_client (Some PlanSamples.the_client)
                  {| created_id := Some "run-9"%string |} "run-9" 24
                  eq_refl eq_refl eq_refl (le_n 24))
           2 (Samples.run_with "failed")).
  - repeat constructor.
  - intros j Hj. exists (Samples.run_with "running"), "running"%string.
    destruct j as [|[|j]].
    + repeat split; discriminate.
    + repeat split; discriminate.
    + exfalso. apply (Nat.lt_irrefl 2).
      apply (Nat.le_lt_trans _ (S (S j))); [|exact Hj].
      apply le_n_S, le_n_S, Nat.le_0_l.
  - reflexivity.
  - reflexivity.
Defined.

(** Without credentials in the environment the first request for a plan
    fails before anything is sent: the constructor raises, the request
    answers 500 with that error, and no client is left behind. *)
Theorem create_plan_fails_fast_without_credentials
        (env : Env) (w : Plan.World) (project_id requirement_id : string)
        (fuel : nat) :
  ~ (has_value (CODEGEN_ORG_ID env) /\ has_value (CODEGEN_TOKEN env)) ->
  exists e,
    create_plan None env w project_id requirement_id fuel
    = Some ([LogFailed (ClientError e)], Http500 (ClientError e), None).
Proof.
  intros Hmissing. unfold create_plan, get_codegen_client, init.
  cbn [py_or].
  destruct (CODEGEN_ORG_ID env) as [[|a o]|]; try (eexists; reflexivity).
  destruct (CODEGEN_TOKEN env) as [[|b t]|]; try (eexists; reflexivity).
  exfalso. apply Hmissing. simpl. auto.
Qed.

Lemma create_plan_fails_fast_without_credentials_witness :
  exists e,
    create_plan None {| CODEGEN_ORG_ID := Some "323"%string;
                        CODEGEN_TOKEN := None |}
      PlanSamples.refuses_creation "p1" "r1" 24
    = Some ([LogFailed (ClientError e)], Http500 (ClientError e), None).
Proof.
  apply (create_plan_fails_fast_without_credentials
           {| CODEGEN_ORG_ID := Some "323"%string; CODEGEN_TOKEN := None |}).
  intros [_ H]. exact H.
Defined.

End PlanExtras.
